(** * Plot composition and rendering of qexpy ([qexpy/plotting.py])

    A shallow embedding of the [Plot] class: the scene state (ranges, colour
    cursor, attached datasets and user functions, display flags), the range
    bookkeeping of the [add_*] methods, the curve evaluation of
    [mpl_plot_function], the figure set-up of both backends and the linear-fit
    entry points.

    Conventions of the embedding.
    - Python numbers are exact rationals ([Q]); rounding, infinities and NaN
      of IEEE floats are outside the model.  [/] is Python 3 true division.
    - A method is a computation in the monad [M]: it reads and writes an
      environment holding the receiver [self], the process-wide flag
      [qe.Measurement.minmax_n], the text printed so far and the calls made to
      [matplotlib.pyplot] and to bokeh's I/O layer.  A raised exception is the
      result [Raise e]; the environment keeps every mutation made before it.
    - The range attributes hold whatever sequence object was stored in them
      (kind and items), because [set_plot_range] stores its argument as is.
    - The collaborators that live outside this file ([XYDataSet] methods, the
      uncertainty engine, [qexpy.plot_utils], [qexpy.utils.array_types]) are
      parameters of the development. *)

From Stdlib Require Import ZArith QArith Qround Qabs Lqa List Ascii String Bool Lia DecimalString.
Import ListNotations.
Open Scope string_scope.
Open Scope list_scope.
Open Scope Q_scope.

Set Implicit Arguments.

(** ** Numbers *)

Definition Qlt_bool (x y : Q) : bool :=
  (Qnum x * QDen y <? Qnum y * QDen x)%Z.

(** ** Python values and exceptions *)

Inductive exn : Type :=
| IndexError
| TypeError
| AttributeError
| UnboundLocalError
| ZeroDivisionError
| ValueError
| CollaboratorError.

Inductive Result (A : Type) : Type :=
| Return (a : A)
| Raise (e : exn).

Arguments Return {A} a.
Arguments Raise {A} e.

(** A scalar stored in a sequence: a number or a string. *)
Inductive Scalar : Type :=
| SNum (q : Q)
| SStr (s : string).

Inductive SeqType : Type := TList | TTuple | TNdarray.

Definition SeqType_eqb (a b : SeqType) : bool :=
  match a, b with
  | TList, TList | TTuple, TTuple | TNdarray, TNdarray => true
  | _, _ => false
  end.

(** A sequence object: [list], [tuple] or [numpy.ndarray] with its items. *)
Record Seq : Type := mkSeq { seq_type : SeqType; items : list Scalar }.

(** An uncertain scalar ([qe.Measurement]): mean, standard deviation and the
    name it was given, if any. *)
Record Measurement : Type := mkMeasurement { mean : Q; std : Q; mname : option string }.

(** The objects a caller may pass where the code inspects the type. *)
Inductive PyVal : Type :=
| PyNone
| PyScalar (s : Scalar)
| PySeq (s : Seq)
| PyMeasurement_Array (ms : list Measurement).

(** [[lo, hi]]: a fresh Python list of two numbers. *)
Definition list2 (lo hi : Q) : Seq := mkSeq TList [SNum lo; SNum hi].

Definition as_num (s : Scalar) : Result Q :=
  match s with
  | SNum q => Return q
  | SStr _ => Raise TypeError
  end.

(** [r[i]] used as a number. *)
Definition getitem (r : Seq) (i : nat) : Result Q :=
  match nth_error (items r) i with
  | Some s => as_num s
  | None => Raise IndexError
  end.

Fixpoint replace_nth {A : Type} (l : list A) (i : nat) (v : A) : list A :=
  match l, i with
  | [], _ => []
  | _ :: t, O => v :: t
  | h :: t, S j => h :: replace_nth t j v
  end.

(** [r[i] = v]: tuples are immutable, an index past the end raises.  An
    ndarray is taken to have a float dtype, so that the number is stored
    unchanged. *)
Definition setitem (r : Seq) (i : nat) (v : Scalar) : Result Seq :=
  match seq_type r with
  | TTuple => Raise TypeError
  | _ =>
      if Nat.ltb i (List.length (items r))
      then Return (mkSeq (seq_type r) (replace_nth (items r) i v))
      else Raise IndexError
  end.

(** [get_means()] and [get_stds()] of a [Measurement_Array]. *)
Definition get_means (ms : list Measurement) : list Q := map mean ms.
Definition get_stds (ms : list Measurement) : list Q := map std ms.

(** Element-wise [a + b] and [a - b] of two arrays of the same length. *)
Fixpoint zip_with {A B C : Type} (f : A -> B -> C) (a : list A) (b : list B) : list C :=
  match a, b with
  | x :: a', y :: b' => f x y :: zip_with f a' b'
  | _, _ => []
  end.

Definition arr_add (a b : list Q) : list Q := zip_with Qplus a b.
Definition arr_sub (a b : list Q) : list Q := zip_with Qminus a b.

(** [a.max()] and [a.min()]: [ValueError] on an empty array. *)
Definition arr_max (a : list Q) : Result Q :=
  match a with
  | [] => Raise ValueError
  | x :: t => Return (fold_left (fun m y => if Qlt_bool m y then y else m) t x)
  end.

Definition arr_min (a : list Q) : Result Q :=
  match a with
  | [] => Raise ValueError
  | x :: t => Return (fold_left (fun m y => if Qlt_bool y m then y else m) t x)
  end.

(** [np.linspace(a, b, n)] for [n >= 2]: [n] evenly spaced samples, the first
    at [a] and the last at [b]. *)
Definition linspace (a b : Q) (n : nat) : list Q :=
  map (fun i => a + inject_Z (Z.of_nat i) * ((b - a) / inject_Z (Z.of_nat (n - 1))))
      (seq 0 n).

(** ** Callables

    A user function or fit function, seen through the three ways the plot
    calls it.  Each call receives the value of [qe.Measurement.minmax_n] it
    runs under and returns the value it leaves behind, so a callable may read
    and write the flag; it may raise. *)
Record Callable : Type := mkCallable {
  (* [f(xvals, *pars)] on a grid, with plain parameters ([f(xvals)] when
     there are none). *)
  call : Z -> list Q -> list Scalar -> Result (list Q) * Z;
  (* [f(x, *pars)] at one point. *)
  call_point : Z -> Q -> list Scalar -> Result Q * Z;
  (* [f(xvals, *pars)] with uncertain parameters: a [Measurement_Array]. *)
  call_uncertain : Z -> list Q -> list Measurement -> Result (list Measurement) * Z
}.

(** ** Datasets ([qexpy.fitting.XYDataSet])

    The attributes of a dataset that the plot reads.  The fit stacks
    ([fit_pars], [fit_function], ...) grow by one record per fit; [l[-1]] is
    the most recent one. *)
Module XYDataSet.

Record t : Type := mk {
name : string;
xunits : string;
xname : string;
yunits : string;
yname : string;
xdata : list Q;
ydata : list Q;
xerr : list Q;
yerr : list Q;
is_histogram : bool;
hist_data : option (list Q);
hist_bins : nat;
nfits : nat;
fit_pars : list (list Measurement);
fit_npars : list nat;
fit_function : list Callable;
fit_function_name : list string;
fit_yres : list (list Measurement);
fit_pcorr : list (list (list Q))
}.

Definition with_name (v : string) (p : t) : t :=
{| name := v; xunits := xunits p; xname := xname p; yunits := yunits p; yname := yname p; xdata :=
   xdata p; ydata := ydata p; xerr := xerr p; yerr := yerr p; is_histogram := is_histogram p;
   hist_data := hist_data p; hist_bins := hist_bins p; nfits := nfits p; fit_pars := fit_pars p;
   fit_npars := fit_npars p; fit_function := fit_function p; fit_function_name :=
   fit_function_name p; fit_yres := fit_yres p; fit_pcorr := fit_pcorr p |}.

Definition with_xunits (v : string) (p : t) : t :=
{| name := name p; xunits := v; xname := xname p; yunits := yunits p; yname := yname p; xdata :=
   xdata p; ydata := ydata p; xerr := xerr p; yerr := yerr p; is_histogram := is_histogram p;
   hist_data := hist_data p; hist_bins := hist_bins p; nfits := nfits p; fit_pars := fit_pars p;
   fit_npars := fit_npars p; fit_function := fit_function p; fit_function_name :=
   fit_function_name p; fit_yres := fit_yres p; fit_pcorr := fit_pcorr p |}.

Definition with_xname (v : string) (p : t) : t :=
{| name := name p; xunits := xunits p; xname := v; yunits := yunits p; yname := yname p; xdata :=
   xdata p; ydata := ydata p; xerr := xerr p; yerr := yerr p; is_histogram := is_histogram p;
   hist_data := hist_data p; hist_bins := hist_bins p; nfits := nfits p; fit_pars := fit_pars p;
   fit_npars := fit_npars p; fit_function := fit_function p; fit_function_name :=
   fit_function_name p; fit_yres := fit_yres p; fit_pcorr := fit_pcorr p |}.

Definition with_yunits (v : string) (p : t) : t :=
{| name := name p; xunits := xunits p; xname := xname p; yunits := v; yname := yname p; xdata :=
   xdata p; ydata := ydata p; xerr := xerr p; yerr := yerr p; is_histogram := is_histogram p;
   hist_data := hist_data p; hist_bins := hist_bins p; nfits := nfits p; fit_pars := fit_pars p;
   fit_npars := fit_npars p; fit_function := fit_function p; fit_function_name :=
   fit_function_name p; fit_yres := fit_yres p; fit_pcorr := fit_pcorr p |}.

Definition with_yname (v : string) (p : t) : t :=
{| name := name p; xunits := xunits p; xname := xname p; yunits := yunits p; yname := v; xdata :=
   xdata p; ydata := ydata p; xerr := xerr p; yerr := yerr p; is_histogram := is_histogram p;
   hist_data := hist_data p; hist_bins := hist_bins p; nfits := nfits p; fit_pars := fit_pars p;
   fit_npars := fit_npars p; fit_function := fit_function p; fit_function_name :=
   fit_function_name p; fit_yres := fit_yres p; fit_pcorr := fit_pcorr p |}.

End XYDataSet.

Definition Dataset : Type := XYDataSet.t.

(** [l[-1]]. *)
Definition last_item {A : Type} (l : list A) : Result A :=
  match rev l with
  | x :: _ => Return x
  | [] => Raise IndexError
  end.

(** [l[i]] for [i >= 0]. *)
Definition item {A : Type} (l : list A) (i : nat) : Result A :=
  match nth_error l i with
  | Some x => Return x
  | None => Raise IndexError
  end.

(** [l[-1] = v] on a non-empty list. *)
Definition set_last {A : Type} (l : list A) (v : A) : list A :=
  match rev l with
  | _ :: t => rev t ++ [v]
  | [] => []
  end.

(** ** Backend handles *)

Record MplFigure : Type := mkMplFigure { figsize : Q * Q }.

Inductive GridSpec : Type :=
| mkGridSpec (nrows ncols : nat) (height_ratios : list Q).

(** A drawn bokeh line and the patch of its error band, as
    [qexpy.plot_utils.bk_plot_function] returns them. *)
Record Line : Type := mkLine { line_x : list Q; line_y : list Q }.
Record Patches : Type := mkPatches { patch_x : list Q; patch_y : list Q }.

Inductive BkItem : Type :=
| BkLabel (x y : Q) (text : string)
| BkDataset (d : Dataset) (residual : bool) (color : string)
| BkPoints (xs ys : list Q) (xerr yerr : option (list Q)) (color data_name : string)
| BkFunction (l : Line) (p : option Patches) (legend_name : option string) (color : string).

(** A bokeh figure.  [bp.figure] copies the bounds of the ranges it is given
    into range objects of its own, so the figure holds their values at
    creation. *)
Record BkFigure : Type := mkBkFigure {
  bk_width : Q;
  bk_height : Q;
  bk_x_range : Seq;
  bk_y_range : Seq;
  bk_title : option string;
  bk_x_axis_label : string;
  bk_y_axis_label : string;
  bk_legend : option string * option string;
  bk_renderers : list BkItem
}.

Definition set_bk_legend (v : option string * option string) (f : BkFigure) : BkFigure :=
  {| bk_width := bk_width f; bk_height := bk_height f; bk_x_range := bk_x_range f;
     bk_y_range := bk_y_range f; bk_title := bk_title f;
     bk_x_axis_label := bk_x_axis_label f; bk_y_axis_label := bk_y_axis_label f;
     bk_legend := v; bk_renderers := bk_renderers f |}.

Definition add_renderer (i : BkItem) (f : BkFigure) : BkFigure :=
  {| bk_width := bk_width f; bk_height := bk_height f; bk_x_range := bk_x_range f;
     bk_y_range := bk_y_range f; bk_title := bk_title f;
     bk_x_axis_label := bk_x_axis_label f; bk_y_axis_label := bk_y_axis_label f;
     bk_legend := bk_legend f; bk_renderers := bk_renderers f ++ [i] |}.

(** What [self.bkfigure] holds: a figure, or the grid of the main figure over
    the residual figure that [populate_bokeh_figure] builds last. *)
Inductive BkObj : Type :=
| BkFig (f : BkFigure)
| BkGrid (main res : BkFigure).

(** Calls to [matplotlib.pyplot], in the order they are made. *)
Inductive PltCall : Type :=
| plt_figure (figsize : Q * Q)
| plt_subplot (gs : GridSpec) (i : nat)
| plt_axis (bounds : list Scalar)
| plt_xlabel (s : string)
| plt_ylabel (s : string)
| plt_title (s : string)
| plt_grid
| plt_text (x y : Q) (s : string) (fontsize : nat)
| plt_hist (data : list Q) (bins : nat) (label color : string)
| plt_bar (xs ys : list Q) (width : Q) (label color : string)
| plt_errorbar (xs ys xerr yerr : list Q) (color : string) (label : option string)
| plt_plot (xs ys : list Q) (color : string) (label : option string)
| plt_fill_between (xs fmin fmax : list Q) (facecolor : string)
| plt_legend (loc : string)
| plt_savefig (filename : string)
| plt_show.

(** Calls to bokeh's output layer and to the notebook helpers. *)
Inductive BkIOCall : Type :=
| bi_output_file (filename title : string)
| bi_output_notebook
| mpl_output_notebook
| bp_show (fig : BkObj)
| bi_push_notebook.

(** [q.plot_engine], up to the synonym table. *)
Inductive Engine : Type := EngineBokeh | EngineMpl | EngineOther.

Record Labels : Type := mkLabels { l_title : string; l_xtitle : string; l_ytitle : string }.

(** ** The Plot object and the environment *)

Record Plot : Type := mkPlot {
  color_palette : list string;
  color_count : nat;
  x_range_margin : Q;
  y_range_margin : Q;
  dimensions : Q * Q;
  mpl_scaling : Q;
  user_functions_count : nat;
  user_functions : list Callable;
  user_functions_pars : list PyVal;
  user_functions_names : list string;
  user_functions_colors : list string;
  save_filename : string;
  errorband_sigma : Q;
  show_residuals : bool;
  show_fit_results : bool;
  fit_results_x_offset : Q;
  fit_results_y_offset : Q;
  bk_legend_location : string;
  bk_legend_orientation : string;
  mpl_legend_location : string;
  mpl_show_legend : bool;
  datasets : list Dataset;
  datasets_colors : list string;
  xunits : string;
  xname : string;
  yunits : string;
  yname : string;
  x_range : Seq;
  y_range : Seq;
  title : string;
  initialized_from_dataset : bool;
  labels : Labels;
  yres_range : option Seq;
  mplfigure : option MplFigure;
  mpl_gs : option GridSpec;
  bkfigure : option BkObj;
  bkres : option BkFigure;
  linear_fit_line : option Line;
  linear_fit_patches : option (option Patches);
  linear_fit_pars : option (list Measurement);
  linear_fit_corr : option Q
}.

Definition with_color_count (v : nat) (p : Plot) : Plot :=
  {| color_palette := color_palette p; color_count := v; x_range_margin := x_range_margin p;
     y_range_margin := y_range_margin p; dimensions := dimensions p; mpl_scaling := mpl_scaling p;
     user_functions_count := user_functions_count p; user_functions := user_functions p;
     user_functions_pars := user_functions_pars p; user_functions_names := user_functions_names p;
     user_functions_colors := user_functions_colors p; save_filename := save_filename p;
     errorband_sigma := errorband_sigma p; show_residuals := show_residuals p; show_fit_results :=
     show_fit_results p; fit_results_x_offset := fit_results_x_offset p; fit_results_y_offset :=
     fit_results_y_offset p; bk_legend_location := bk_legend_location p; bk_legend_orientation :=
     bk_legend_orientation p; mpl_legend_location := mpl_legend_location p; mpl_show_legend :=
     mpl_show_legend p; datasets := datasets p; datasets_colors := datasets_colors p; xunits :=
     xunits p; xname := xname p; yunits := yunits p; yname := yname p; x_range := x_range p; y_range
     := y_range p; title := title p; initialized_from_dataset := initialized_from_dataset p; labels
     := labels p; yres_range := yres_range p; mplfigure := mplfigure p; mpl_gs := mpl_gs p; bkfigure
     := bkfigure p; bkres := bkres p; linear_fit_line := linear_fit_line p; linear_fit_patches :=
     linear_fit_patches p; linear_fit_pars := linear_fit_pars p; linear_fit_corr := linear_fit_corr
     p |}.

Definition with_dimensions (v : Q * Q) (p : Plot) : Plot :=
  {| color_palette := color_palette p; color_count := color_count p; x_range_margin :=
     x_range_margin p; y_range_margin := y_range_margin p; dimensions := v; mpl_scaling :=
     mpl_scaling p; user_functions_count := user_functions_count p; user_functions := user_functions
     p; user_functions_pars := user_functions_pars p; user_functions_names := user_functions_names
     p; user_functions_colors := user_functions_colors p; save_filename := save_filename p;
     errorband_sigma := errorband_sigma p; show_residuals := show_residuals p; show_fit_results :=
     show_fit_results p; fit_results_x_offset := fit_results_x_offset p; fit_results_y_offset :=
     fit_results_y_offset p; bk_legend_location := bk_legend_location p; bk_legend_orientation :=
     bk_legend_orientation p; mpl_legend_location := mpl_legend_location p; mpl_show_legend :=
     mpl_show_legend p; datasets := datasets p; datasets_colors := datasets_colors p; xunits :=
     xunits p; xname := xname p; yunits := yunits p; yname := yname p; x_range := x_range p; y_range
     := y_range p; title := title p; initialized_from_dataset := initialized_from_dataset p; labels
     := labels p; yres_range := yres_range p; mplfigure := mplfigure p; mpl_gs := mpl_gs p; bkfigure
     := bkfigure p; bkres := bkres p; linear_fit_line := linear_fit_line p; linear_fit_patches :=
     linear_fit_patches p; linear_fit_pars := linear_fit_pars p; linear_fit_corr := linear_fit_corr
     p |}.

Definition with_mpl_scaling (v : Q) (p : Plot) : Plot :=
  {| color_palette := color_palette p; color_count := color_count p; x_range_margin :=
     x_range_margin p; y_range_margin := y_range_margin p; dimensions := dimensions p; mpl_scaling
     := v; user_functions_count := user_functions_count p; user_functions := user_functions p;
     user_functions_pars := user_functions_pars p; user_functions_names := user_functions_names p;
     user_functions_colors := user_functions_colors p; save_filename := save_filename p;
     errorband_sigma := errorband_sigma p; show_residuals := show_residuals p; show_fit_results :=
     show_fit_results p; fit_results_x_offset := fit_results_x_offset p; fit_results_y_offset :=
     fit_results_y_offset p; bk_legend_location := bk_legend_location p; bk_legend_orientation :=
     bk_legend_orientation p; mpl_legend_location := mpl_legend_location p; mpl_show_legend :=
     mpl_show_legend p; datasets := datasets p; datasets_colors := datasets_colors p; xunits :=
     xunits p; xname := xname p; yunits := yunits p; yname := yname p; x_range := x_range p; y_range
     := y_range p; title := title p; initialized_from_dataset := initialized_from_dataset p; labels
     := labels p; yres_range := yres_range p; mplfigure := mplfigure p; mpl_gs := mpl_gs p; bkfigure
     := bkfigure p; bkres := bkres p; linear_fit_line := linear_fit_line p; linear_fit_patches :=
     linear_fit_patches p; linear_fit_pars := linear_fit_pars p; linear_fit_corr := linear_fit_corr
     p |}.

Definition with_user_functions_count (v : nat) (p : Plot) : Plot :=
  {| color_palette := color_palette p; color_count := color_count p; x_range_margin :=
     x_range_margin p; y_range_margin := y_range_margin p; dimensions := dimensions p; mpl_scaling
     := mpl_scaling p; user_functions_count := v; user_functions := user_functions p;
     user_functions_pars := user_functions_pars p; user_functions_names := user_functions_names p;
     user_functions_colors := user_functions_colors p; save_filename := save_filename p;
     errorband_sigma := errorband_sigma p; show_residuals := show_residuals p; show_fit_results :=
     show_fit_results p; fit_results_x_offset := fit_results_x_offset p; fit_results_y_offset :=
     fit_results_y_offset p; bk_legend_location := bk_legend_location p; bk_legend_orientation :=
     bk_legend_orientation p; mpl_legend_location := mpl_legend_location p; mpl_show_legend :=
     mpl_show_legend p; datasets := datasets p; datasets_colors := datasets_colors p; xunits :=
     xunits p; xname := xname p; yunits := yunits p; yname := yname p; x_range := x_range p; y_range
     := y_range p; title := title p; initialized_from_dataset := initialized_from_dataset p; labels
     := labels p; yres_range := yres_range p; mplfigure := mplfigure p; mpl_gs := mpl_gs p; bkfigure
     := bkfigure p; bkres := bkres p; linear_fit_line := linear_fit_line p; linear_fit_patches :=
     linear_fit_patches p; linear_fit_pars := linear_fit_pars p; linear_fit_corr := linear_fit_corr
     p |}.

Definition with_user_functions (v : list Callable) (p : Plot) : Plot :=
  {| color_palette := color_palette p; color_count := color_count p; x_range_margin :=
     x_range_margin p; y_range_margin := y_range_margin p; dimensions := dimensions p; mpl_scaling
     := mpl_scaling p; user_functions_count := user_functions_count p; user_functions := v;
     user_functions_pars := user_functions_pars p; user_functions_names := user_functions_names p;
     user_functions_colors := user_functions_colors p; save_filename := save_filename p;
     errorband_sigma := errorband_sigma p; show_residuals := show_residuals p; show_fit_results :=
     show_fit_results p; fit_results_x_offset := fit_results_x_offset p; fit_results_y_offset :=
     fit_results_y_offset p; bk_legend_location := bk_legend_location p; bk_legend_orientation :=
     bk_legend_orientation p; mpl_legend_location := mpl_legend_location p; mpl_show_legend :=
     mpl_show_legend p; datasets := datasets p; datasets_colors := datasets_colors p; xunits :=
     xunits p; xname := xname p; yunits := yunits p; yname := yname p; x_range := x_range p; y_range
     := y_range p; title := title p; initialized_from_dataset := initialized_from_dataset p; labels
     := labels p; yres_range := yres_range p; mplfigure := mplfigure p; mpl_gs := mpl_gs p; bkfigure
     := bkfigure p; bkres := bkres p; linear_fit_line := linear_fit_line p; linear_fit_patches :=
     linear_fit_patches p; linear_fit_pars := linear_fit_pars p; linear_fit_corr := linear_fit_corr
     p |}.

Definition with_user_functions_pars (v : list PyVal) (p : Plot) : Plot :=
  {| color_palette := color_palette p; color_count := color_count p; x_range_margin :=
     x_range_margin p; y_range_margin := y_range_margin p; dimensions := dimensions p; mpl_scaling
     := mpl_scaling p; user_functions_count := user_functions_count p; user_functions :=
     user_functions p; user_functions_pars := v; user_functions_names := user_functions_names p;
     user_functions_colors := user_functions_colors p; save_filename := save_filename p;
     errorband_sigma := errorband_sigma p; show_residuals := show_residuals p; show_fit_results :=
     show_fit_results p; fit_results_x_offset := fit_results_x_offset p; fit_results_y_offset :=
     fit_results_y_offset p; bk_legend_location := bk_legend_location p; bk_legend_orientation :=
     bk_legend_orientation p; mpl_legend_location := mpl_legend_location p; mpl_show_legend :=
     mpl_show_legend p; datasets := datasets p; datasets_colors := datasets_colors p; xunits :=
     xunits p; xname := xname p; yunits := yunits p; yname := yname p; x_range := x_range p; y_range
     := y_range p; title := title p; initialized_from_dataset := initialized_from_dataset p; labels
     := labels p; yres_range := yres_range p; mplfigure := mplfigure p; mpl_gs := mpl_gs p; bkfigure
     := bkfigure p; bkres := bkres p; linear_fit_line := linear_fit_line p; linear_fit_patches :=
     linear_fit_patches p; linear_fit_pars := linear_fit_pars p; linear_fit_corr := linear_fit_corr
     p |}.

Definition with_user_functions_names (v : list string) (p : Plot) : Plot :=
  {| color_palette := color_palette p; color_count := color_count p; x_range_margin :=
     x_range_margin p; y_range_margin := y_range_margin p; dimensions := dimensions p; mpl_scaling
     := mpl_scaling p; user_functions_count := user_functions_count p; user_functions :=
     user_functions p; user_functions_pars := user_functions_pars p; user_functions_names := v;
     user_functions_colors := user_functions_colors p; save_filename := save_filename p;
     errorband_sigma := errorband_sigma p; show_residuals := show_residuals p; show_fit_results :=
     show_fit_results p; fit_results_x_offset := fit_results_x_offset p; fit_results_y_offset :=
     fit_results_y_offset p; bk_legend_location := bk_legend_location p; bk_legend_orientation :=
     bk_legend_orientation p; mpl_legend_location := mpl_legend_location p; mpl_show_legend :=
     mpl_show_legend p; datasets := datasets p; datasets_colors := datasets_colors p; xunits :=
     xunits p; xname := xname p; yunits := yunits p; yname := yname p; x_range := x_range p; y_range
     := y_range p; title := title p; initialized_from_dataset := initialized_from_dataset p; labels
     := labels p; yres_range := yres_range p; mplfigure := mplfigure p; mpl_gs := mpl_gs p; bkfigure
     := bkfigure p; bkres := bkres p; linear_fit_line := linear_fit_line p; linear_fit_patches :=
     linear_fit_patches p; linear_fit_pars := linear_fit_pars p; linear_fit_corr := linear_fit_corr
     p |}.

Definition with_user_functions_colors (v : list string) (p : Plot) : Plot :=
  {| color_palette := color_palette p; color_count := color_count p; x_range_margin :=
     x_range_margin p; y_range_margin := y_range_margin p; dimensions := dimensions p; mpl_scaling
     := mpl_scaling p; user_functions_count := user_functions_count p; user_functions :=
     user_functions p; user_functions_pars := user_functions_pars p; user_functions_names :=
     user_functions_names p; user_functions_colors := v; save_filename := save_filename p;
     errorband_sigma := errorband_sigma p; show_residuals := show_residuals p; show_fit_results :=
     show_fit_results p; fit_results_x_offset := fit_results_x_offset p; fit_results_y_offset :=
     fit_results_y_offset p; bk_legend_location := bk_legend_location p; bk_legend_orientation :=
     bk_legend_orientation p; mpl_legend_location := mpl_legend_location p; mpl_show_legend :=
     mpl_show_legend p; datasets := datasets p; datasets_colors := datasets_colors p; xunits :=
     xunits p; xname := xname p; yunits := yunits p; yname := yname p; x_range := x_range p; y_range
     := y_range p; title := title p; initialized_from_dataset := initialized_from_dataset p; labels
     := labels p; yres_range := yres_range p; mplfigure := mplfigure p; mpl_gs := mpl_gs p; bkfigure
     := bkfigure p; bkres := bkres p; linear_fit_line := linear_fit_line p; linear_fit_patches :=
     linear_fit_patches p; linear_fit_pars := linear_fit_pars p; linear_fit_corr := linear_fit_corr
     p |}.

Definition with_errorband_sigma (v : Q) (p : Plot) : Plot :=
  {| color_palette := color_palette p; color_count := color_count p; x_range_margin :=
     x_range_margin p; y_range_margin := y_range_margin p; dimensions := dimensions p; mpl_scaling
     := mpl_scaling p; user_functions_count := user_functions_count p; user_functions :=
     user_functions p; user_functions_pars := user_functions_pars p; user_functions_names :=
     user_functions_names p; user_functions_colors := user_functions_colors p; save_filename :=
     save_filename p; errorband_sigma := v; show_residuals := show_residuals p; show_fit_results :=
     show_fit_results p; fit_results_x_offset := fit_results_x_offset p; fit_results_y_offset :=
     fit_results_y_offset p; bk_legend_location := bk_legend_location p; bk_legend_orientation :=
     bk_legend_orientation p; mpl_legend_location := mpl_legend_location p; mpl_show_legend :=
     mpl_show_legend p; datasets := datasets p; datasets_colors := datasets_colors p; xunits :=
     xunits p; xname := xname p; yunits := yunits p; yname := yname p; x_range := x_range p; y_range
     := y_range p; title := title p; initialized_from_dataset := initialized_from_dataset p; labels
     := labels p; yres_range := yres_range p; mplfigure := mplfigure p; mpl_gs := mpl_gs p; bkfigure
     := bkfigure p; bkres := bkres p; linear_fit_line := linear_fit_line p; linear_fit_patches :=
     linear_fit_patches p; linear_fit_pars := linear_fit_pars p; linear_fit_corr := linear_fit_corr
     p |}.

Definition with_show_residuals (v : bool) (p : Plot) : Plot :=
  {| color_palette := color_palette p; color_count := color_count p; x_range_margin :=
     x_range_margin p; y_range_margin := y_range_margin p; dimensions := dimensions p; mpl_scaling
     := mpl_scaling p; user_functions_count := user_functions_count p; user_functions :=
     user_functions p; user_functions_pars := user_functions_pars p; user_functions_names :=
     user_functions_names p; user_functions_colors := user_functions_colors p; save_filename :=
     save_filename p; errorband_sigma := errorband_sigma p; show_residuals := v; show_fit_results :=
     show_fit_results p; fit_results_x_offset := fit_results_x_offset p; fit_results_y_offset :=
     fit_results_y_offset p; bk_legend_location := bk_legend_location p; bk_legend_orientation :=
     bk_legend_orientation p; mpl_legend_location := mpl_legend_location p; mpl_show_legend :=
     mpl_show_legend p; datasets := datasets p; datasets_colors := datasets_colors p; xunits :=
     xunits p; xname := xname p; yunits := yunits p; yname := yname p; x_range := x_range p; y_range
     := y_range p; title := title p; initialized_from_dataset := initialized_from_dataset p; labels
     := labels p; yres_range := yres_range p; mplfigure := mplfigure p; mpl_gs := mpl_gs p; bkfigure
     := bkfigure p; bkres := bkres p; linear_fit_line := linear_fit_line p; linear_fit_patches :=
     linear_fit_patches p; linear_fit_pars := linear_fit_pars p; linear_fit_corr := linear_fit_corr
     p |}.

Definition with_datasets (v : list Dataset) (p : Plot) : Plot :=
  {| color_palette := color_palette p; color_count := color_count p; x_range_margin :=
     x_range_margin p; y_range_margin := y_range_margin p; dimensions := dimensions p; mpl_scaling
     := mpl_scaling p; user_functions_count := user_functions_count p; user_functions :=
     user_functions p; user_functions_pars := user_functions_pars p; user_functions_names :=
     user_functions_names p; user_functions_colors := user_functions_colors p; save_filename :=
     save_filename p; errorband_sigma := errorband_sigma p; show_residuals := show_residuals p;
     show_fit_results := show_fit_results p; fit_results_x_offset := fit_results_x_offset p;
     fit_results_y_offset := fit_results_y_offset p; bk_legend_location := bk_legend_location p;
     bk_legend_orientation := bk_legend_orientation p; mpl_legend_location := mpl_legend_location p;
     mpl_show_legend := mpl_show_legend p; datasets := v; datasets_colors := datasets_colors p;
     xunits := xunits p; xname := xname p; yunits := yunits p; yname := yname p; x_range := x_range
     p; y_range := y_range p; title := title p; initialized_from_dataset := initialized_from_dataset
     p; labels := labels p; yres_range := yres_range p; mplfigure := mplfigure p; mpl_gs := mpl_gs
     p; bkfigure := bkfigure p; bkres := bkres p; linear_fit_line := linear_fit_line p;
     linear_fit_patches := linear_fit_patches p; linear_fit_pars := linear_fit_pars p;
     linear_fit_corr := linear_fit_corr p |}.

Definition with_datasets_colors (v : list string) (p : Plot) : Plot :=
  {| color_palette := color_palette p; color_count := color_count p; x_range_margin :=
     x_range_margin p; y_range_margin := y_range_margin p; dimensions := dimensions p; mpl_scaling
     := mpl_scaling p; user_functions_count := user_functions_count p; user_functions :=
     user_functions p; user_functions_pars := user_functions_pars p; user_functions_names :=
     user_functions_names p; user_functions_colors := user_functions_colors p; save_filename :=
     save_filename p; errorband_sigma := errorband_sigma p; show_residuals := show_residuals p;
     show_fit_results := show_fit_results p; fit_results_x_offset := fit_results_x_offset p;
     fit_results_y_offset := fit_results_y_offset p; bk_legend_location := bk_legend_location p;
     bk_legend_orientation := bk_legend_orientation p; mpl_legend_location := mpl_legend_location p;
     mpl_show_legend := mpl_show_legend p; datasets := datasets p; datasets_colors := v; xunits :=
     xunits p; xname := xname p; yunits := yunits p; yname := yname p; x_range := x_range p; y_range
     := y_range p; title := title p; initialized_from_dataset := initialized_from_dataset p; labels
     := labels p; yres_range := yres_range p; mplfigure := mplfigure p; mpl_gs := mpl_gs p; bkfigure
     := bkfigure p; bkres := bkres p; linear_fit_line := linear_fit_line p; linear_fit_patches :=
     linear_fit_patches p; linear_fit_pars := linear_fit_pars p; linear_fit_corr := linear_fit_corr
     p |}.

Definition with_xunits (v : string) (p : Plot) : Plot :=
  {| color_palette := color_palette p; color_count := color_count p; x_range_margin :=
     x_range_margin p; y_range_margin := y_range_margin p; dimensions := dimensions p; mpl_scaling
     := mpl_scaling p; user_functions_count := user_functions_count p; user_functions :=
     user_functions p; user_functions_pars := user_functions_pars p; user_functions_names :=
     user_functions_names p; user_functions_colors := user_functions_colors p; save_filename :=
     save_filename p; errorband_sigma := errorband_sigma p; show_residuals := show_residuals p;
     show_fit_results := show_fit_results p; fit_results_x_offset := fit_results_x_offset p;
     fit_results_y_offset := fit_results_y_offset p; bk_legend_location := bk_legend_location p;
     bk_legend_orientation := bk_legend_orientation p; mpl_legend_location := mpl_legend_location p;
     mpl_show_legend := mpl_show_legend p; datasets := datasets p; datasets_colors :=
     datasets_colors p; xunits := v; xname := xname p; yunits := yunits p; yname := yname p; x_range
     := x_range p; y_range := y_range p; title := title p; initialized_from_dataset :=
     initialized_from_dataset p; labels := labels p; yres_range := yres_range p; mplfigure :=
     mplfigure p; mpl_gs := mpl_gs p; bkfigure := bkfigure p; bkres := bkres p; linear_fit_line :=
     linear_fit_line p; linear_fit_patches := linear_fit_patches p; linear_fit_pars :=
     linear_fit_pars p; linear_fit_corr := linear_fit_corr p |}.

Definition with_xname (v : string) (p : Plot) : Plot :=
  {| color_palette := color_palette p; color_count := color_count p; x_range_margin :=
     x_range_margin p; y_range_margin := y_range_margin p; dimensions := dimensions p; mpl_scaling
     := mpl_scaling p; user_functions_count := user_functions_count p; user_functions :=
     user_functions p; user_functions_pars := user_functions_pars p; user_functions_names :=
     user_functions_names p; user_functions_colors := user_functions_colors p; save_filename :=
     save_filename p; errorband_sigma := errorband_sigma p; show_residuals := show_residuals p;
     show_fit_results := show_fit_results p; fit_results_x_offset := fit_results_x_offset p;
     fit_results_y_offset := fit_results_y_offset p; bk_legend_location := bk_legend_location p;
     bk_legend_orientation := bk_legend_orientation p; mpl_legend_location := mpl_legend_location p;
     mpl_show_legend := mpl_show_legend p; datasets := datasets p; datasets_colors :=
     datasets_colors p; xunits := xunits p; xname := v; yunits := yunits p; yname := yname p;
     x_range := x_range p; y_range := y_range p; title := title p; initialized_from_dataset :=
     initialized_from_dataset p; labels := labels p; yres_range := yres_range p; mplfigure :=
     mplfigure p; mpl_gs := mpl_gs p; bkfigure := bkfigure p; bkres := bkres p; linear_fit_line :=
     linear_fit_line p; linear_fit_patches := linear_fit_patches p; linear_fit_pars :=
     linear_fit_pars p; linear_fit_corr := linear_fit_corr p |}.

Definition with_yunits (v : string) (p : Plot) : Plot :=
  {| color_palette := color_palette p; color_count := color_count p; x_range_margin :=
     x_range_margin p; y_range_margin := y_range_margin p; dimensions := dimensions p; mpl_scaling
     := mpl_scaling p; user_functions_count := user_functions_count p; user_functions :=
     user_functions p; user_functions_pars := user_functions_pars p; user_functions_names :=
     user_functions_names p; user_functions_colors := user_functions_colors p; save_filename :=
     save_filename p; errorband_sigma := errorband_sigma p; show_residuals := show_residuals p;
     show_fit_results := show_fit_results p; fit_results_x_offset := fit_results_x_offset p;
     fit_results_y_offset := fit_results_y_offset p; bk_legend_location := bk_legend_location p;
     bk_legend_orientation := bk_legend_orientation p; mpl_legend_location := mpl_legend_location p;
     mpl_show_legend := mpl_show_legend p; datasets := datasets p; datasets_colors :=
     datasets_colors p; xunits := xunits p; xname := xname p; yunits := v; yname := yname p; x_range
     := x_range p; y_range := y_range p; title := title p; initialized_from_dataset :=
     initialized_from_dataset p; labels := labels p; yres_range := yres_range p; mplfigure :=
     mplfigure p; mpl_gs := mpl_gs p; bkfigure := bkfigure p; bkres := bkres p; linear_fit_line :=
     linear_fit_line p; linear_fit_patches := linear_fit_patches p; linear_fit_pars :=
     linear_fit_pars p; linear_fit_corr := linear_fit_corr p |}.

Definition with_yname (v : string) (p : Plot) : Plot :=
  {| color_palette := color_palette p; color_count := color_count p; x_range_margin :=
     x_range_margin p; y_range_margin := y_range_margin p; dimensions := dimensions p; mpl_scaling
     := mpl_scaling p; user_functions_count := user_functions_count p; user_functions :=
     user_functions p; user_functions_pars := user_functions_pars p; user_functions_names :=
     user_functions_names p; user_functions_colors := user_functions_colors p; save_filename :=
     save_filename p; errorband_sigma := errorband_sigma p; show_residuals := show_residuals p;
     show_fit_results := show_fit_results p; fit_results_x_offset := fit_results_x_offset p;
     fit_results_y_offset := fit_results_y_offset p; bk_legend_location := bk_legend_location p;
     bk_legend_orientation := bk_legend_orientation p; mpl_legend_location := mpl_legend_location p;
     mpl_show_legend := mpl_show_legend p; datasets := datasets p; datasets_colors :=
     datasets_colors p; xunits := xunits p; xname := xname p; yunits := yunits p; yname := v;
     x_range := x_range p; y_range := y_range p; title := title p; initialized_from_dataset :=
     initialized_from_dataset p; labels := labels p; yres_range := yres_range p; mplfigure :=
     mplfigure p; mpl_gs := mpl_gs p; bkfigure := bkfigure p; bkres := bkres p; linear_fit_line :=
     linear_fit_line p; linear_fit_patches := linear_fit_patches p; linear_fit_pars :=
     linear_fit_pars p; linear_fit_corr := linear_fit_corr p |}.

Definition with_x_range (v : Seq) (p : Plot) : Plot :=
  {| color_palette := color_palette p; color_count := color_count p; x_range_margin :=
     x_range_margin p; y_range_margin := y_range_margin p; dimensions := dimensions p; mpl_scaling
     := mpl_scaling p; user_functions_count := user_functions_count p; user_functions :=
     user_functions p; user_functions_pars := user_functions_pars p; user_functions_names :=
     user_functions_names p; user_functions_colors := user_functions_colors p; save_filename :=
     save_filename p; errorband_sigma := errorband_sigma p; show_residuals := show_residuals p;
     show_fit_results := show_fit_results p; fit_results_x_offset := fit_results_x_offset p;
     fit_results_y_offset := fit_results_y_offset p; bk_legend_location := bk_legend_location p;
     bk_legend_orientation := bk_legend_orientation p; mpl_legend_location := mpl_legend_location p;
     mpl_show_legend := mpl_show_legend p; datasets := datasets p; datasets_colors :=
     datasets_colors p; xunits := xunits p; xname := xname p; yunits := yunits p; yname := yname p;
     x_range := v; y_range := y_range p; title := title p; initialized_from_dataset :=
     initialized_from_dataset p; labels := labels p; yres_range := yres_range p; mplfigure :=
     mplfigure p; mpl_gs := mpl_gs p; bkfigure := bkfigure p; bkres := bkres p; linear_fit_line :=
     linear_fit_line p; linear_fit_patches := linear_fit_patches p; linear_fit_pars :=
     linear_fit_pars p; linear_fit_corr := linear_fit_corr p |}.

Definition with_y_range (v : Seq) (p : Plot) : Plot :=
  {| color_palette := color_palette p; color_count := color_count p; x_range_margin :=
     x_range_margin p; y_range_margin := y_range_margin p; dimensions := dimensions p; mpl_scaling
     := mpl_scaling p; user_functions_count := user_functions_count p; user_functions :=
     user_functions p; user_functions_pars := user_functions_pars p; user_functions_names :=
     user_functions_names p; user_functions_colors := user_functions_colors p; save_filename :=
     save_filename p; errorband_sigma := errorband_sigma p; show_residuals := show_residuals p;
     show_fit_results := show_fit_results p; fit_results_x_offset := fit_results_x_offset p;
     fit_results_y_offset := fit_results_y_offset p; bk_legend_location := bk_legend_location p;
     bk_legend_orientation := bk_legend_orientation p; mpl_legend_location := mpl_legend_location p;
     mpl_show_legend := mpl_show_legend p; datasets := datasets p; datasets_colors :=
     datasets_colors p; xunits := xunits p; xname := xname p; yunits := yunits p; yname := yname p;
     x_range := x_range p; y_range := v; title := title p; initialized_from_dataset :=
     initialized_from_dataset p; labels := labels p; yres_range := yres_range p; mplfigure :=
     mplfigure p; mpl_gs := mpl_gs p; bkfigure := bkfigure p; bkres := bkres p; linear_fit_line :=
     linear_fit_line p; linear_fit_patches := linear_fit_patches p; linear_fit_pars :=
     linear_fit_pars p; linear_fit_corr := linear_fit_corr p |}.

Definition with_title (v : string) (p : Plot) : Plot :=
  {| color_palette := color_palette p; color_count := color_count p; x_range_margin :=
     x_range_margin p; y_range_margin := y_range_margin p; dimensions := dimensions p; mpl_scaling
     := mpl_scaling p; user_functions_count := user_functions_count p; user_functions :=
     user_functions p; user_functions_pars := user_functions_pars p; user_functions_names :=
     user_functions_names p; user_functions_colors := user_functions_colors p; save_filename :=
     save_filename p; errorband_sigma := errorband_sigma p; show_residuals := show_residuals p;
     show_fit_results := show_fit_results p; fit_results_x_offset := fit_results_x_offset p;
     fit_results_y_offset := fit_results_y_offset p; bk_legend_location := bk_legend_location p;
     bk_legend_orientation := bk_legend_orientation p; mpl_legend_location := mpl_legend_location p;
     mpl_show_legend := mpl_show_legend p; datasets := datasets p; datasets_colors :=
     datasets_colors p; xunits := xunits p; xname := xname p; yunits := yunits p; yname := yname p;
     x_range := x_range p; y_range := y_range p; title := v; initialized_from_dataset :=
     initialized_from_dataset p; labels := labels p; yres_range := yres_range p; mplfigure :=
     mplfigure p; mpl_gs := mpl_gs p; bkfigure := bkfigure p; bkres := bkres p; linear_fit_line :=
     linear_fit_line p; linear_fit_patches := linear_fit_patches p; linear_fit_pars :=
     linear_fit_pars p; linear_fit_corr := linear_fit_corr p |}.

Definition with_initialized_from_dataset (v : bool) (p : Plot) : Plot :=
  {| color_palette := color_palette p; color_count := color_count p; x_range_margin :=
     x_range_margin p; y_range_margin := y_range_margin p; dimensions := dimensions p; mpl_scaling
     := mpl_scaling p; user_functions_count := user_functions_count p; user_functions :=
     user_functions p; user_functions_pars := user_functions_pars p; user_functions_names :=
     user_functions_names p; user_functions_colors := user_functions_colors p; save_filename :=
     save_filename p; errorband_sigma := errorband_sigma p; show_residuals := show_residuals p;
     show_fit_results := show_fit_results p; fit_results_x_offset := fit_results_x_offset p;
     fit_results_y_offset := fit_results_y_offset p; bk_legend_location := bk_legend_location p;
     bk_legend_orientation := bk_legend_orientation p; mpl_legend_location := mpl_legend_location p;
     mpl_show_legend := mpl_show_legend p; datasets := datasets p; datasets_colors :=
     datasets_colors p; xunits := xunits p; xname := xname p; yunits := yunits p; yname := yname p;
     x_range := x_range p; y_range := y_range p; title := title p; initialized_from_dataset := v;
     labels := labels p; yres_range := yres_range p; mplfigure := mplfigure p; mpl_gs := mpl_gs p;
     bkfigure := bkfigure p; bkres := bkres p; linear_fit_line := linear_fit_line p;
     linear_fit_patches := linear_fit_patches p; linear_fit_pars := linear_fit_pars p;
     linear_fit_corr := linear_fit_corr p |}.

Definition with_labels (v : Labels) (p : Plot) : Plot :=
  {| color_palette := color_palette p; color_count := color_count p; x_range_margin :=
     x_range_margin p; y_range_margin := y_range_margin p; dimensions := dimensions p; mpl_scaling
     := mpl_scaling p; user_functions_count := user_functions_count p; user_functions :=
     user_functions p; user_functions_pars := user_functions_pars p; user_functions_names :=
     user_functions_names p; user_functions_colors := user_functions_colors p; save_filename :=
     save_filename p; errorband_sigma := errorband_sigma p; show_residuals := show_residuals p;
     show_fit_results := show_fit_results p; fit_results_x_offset := fit_results_x_offset p;
     fit_results_y_offset := fit_results_y_offset p; bk_legend_location := bk_legend_location p;
     bk_legend_orientation := bk_legend_orientation p; mpl_legend_location := mpl_legend_location p;
     mpl_show_legend := mpl_show_legend p; datasets := datasets p; datasets_colors :=
     datasets_colors p; xunits := xunits p; xname := xname p; yunits := yunits p; yname := yname p;
     x_range := x_range p; y_range := y_range p; title := title p; initialized_from_dataset :=
     initialized_from_dataset p; labels := v; yres_range := yres_range p; mplfigure := mplfigure p;
     mpl_gs := mpl_gs p; bkfigure := bkfigure p; bkres := bkres p; linear_fit_line :=
     linear_fit_line p; linear_fit_patches := linear_fit_patches p; linear_fit_pars :=
     linear_fit_pars p; linear_fit_corr := linear_fit_corr p |}.

Definition with_yres_range (v : option Seq) (p : Plot) : Plot :=
  {| color_palette := color_palette p; color_count := color_count p; x_range_margin :=
     x_range_margin p; y_range_margin := y_range_margin p; dimensions := dimensions p; mpl_scaling
     := mpl_scaling p; user_functions_count := user_functions_count p; user_functions :=
     user_functions p; user_functions_pars := user_functions_pars p; user_functions_names :=
     user_functions_names p; user_functions_colors := user_functions_colors p; save_filename :=
     save_filename p; errorband_sigma := errorband_sigma p; show_residuals := show_residuals p;
     show_fit_results := show_fit_results p; fit_results_x_offset := fit_results_x_offset p;
     fit_results_y_offset := fit_results_y_offset p; bk_legend_location := bk_legend_location p;
     bk_legend_orientation := bk_legend_orientation p; mpl_legend_location := mpl_legend_location p;
     mpl_show_legend := mpl_show_legend p; datasets := datasets p; datasets_colors :=
     datasets_colors p; xunits := xunits p; xname := xname p; yunits := yunits p; yname := yname p;
     x_range := x_range p; y_range := y_range p; title := title p; initialized_from_dataset :=
     initialized_from_dataset p; labels := labels p; yres_range := v; mplfigure := mplfigure p;
     mpl_gs := mpl_gs p; bkfigure := bkfigure p; bkres := bkres p; linear_fit_line :=
     linear_fit_line p; linear_fit_patches := linear_fit_patches p; linear_fit_pars :=
     linear_fit_pars p; linear_fit_corr := linear_fit_corr p |}.

Definition with_mplfigure (v : option MplFigure) (p : Plot) : Plot :=
  {| color_palette := color_palette p; color_count := color_count p; x_range_margin :=
     x_range_margin p; y_range_margin := y_range_margin p; dimensions := dimensions p; mpl_scaling
     := mpl_scaling p; user_functions_count := user_functions_count p; user_functions :=
     user_functions p; user_functions_pars := user_functions_pars p; user_functions_names :=
     user_functions_names p; user_functions_colors := user_functions_colors p; save_filename :=
     save_filename p; errorband_sigma := errorband_sigma p; show_residuals := show_residuals p;
     show_fit_results := show_fit_results p; fit_results_x_offset := fit_results_x_offset p;
     fit_results_y_offset := fit_results_y_offset p; bk_legend_location := bk_legend_location p;
     bk_legend_orientation := bk_legend_orientation p; mpl_legend_location := mpl_legend_location p;
     mpl_show_legend := mpl_show_legend p; datasets := datasets p; datasets_colors :=
     datasets_colors p; xunits := xunits p; xname := xname p; yunits := yunits p; yname := yname p;
     x_range := x_range p; y_range := y_range p; title := title p; initialized_from_dataset :=
     initialized_from_dataset p; labels := labels p; yres_range := yres_range p; mplfigure := v;
     mpl_gs := mpl_gs p; bkfigure := bkfigure p; bkres := bkres p; linear_fit_line :=
     linear_fit_line p; linear_fit_patches := linear_fit_patches p; linear_fit_pars :=
     linear_fit_pars p; linear_fit_corr := linear_fit_corr p |}.

Definition with_mpl_gs (v : option GridSpec) (p : Plot) : Plot :=
  {| color_palette := color_palette p; color_count := color_count p; x_range_margin :=
     x_range_margin p; y_range_margin := y_range_margin p; dimensions := dimensions p; mpl_scaling
     := mpl_scaling p; user_functions_count := user_functions_count p; user_functions :=
     user_functions p; user_functions_pars := user_functions_pars p; user_functions_names :=
     user_functions_names p; user_functions_colors := user_functions_colors p; save_filename :=
     save_filename p; errorband_sigma := errorband_sigma p; show_residuals := show_residuals p;
     show_fit_results := show_fit_results p; fit_results_x_offset := fit_results_x_offset p;
     fit_results_y_offset := fit_results_y_offset p; bk_legend_location := bk_legend_location p;
     bk_legend_orientation := bk_legend_orientation p; mpl_legend_location := mpl_legend_location p;
     mpl_show_legend := mpl_show_legend p; datasets := datasets p; datasets_colors :=
     datasets_colors p; xunits := xunits p; xname := xname p; yunits := yunits p; yname := yname p;
     x_range := x_range p; y_range := y_range p; title := title p; initialized_from_dataset :=
     initialized_from_dataset p; labels := labels p; yres_range := yres_range p; mplfigure :=
     mplfigure p; mpl_gs := v; bkfigure := bkfigure p; bkres := bkres p; linear_fit_line :=
     linear_fit_line p; linear_fit_patches := linear_fit_patches p; linear_fit_pars :=
     linear_fit_pars p; linear_fit_corr := linear_fit_corr p |}.

Definition with_bkfigure (v : option BkObj) (p : Plot) : Plot :=
  {| color_palette := color_palette p; color_count := color_count p; x_range_margin :=
     x_range_margin p; y_range_margin := y_range_margin p; dimensions := dimensions p; mpl_scaling
     := mpl_scaling p; user_functions_count := user_functions_count p; user_functions :=
     user_functions p; user_functions_pars := user_functions_pars p; user_functions_names :=
     user_functions_names p; user_functions_colors := user_functions_colors p; save_filename :=
     save_filename p; errorband_sigma := errorband_sigma p; show_residuals := show_residuals p;
     show_fit_results := show_fit_results p; fit_results_x_offset := fit_results_x_offset p;
     fit_results_y_offset := fit_results_y_offset p; bk_legend_location := bk_legend_location p;
     bk_legend_orientation := bk_legend_orientation p; mpl_legend_location := mpl_legend_location p;
     mpl_show_legend := mpl_show_legend p; datasets := datasets p; datasets_colors :=
     datasets_colors p; xunits := xunits p; xname := xname p; yunits := yunits p; yname := yname p;
     x_range := x_range p; y_range := y_range p; title := title p; initialized_from_dataset :=
     initialized_from_dataset p; labels := labels p; yres_range := yres_range p; mplfigure :=
     mplfigure p; mpl_gs := mpl_gs p; bkfigure := v; bkres := bkres p; linear_fit_line :=
     linear_fit_line p; linear_fit_patches := linear_fit_patches p; linear_fit_pars :=
     linear_fit_pars p; linear_fit_corr := linear_fit_corr p |}.

Definition with_bkres (v : option BkFigure) (p : Plot) : Plot :=
  {| color_palette := color_palette p; color_count := color_count p; x_range_margin :=
     x_range_margin p; y_range_margin := y_range_margin p; dimensions := dimensions p; mpl_scaling
     := mpl_scaling p; user_functions_count := user_functions_count p; user_functions :=
     user_functions p; user_functions_pars := user_functions_pars p; user_functions_names :=
     user_functions_names p; user_functions_colors := user_functions_colors p; save_filename :=
     save_filename p; errorband_sigma := errorband_sigma p; show_residuals := show_residuals p;
     show_fit_results := show_fit_results p; fit_results_x_offset := fit_results_x_offset p;
     fit_results_y_offset := fit_results_y_offset p; bk_legend_location := bk_legend_location p;
     bk_legend_orientation := bk_legend_orientation p; mpl_legend_location := mpl_legend_location p;
     mpl_show_legend := mpl_show_legend p; datasets := datasets p; datasets_colors :=
     datasets_colors p; xunits := xunits p; xname := xname p; yunits := yunits p; yname := yname p;
     x_range := x_range p; y_range := y_range p; title := title p; initialized_from_dataset :=
     initialized_from_dataset p; labels := labels p; yres_range := yres_range p; mplfigure :=
     mplfigure p; mpl_gs := mpl_gs p; bkfigure := bkfigure p; bkres := v; linear_fit_line :=
     linear_fit_line p; linear_fit_patches := linear_fit_patches p; linear_fit_pars :=
     linear_fit_pars p; linear_fit_corr := linear_fit_corr p |}.

Definition with_linear_fit_line (v : option Line) (p : Plot) : Plot :=
  {| color_palette := color_palette p; color_count := color_count p; x_range_margin :=
     x_range_margin p; y_range_margin := y_range_margin p; dimensions := dimensions p; mpl_scaling
     := mpl_scaling p; user_functions_count := user_functions_count p; user_functions :=
     user_functions p; user_functions_pars := user_functions_pars p; user_functions_names :=
     user_functions_names p; user_functions_colors := user_functions_colors p; save_filename :=
     save_filename p; errorband_sigma := errorband_sigma p; show_residuals := show_residuals p;
     show_fit_results := show_fit_results p; fit_results_x_offset := fit_results_x_offset p;
     fit_results_y_offset := fit_results_y_offset p; bk_legend_location := bk_legend_location p;
     bk_legend_orientation := bk_legend_orientation p; mpl_legend_location := mpl_legend_location p;
     mpl_show_legend := mpl_show_legend p; datasets := datasets p; datasets_colors :=
     datasets_colors p; xunits := xunits p; xname := xname p; yunits := yunits p; yname := yname p;
     x_range := x_range p; y_range := y_range p; title := title p; initialized_from_dataset :=
     initialized_from_dataset p; labels := labels p; yres_range := yres_range p; mplfigure :=
     mplfigure p; mpl_gs := mpl_gs p; bkfigure := bkfigure p; bkres := bkres p; linear_fit_line :=
     v; linear_fit_patches := linear_fit_patches p; linear_fit_pars := linear_fit_pars p;
     linear_fit_corr := linear_fit_corr p |}.

Definition with_linear_fit_patches (v : option (option Patches)) (p : Plot) : Plot :=
  {| color_palette := color_palette p; color_count := color_count p; x_range_margin :=
     x_range_margin p; y_range_margin := y_range_margin p; dimensions := dimensions p; mpl_scaling
     := mpl_scaling p; user_functions_count := user_functions_count p; user_functions :=
     user_functions p; user_functions_pars := user_functions_pars p; user_functions_names :=
     user_functions_names p; user_functions_colors := user_functions_colors p; save_filename :=
     save_filename p; errorband_sigma := errorband_sigma p; show_residuals := show_residuals p;
     show_fit_results := show_fit_results p; fit_results_x_offset := fit_results_x_offset p;
     fit_results_y_offset := fit_results_y_offset p; bk_legend_location := bk_legend_location p;
     bk_legend_orientation := bk_legend_orientation p; mpl_legend_location := mpl_legend_location p;
     mpl_show_legend := mpl_show_legend p; datasets := datasets p; datasets_colors :=
     datasets_colors p; xunits := xunits p; xname := xname p; yunits := yunits p; yname := yname p;
     x_range := x_range p; y_range := y_range p; title := title p; initialized_from_dataset :=
     initialized_from_dataset p; labels := labels p; yres_range := yres_range p; mplfigure :=
     mplfigure p; mpl_gs := mpl_gs p; bkfigure := bkfigure p; bkres := bkres p; linear_fit_line :=
     linear_fit_line p; linear_fit_patches := v; linear_fit_pars := linear_fit_pars p;
     linear_fit_corr := linear_fit_corr p |}.

Definition with_linear_fit_pars (v : option (list Measurement)) (p : Plot) : Plot :=
  {| color_palette := color_palette p; color_count := color_count p; x_range_margin :=
     x_range_margin p; y_range_margin := y_range_margin p; dimensions := dimensions p; mpl_scaling
     := mpl_scaling p; user_functions_count := user_functions_count p; user_functions :=
     user_functions p; user_functions_pars := user_functions_pars p; user_functions_names :=
     user_functions_names p; user_functions_colors := user_functions_colors p; save_filename :=
     save_filename p; errorband_sigma := errorband_sigma p; show_residuals := show_residuals p;
     show_fit_results := show_fit_results p; fit_results_x_offset := fit_results_x_offset p;
     fit_results_y_offset := fit_results_y_offset p; bk_legend_location := bk_legend_location p;
     bk_legend_orientation := bk_legend_orientation p; mpl_legend_location := mpl_legend_location p;
     mpl_show_legend := mpl_show_legend p; datasets := datasets p; datasets_colors :=
     datasets_colors p; xunits := xunits p; xname := xname p; yunits := yunits p; yname := yname p;
     x_range := x_range p; y_range := y_range p; title := title p; initialized_from_dataset :=
     initialized_from_dataset p; labels := labels p; yres_range := yres_range p; mplfigure :=
     mplfigure p; mpl_gs := mpl_gs p; bkfigure := bkfigure p; bkres := bkres p; linear_fit_line :=
     linear_fit_line p; linear_fit_patches := linear_fit_patches p; linear_fit_pars := v;
     linear_fit_corr := linear_fit_corr p |}.

Definition with_linear_fit_corr (v : option Q) (p : Plot) : Plot :=
  {| color_palette := color_palette p; color_count := color_count p; x_range_margin :=
     x_range_margin p; y_range_margin := y_range_margin p; dimensions := dimensions p; mpl_scaling
     := mpl_scaling p; user_functions_count := user_functions_count p; user_functions :=
     user_functions p; user_functions_pars := user_functions_pars p; user_functions_names :=
     user_functions_names p; user_functions_colors := user_functions_colors p; save_filename :=
     save_filename p; errorband_sigma := errorband_sigma p; show_residuals := show_residuals p;
     show_fit_results := show_fit_results p; fit_results_x_offset := fit_results_x_offset p;
     fit_results_y_offset := fit_results_y_offset p; bk_legend_location := bk_legend_location p;
     bk_legend_orientation := bk_legend_orientation p; mpl_legend_location := mpl_legend_location p;
     mpl_show_legend := mpl_show_legend p; datasets := datasets p; datasets_colors :=
     datasets_colors p; xunits := xunits p; xname := xname p; yunits := yunits p; yname := yname p;
     x_range := x_range p; y_range := y_range p; title := title p; initialized_from_dataset :=
     initialized_from_dataset p; labels := labels p; yres_range := yres_range p; mplfigure :=
     mplfigure p; mpl_gs := mpl_gs p; bkfigure := bkfigure p; bkres := bkres p; linear_fit_line :=
     linear_fit_line p; linear_fit_patches := linear_fit_patches p; linear_fit_pars :=
     linear_fit_pars p; linear_fit_corr := v |}.

Record Env : Type := mkEnv {
  self : Plot;
  minmax_n : Z;
  stdout : list string;
  pyplot : list PltCall;
  bokeh_io : list BkIOCall;
  plot_engine : Engine;
  in_notebook : bool;
  bokeh_ouput_notebook_called : bool;
  mpl_ouput_notebook_called : bool
}.

Definition with_self (v : Plot) (p : Env) : Env :=
  {| self := v; minmax_n := minmax_n p; stdout := stdout p; pyplot := pyplot p; bokeh_io := bokeh_io
     p; plot_engine := plot_engine p; in_notebook := in_notebook p; bokeh_ouput_notebook_called :=
     bokeh_ouput_notebook_called p; mpl_ouput_notebook_called := mpl_ouput_notebook_called p |}.

Definition with_minmax_n (v : Z) (p : Env) : Env :=
  {| self := self p; minmax_n := v; stdout := stdout p; pyplot := pyplot p; bokeh_io := bokeh_io p;
     plot_engine := plot_engine p; in_notebook := in_notebook p; bokeh_ouput_notebook_called :=
     bokeh_ouput_notebook_called p; mpl_ouput_notebook_called := mpl_ouput_notebook_called p |}.

Definition with_stdout (v : list string) (p : Env) : Env :=
  {| self := self p; minmax_n := minmax_n p; stdout := v; pyplot := pyplot p; bokeh_io := bokeh_io
     p; plot_engine := plot_engine p; in_notebook := in_notebook p; bokeh_ouput_notebook_called :=
     bokeh_ouput_notebook_called p; mpl_ouput_notebook_called := mpl_ouput_notebook_called p |}.

Definition with_pyplot (v : list PltCall) (p : Env) : Env :=
  {| self := self p; minmax_n := minmax_n p; stdout := stdout p; pyplot := v; bokeh_io := bokeh_io
     p; plot_engine := plot_engine p; in_notebook := in_notebook p; bokeh_ouput_notebook_called :=
     bokeh_ouput_notebook_called p; mpl_ouput_notebook_called := mpl_ouput_notebook_called p |}.

Definition with_bokeh_io (v : list BkIOCall) (p : Env) : Env :=
  {| self := self p; minmax_n := minmax_n p; stdout := stdout p; pyplot := pyplot p; bokeh_io := v;
     plot_engine := plot_engine p; in_notebook := in_notebook p; bokeh_ouput_notebook_called :=
     bokeh_ouput_notebook_called p; mpl_ouput_notebook_called := mpl_ouput_notebook_called p |}.

Definition with_bokeh_ouput_notebook_called (v : bool) (p : Env) : Env :=
  {| self := self p; minmax_n := minmax_n p; stdout := stdout p; pyplot := pyplot p; bokeh_io :=
     bokeh_io p; plot_engine := plot_engine p; in_notebook := in_notebook p;
     bokeh_ouput_notebook_called := v; mpl_ouput_notebook_called := mpl_ouput_notebook_called p |}.

Definition with_mpl_ouput_notebook_called (v : bool) (p : Env) : Env :=
  {| self := self p; minmax_n := minmax_n p; stdout := stdout p; pyplot := pyplot p; bokeh_io :=
     bokeh_io p; plot_engine := plot_engine p; in_notebook := in_notebook p;
     bokeh_ouput_notebook_called := bokeh_ouput_notebook_called p; mpl_ouput_notebook_called := v |}.


(** ** The monad of methods *)

Definition M (A : Type) : Type := Env -> Result A * Env.

Definition ret {A : Type} (a : A) : M A := fun e => (Return a, e).

Definition bind {A B : Type} (m : M A) (k : A -> M B) : M B :=
  fun e =>
    match m e with
    | (Return a, e') => k a e'
    | (Raise x, e') => (Raise x, e')
    end.

Definition raise {A : Type} (x : exn) : M A := fun e => (Raise x, e).

Definition lift {A : Type} (r : Result A) : M A := fun e => (r, e).

Declare Scope py_scope.
Delimit Scope py_scope with py.
Notation "x <- c1 ;; c2" := (bind c1 (fun x => c2))
  (at level 61, c1 at next level, right associativity) : py_scope.
Notation "c1 ;; c2" := (bind c1 (fun _ => c2))
  (at level 61, right associativity) : py_scope.
Open Scope py_scope.

Definition get_self : M Plot := fun e => (Return (self e), e).

Definition modify_self (f : Plot -> Plot) : M unit :=
  fun e => (Return tt, with_self (f (self e)) e).

Definition print (s : string) : M unit :=
  fun e => (Return tt, with_stdout (stdout e ++ [s]) e).

Definition plt (c : PltCall) : M unit :=
  fun e => (Return tt, with_pyplot (pyplot e ++ [c]) e).

Definition bokeh (c : BkIOCall) : M unit :=
  fun e => (Return tt, with_bokeh_io (bokeh_io e ++ [c]) e).

(** Reading and writing [qe.Measurement.minmax_n]. *)
Definition get_minmax_n : M Z := fun e => (Return (minmax_n e), e).
Definition put_minmax_n (n : Z) : M unit := fun e => (Return tt, with_minmax_n n e).

(** Running a callable: it starts under the current flag and leaves its own
    behind. *)
Definition run_callable {A : Type} (f : Z -> Result A * Z) : M A :=
  fun e => let (r, n) := f (minmax_n e) in (r, with_minmax_n n e).

Definition when (b : bool) (m : M unit) : M unit := if b then m else ret tt.

(** [for x in l: body(x)]. *)
Fixpoint for_each {A : Type} (l : list A) (body : A -> M unit) : M unit :=
  match l with
  | [] => ret tt
  | x :: t => body x ;; for_each t body
  end.

(** A loop that carries one local variable. *)
Fixpoint for_fold {A S : Type} (l : list A) (acc : S) (body : S -> A -> M S) : M S :=
  match l with
  | [] => ret acc
  | x :: t => acc' <- body acc x ;; for_fold t acc' body
  end.

(** [self.x_range[i]] and friends, read as a number. *)
Definition getitem_raw (r : Seq) (i : nat) : Result Scalar :=
  match nth_error (items r) i with
  | Some s => Return s
  | None => Raise IndexError
  end.

(** The two arguments [r[0], r[1]] of a call that needs numbers: both items
    are fetched before either is used. *)
Definition endpoints (r : Seq) : Result (Q * Q) :=
  match getitem_raw r 0 with
  | Raise e => Raise e
  | Return s0 =>
      match getitem_raw r 1 with
      | Raise e => Raise e
      | Return s1 =>
          match as_num s0, as_num s1 with
          | Return a, Return b => Return (a, b)
          | Raise e, _ => Raise e
          | _, Raise e => Raise e
          end
      end
  end.

(** ** Strings *)

Fixpoint split_on (c : Ascii.ascii) (s : string) : list string :=
  match s with
  | EmptyString => [EmptyString]
  | String a s' =>
      if Ascii.eqb a c then EmptyString :: split_on c s'
      else match split_on c s' with
           | h :: t => String a h :: t
           | [] => [String a EmptyString]
           end
  end.

Definition str_of_nat (n : nat) : string :=
  DecimalString.NilZero.string_of_uint (Nat.to_uint n).

Definition range_message (axis : string) : string :=
  (axis ++ " range must be a list containing a minimun and maximum
            value for the range of the plot.")%string.

(** ** The methods of [Plot] *)

Section Collaborators.

(** [XYDataSet.get_x_range(margin)], [get_y_range(margin)] and
    [get_yres_range(margin)]: each returns a new list [[lo, hi]]. *)
Variable get_x_range get_y_range get_yres_range : Dataset -> Q -> Q * Q.

(** [XYDataSet.clear_fits()] and [XYDataSet.fit(model)], as the new state
    of the dataset. *)
Variable clear_fits : Dataset -> Dataset.
Variable fit : Dataset -> string -> Result Dataset.

(** [Measurement.__str__]. *)
Variable Measurement_str : Measurement -> string.

(** [omes + smes*xvals] for two measurements with the given correlation,
    under the propagation mode given first. *)
Variable propagate_line : Z -> Measurement -> Measurement -> Q -> list Q -> list Measurement.

(** [qexpy.plot_utils.bk_plot_function]: the line and the band it draws,
    under the propagation mode given first. *)
Variable qpu_bk_plot_function :
  Z -> Callable -> list Q -> PyVal -> nat -> Q -> Result (Line * option Patches).

(** [qexpy.utils.array_types], the sequence types it lists. *)
Variable ARRAY : list SeqType.

(** [bokeh.palettes.Set1_9] and [Set2_8]. *)
Variable Set1_9 Set2_8 : list string.

Definition fresh_list (r : Q * Q) : Seq := list2 (fst r) (snd r).

Definition _get_color_from_palette : M string :=
  modify_self (fun p => with_color_count (color_count p + 1) p) ;;
  p <- get_self ;;
  when (Nat.ltb (List.length (color_palette p)) (color_count p))
       (modify_self (with_color_count 1)) ;;
  p <- get_self ;;
  lift (item (color_palette p) (color_count p - 1)).

Definition set_yres_range_from_fits : M unit :=
  p <- get_self ;;
  for_each (datasets p) (fun dataset =>
    when (Nat.ltb 0 (XYDataSet.nfits dataset))
         (modify_self (fun p =>
            with_yres_range (Some (fresh_list (get_yres_range dataset (y_range_margin p)))) p))).

Definition set_range_from_dataset (dataset : Dataset) : M unit :=
  modify_self (fun p => with_x_range (fresh_list (get_x_range dataset (x_range_margin p))) p) ;;
  modify_self (fun p => with_y_range (fresh_list (get_y_range dataset (y_range_margin p))) p) ;;
  set_yres_range_from_fits.

Definition make_labels (p : Plot) : Labels :=
  mkLabels (title p)
           (xname p ++ " [" ++ xunits p ++ "]")%string
           (yname p ++ " [" ++ yunits p ++ "]")%string.

Definition initialize_from_dataset (dataset : Dataset) : M unit :=
  modify_self (with_xunits (XYDataSet.xunits dataset)) ;;
  modify_self (with_xname (XYDataSet.xname dataset)) ;;
  modify_self (with_yunits (XYDataSet.yunits dataset)) ;;
  modify_self (with_yname (XYDataSet.yname dataset)) ;;
  modify_self (with_title (XYDataSet.name dataset)) ;;
  modify_self (fun p => with_labels (make_labels p) p) ;;
  set_range_from_dataset dataset ;;
  modify_self (with_initialized_from_dataset true).

(** The attributes [__init__] assigns before it looks at its argument.
    [initialized_from_dataset] and the figure handles do not exist yet;
    the flag is shown as [false] until one of the two branches sets it. *)
Definition blank_plot : Plot :=
  {| color_palette := Set1_9 ++ Set2_8; color_count := 0;
     x_range_margin := 1 # 2; y_range_margin := 1 # 2;
     dimensions := (600, 400); mpl_scaling := 17 # 1000;
     user_functions_count := 0; user_functions := []; user_functions_pars := [];
     user_functions_names := []; user_functions_colors := [];
     save_filename := "myplot.html"; errorband_sigma := 1;
     show_residuals := false; show_fit_results := true;
     fit_results_x_offset := 0; fit_results_y_offset := 0;
     bk_legend_location := "top_left"; bk_legend_orientation := "vertical";
     mpl_legend_location := "upper left"; mpl_show_legend := true;
     datasets := []; datasets_colors := [];
     xunits := EmptyString; xname := "x"; yunits := EmptyString; yname := "y";
     x_range := list2 0 1; y_range := list2 0 1;
     title := "y as a function of x";
     initialized_from_dataset := false;
     labels := mkLabels EmptyString EmptyString EmptyString;
     yres_range := None; mplfigure := None; mpl_gs := None;
     bkfigure := None; bkres := None;
     linear_fit_line := None; linear_fit_patches := None;
     linear_fit_pars := None; linear_fit_corr := None |}.

Definition __init__ (dataset : option Dataset) : M unit :=
  modify_self (fun _ => blank_plot) ;;
  match dataset with
  | Some d =>
      modify_self (fun p => with_datasets (datasets p ++ [d]) p) ;;
      c <- _get_color_from_palette ;;
      modify_self (fun p => with_datasets_colors (datasets_colors p ++ [c]) p) ;;
      initialize_from_dataset d
  | None => modify_self (with_initialized_from_dataset false)
  end ;;
  modify_self (fun p => with_labels (make_labels p) p).

Definition add_residuals : M unit :=
  set_yres_range_from_fits ;;
  p <- get_self ;;
  last <- lift (last_item (datasets p)) ;;
  when (Nat.ltb 0 (XYDataSet.nfits last)) (modify_self (with_show_residuals true)).

(** [self.x_range[i] = v] and [self.y_range[i] = v]. *)
Definition set_x_range_item (i : nat) (v : Scalar) : M unit :=
  p <- get_self ;;
  r <- lift (setitem (x_range p) i v) ;;
  modify_self (with_x_range r).

Definition set_y_range_item (i : nat) (v : Scalar) : M unit :=
  p <- get_self ;;
  r <- lift (setitem (y_range p) i v) ;;
  modify_self (with_y_range r).

Definition is_list_or_ndarray (s : Seq) : bool :=
  match seq_type s with
  | TList | TNdarray => true
  | TTuple => false
  end.

(** The evaluation at the head of [add_function]: [Some fvals], or [None]
    after the error message when [pars] has no recognized format. *)
Definition add_function_eval (function : Callable) (pars : PyVal) (xvals : list Q)
  : M (option (list Q)) :=
  match pars with
  | PyNone =>
      fvals <- run_callable (fun n => call function n xvals []) ;;
      ret (Some fvals)
  | PyMeasurement_Array ms =>
      recall <- get_minmax_n ;;
      put_minmax_n 1 ;;
      fmes <- run_callable (fun n => call_uncertain function n xvals ms) ;;
      let fvals := get_means fmes in
      put_minmax_n recall ;;
      ret (Some fvals)
  | PySeq s =>
      if is_list_or_ndarray s then
        fvals <- run_callable (fun n => call function n xvals (items s)) ;;
        ret (Some fvals)
      else
        print "Error: Not a recognized format for parameter" ;; ret None
  | PyScalar _ =>
      print "Error: Not a recognized format for parameter" ;; ret None
  end.

(** [xvals = np.linspace(self.x_range[0], self.x_range[1], 100)], the grid
    of [add_function]. *)
Definition add_function_xvals : M (list Q) :=
  p <- get_self ;;
  ends <- lift (endpoints (x_range p)) ;;
  ret (linspace (fst ends) (snd ends) 100).

Definition add_function (function : Callable) (pars : PyVal)
           (name : option string) (color : option string) : M unit :=
  xvals <- add_function_xvals ;;
  r <- add_function_eval function pars xvals ;;
  match r with
  | None => ret tt
  | Some fvals =>
      p <- get_self ;;
      vmax <- lift (arr_max fvals) ;;
      let fmax := vmax + y_range_margin p in
      vmin <- lift (arr_min fvals) ;;
      let fmin := vmin - y_range_margin p in
      y1 <- lift (getitem (y_range p) 1) ;;
      when (Qlt_bool y1 fmax) (set_y_range_item 1 (SNum fmax)) ;;
      p <- get_self ;;
      y0 <- lift (getitem (y_range p) 0) ;;
      when (Qlt_bool fmin y0) (set_y_range_item 0 (SNum fmin)) ;;
      modify_self (fun p => with_user_functions (user_functions p ++ [function]) p) ;;
      modify_self (fun p => with_user_functions_pars (user_functions_pars p ++ [pars]) p) ;;
      p <- get_self ;;
      let fname := match name with
                   | None => ("userf_" ++ str_of_nat (user_functions_count p))%string
                   | Some n => n
                   end in
      modify_self (fun p => with_user_functions_names (user_functions_names p ++ [fname]) p) ;;
      modify_self (fun p => with_user_functions_count (user_functions_count p + 1) p) ;;
      match color with
      | None =>
          c <- _get_color_from_palette ;;
          modify_self (fun p => with_user_functions_colors (user_functions_colors p ++ [c]) p)
      | Some c =>
          modify_self (fun p => with_user_functions_colors (user_functions_colors p ++ [c]) p)
      end
  end.

Definition add_dataset (dataset : Dataset) (color : option string) (name : option string)
  : M unit :=
  modify_self (fun p => with_datasets (datasets p ++ [dataset]) p) ;;
  p <- get_self ;;
  when (Nat.ltb (List.length (datasets p)) 2) (initialize_from_dataset dataset) ;;
  match color with
  | None =>
      c <- _get_color_from_palette ;;
      modify_self (fun p => with_datasets_colors (datasets_colors p ++ [c]) p)
  | Some c =>
      modify_self (fun p => with_datasets_colors (datasets_colors p ++ [c]) p)
  end ;;
  (* [name], when given, renames the dataset object itself. *)
  dataset <- match name with
             | Some n =>
                 modify_self (fun p =>
                   with_datasets (set_last (datasets p) (XYDataSet.with_name n dataset)) p) ;;
                 ret (XYDataSet.with_name n dataset)
             | None => ret dataset
             end ;;
  p <- get_self ;;
  let x_range' := get_x_range dataset (x_range_margin p) in
  let y_range' := get_y_range dataset (y_range_margin p) in
  x0 <- lift (getitem (x_range p) 0) ;;
  when (Qlt_bool (fst x_range') x0) (set_x_range_item 0 (SNum (fst x_range'))) ;;
  p <- get_self ;;
  x1 <- lift (getitem (x_range p) 1) ;;
  when (Qlt_bool x1 (snd x_range')) (set_x_range_item 1 (SNum (snd x_range'))) ;;
  p <- get_self ;;
  y0 <- lift (getitem (y_range p) 0) ;;
  when (Qlt_bool (fst y_range') y0) (set_y_range_item 0 (SNum (fst y_range'))) ;;
  p <- get_self ;;
  y1 <- lift (getitem (y_range p) 1) ;;
  when (Qlt_bool y1 (snd y_range')) (set_y_range_item 1 (SNum (snd y_range'))) ;;
  set_yres_range_from_fits.

(** [type(v) in ARRAY and len(v) is 2]. *)
Definition valid_range (v : PyVal) : option Seq :=
  match v with
  | PySeq s =>
      if existsb (SeqType_eqb (seq_type s)) ARRAY && Nat.eqb (List.length (items s)) 2
      then Some s else None
  | _ => None
  end.

Definition is_None (v : PyVal) : bool :=
  match v with PyNone => true | _ => false end.

Definition set_plot_range (x_range' y_range' : PyVal) : M unit :=
  match valid_range x_range' with
  | Some s => modify_self (with_x_range s)
  | None => when (negb (is_None x_range')) (print (range_message "X"))
  end ;;
  match valid_range y_range' with
  | Some s => modify_self (with_y_range s)
  | None => when (negb (is_None y_range')) (print (range_message "Y"))
  end.

Definition set_errorband_sigma (sigma : Q) : M unit :=
  modify_self (with_errorband_sigma sigma).

(** *** Matplotlib backend *)

Definition has {A : Type} (o : option A) : bool :=
  match o with Some _ => true | None => false end.

(** Reading an attribute that may not exist yet. *)
Definition attr {A : Type} (o : option A) : M A :=
  match o with
  | Some a => ret a
  | None => raise AttributeError
  end.

(** [plt.axis([self.x_range[0], self.x_range[1], r[0], r[1]])]. *)
Definition plt_axis_of (xr yr : Seq) : M unit :=
  a <- lift (getitem_raw xr 0) ;;
  b <- lift (getitem_raw xr 1) ;;
  c <- lift (getitem_raw yr 0) ;;
  d <- lift (getitem_raw yr 1) ;;
  plt (plt_axis [a; b; c; d]).

Definition initialize_mpl_figure (refresh : bool) : M unit :=
  p <- get_self ;;
  if negb refresh && has (mplfigure p)
     && negb (show_residuals p && negb (has (mpl_gs p)))
  then ret tt
  else
    let w := fst (dimensions p) * mpl_scaling p in
    (if negb (show_residuals p) then
       let size := (w, snd (dimensions p) * mpl_scaling p) in
       plt (plt_figure size) ;;
       modify_self (with_mplfigure (Some (mkMplFigure size)))
     else
       let size := (w, (133 # 100) * snd (dimensions p) * mpl_scaling p) in
       plt (plt_figure size) ;;
       modify_self (with_mplfigure (Some (mkMplFigure size))) ;;
       let gs := mkGridSpec 2 1 [3; 1] in
       modify_self (with_mpl_gs (Some gs)) ;;
       plt (plt_subplot gs 1) ;;
       a <- lift (getitem_raw (x_range p) 0) ;;
       b <- lift (getitem_raw (x_range p) 1) ;;
       yres <- attr (yres_range p) ;;
       c <- lift (getitem_raw yres 0) ;;
       d <- lift (getitem_raw yres 1) ;;
       plt (plt_axis [a; b; c; d]) ;;
       plt (plt_xlabel (l_xtitle (labels p))) ;;
       plt (plt_ylabel "Residuals") ;;
       plt plt_grid ;;
       plt (plt_subplot gs 0)) ;;
    plt_axis_of (x_range p) (y_range p) ;;
    plt (plt_xlabel (l_xtitle (labels p))) ;;
    plt (plt_ylabel (l_ytitle (labels p))) ;;
    plt (plt_title (l_title (labels p))) ;;
    plt plt_grid.

(** [if not hasattr(self, 'mplfigure'): self.initialize_mpl_figure()]. *)
Definition ensure_mpl_figure : M unit :=
  p <- get_self ;;
  when (negb (has (mplfigure p))) (initialize_mpl_figure true).

(** [if hasattr(self, 'mpl_gs'): plt.subplot(self.mpl_gs[0])]. *)
Definition select_main_subplot : M unit :=
  p <- get_self ;;
  match mpl_gs p with
  | Some gs => plt (plt_subplot gs 0)
  | None => ret tt
  end.

(** The text of one fit parameter: its string, cut at ['_'], first and last
    piece joined again. *)
Definition short_name (m : Measurement) : Result string :=
  let pieces := split_on "_"%char (Measurement_str m) in
  match item pieces 0, last_item pieces with
  | Return a, Return b => Return (a ++ "_" ++ b)%string
  | Raise e, _ => Raise e
  | _, Raise e => Raise e
  end.

Definition newline : string := String (Ascii.ascii_of_nat 10) EmptyString.

Definition mpl_plot_fit_results_text_box (dataset : Dataset) (yoffset : Q) : M Q :=
  ensure_mpl_figure ;;
  p <- get_self ;;
  let offset := yoffset in
  y1 <- lift (getitem (y_range p) 1) ;;
  y0 <- lift (getitem (y_range p) 0) ;;
  let h := y1 - y0 in
  x1 <- lift (getitem (x_range p) 1) ;;
  x0 <- lift (getitem (x_range p) 0) ;;
  let l := x1 - x0 in
  let start_x := x1 - (2 # 100) * l + fit_results_x_offset p in
  let start_y := y1 - (12 # 100) * h - offset + fit_results_y_offset p in
  npars <- lift (last_item (XYDataSet.fit_npars dataset)) ;;
  textfit <- for_fold (seq 0 npars) EmptyString (fun textfit i =>
    pars <- lift (last_item (XYDataSet.fit_pars dataset)) ;;
    par <- lift (item pars i) ;;
    name <- lift (short_name par) ;;
    ret (textfit ++ name ++ newline)%string) ;;
  plt (plt_text start_x start_y textfit 11) ;;
  npars <- lift (last_item (XYDataSet.fit_npars dataset)) ;;
  ret (inject_Z (Z.of_nat npars) * (45 # 1000) * h).

(** [l[-2]]. *)
Definition item_before_last {A : Type} (l : list A) : Result A :=
  match rev l with
  | _ :: x :: _ => Return x
  | _ => Raise IndexError
  end.

(** The three outcomes of the branch on [pars] in [mpl_plot_function]. *)
Inductive Evaluated : Type :=
| Plain (fvals : list Q)
| Uncertain (fvals ferr : list Q)
| Unbound.

(** [xvals = np.linspace(min(xdata), max(xdata), n)], the grid of
    [mpl_plot_function]. *)
Definition plot_function_xvals (xdata : list Q) (n : nat) : Result (list Q) :=
  match arr_min xdata, arr_max xdata with
  | Return lo, Return hi => Return (linspace lo hi n)
  | Raise e, _ => Raise e
  | _, Raise e => Raise e
  end.

(** The branch on [pars] of [mpl_plot_function]. *)
Definition mpl_plot_function_eval (function : Callable) (pars : PyVal) (xvals : list Q)
  : M Evaluated :=
  match pars with
  | PyNone =>
      fvals <- run_callable (fun k => call function k xvals []) ;;
      ret (Plain fvals)
  | PyMeasurement_Array ms =>
      recall <- get_minmax_n ;;
      put_minmax_n 1 ;;
      fmes <- run_callable (fun k => call_uncertain function k xvals ms) ;;
      let fvals := get_means fmes in
      let ferr := get_stds fmes in
      put_minmax_n recall ;;
      ret (Uncertain fvals ferr)
  | PySeq s =>
      if is_list_or_ndarray s then
        fvals <- run_callable (fun k => call function k xvals (items s)) ;;
        ret (Plain fvals)
      else
        print "Error: unrecognized parameters for function" ;; ret Unbound
  | PyScalar _ =>
      print "Error: unrecognized parameters for function" ;; ret Unbound
  end.

Definition mpl_plot_function (function : Callable) (xdata : list Q) (pars : PyVal)
           (n : nat) (legend_name : option string) (color : string)
           (errorbandfactor : Q) : M unit :=
  ensure_mpl_figure ;;
  select_main_subplot ;;
  xvals <- lift (plot_function_xvals xdata n) ;;
  ev <- mpl_plot_function_eval function pars xvals ;;
  (* [plt.plot(xvals, fvals, ...)]: [fvals] is a local that only the first
     three branches assign. *)
  match ev with
  | Unbound => raise UnboundLocalError
  | Plain fvals => plt (plt_plot xvals fvals color legend_name)
  | Uncertain fvals ferr =>
      plt (plt_plot xvals fvals color legend_name) ;;
      let fmax := arr_add fvals ferr in
      let fmin := arr_sub fvals ferr in
      plt (plt_fill_between xvals fmin fmax color)
  end.

Definition mpl_plot_dataset (dataset : Dataset) (color : string)
           (show_fit_function show_residuals' : bool) : M unit :=
  p <- get_self ;;
  when (negb (has (mplfigure p)))
       (when (show_residuals' && Nat.ltb 0 (XYDataSet.nfits dataset))
             (modify_self (with_show_residuals true)) ;;
        initialize_mpl_figure true) ;;
  select_main_subplot ;;
  (if XYDataSet.is_histogram dataset then
     match XYDataSet.hist_data dataset with
     | Some data =>
         plt (plt_hist data (XYDataSet.hist_bins dataset) (XYDataSet.name dataset) color)
     | None =>
         a <- lift (last_item (XYDataSet.xdata dataset)) ;;
         b <- lift (item_before_last (XYDataSet.xdata dataset)) ;;
         plt (plt_bar (XYDataSet.xdata dataset) (XYDataSet.ydata dataset) (a - b)
                      (XYDataSet.name dataset) color)
     end
   else
     plt (plt_errorbar (XYDataSet.xdata dataset) (XYDataSet.ydata dataset)
                       (XYDataSet.xerr dataset) (XYDataSet.yerr dataset)
                       color (Some (XYDataSet.name dataset)))) ;;
  when (Nat.ltb 0 (XYDataSet.nfits dataset) && show_fit_function)
       (f <- lift (last_item (XYDataSet.fit_function dataset)) ;;
        pars <- lift (last_item (XYDataSet.fit_pars dataset)) ;;
        fname <- lift (last_item (XYDataSet.fit_function_name dataset)) ;;
        p <- get_self ;;
        mpl_plot_function f (XYDataSet.xdata dataset) (PyMeasurement_Array pars) 50
                          (Some fname) color (errorband_sigma p)) ;;
  p <- get_self ;;
  match mpl_gs p with
  | Some gs =>
      when (show_residuals p && show_residuals')
           (plt (plt_subplot gs 1) ;;
            yres <- lift (last_item (XYDataSet.fit_yres dataset)) ;;
            plt (plt_errorbar (XYDataSet.xdata dataset) (get_means yres)
                              (XYDataSet.xerr dataset) (XYDataSet.yerr dataset)
                              color None) ;;
            plt (plt_subplot gs 0))
  | None => ret tt
  end.

(** [zip] of the four parallel lists of user functions. *)
Fixpoint zip4 {A B C D : Type} (a : list A) (b : list B) (c : list C) (d : list D)
  : list (A * B * C * D) :=
  match a, b, c, d with
  | x :: a', y :: b', z :: c', w :: d' => (x, y, z, w) :: zip4 a' b' c' d'
  | _, _, _, _ => []
  end.

(** The two-element list [xvals] over which both [populate_*_figure]
    methods draw the user functions. *)
Definition function_xdata : M (list Q) :=
  p <- get_self ;;
  x0 <- lift (getitem (x_range p) 0) ;;
  x1 <- lift (getitem (x_range p) 1) ;;
  ret [x0 + x_range_margin p; x1 - x_range_margin p].

Definition populate_mpl_figure (refresh : bool) : M unit :=
  initialize_mpl_figure refresh ;;
  p <- get_self ;;
  for_fold (combine (datasets p) (datasets_colors p)) 0
    (fun legend_offset dc =>
       let (dataset, color) := dc : Dataset * string in
       p <- get_self ;;
       mpl_plot_dataset dataset color true (show_residuals p) ;;
       p <- get_self ;;
       if show_fit_results p && Nat.ltb 0 (XYDataSet.nfits dataset)
       then mpl_plot_fit_results_text_box dataset legend_offset
       else ret legend_offset) ;;
  xvals <- function_xdata ;;
  p <- get_self ;;
  for_each (zip4 (user_functions p) (user_functions_pars p)
                 (user_functions_names p) (user_functions_colors p))
    (fun entry =>
       let '(func, pars, fname, color) := entry in
       p <- get_self ;;
       mpl_plot_function func xvals pars 100 (Some fname) color (errorband_sigma p)) ;;
  p <- get_self ;;
  when (mpl_show_legend p) (plt (plt_legend (mpl_legend_location p))).

(** The slider of one control of [interact]: [(min, max, step)]. *)
Record Slider : Type := mkSlider { s_min : Q; s_max : Q; s_step : Q }.

(** What [interact] is given: the five sliders and the initial values of
    the callback's arguments.  The toolkit runs the callback on its own
    schedule; the callback is a method of its own below. *)
Record Interact : Type := mkInteract {
  i_offset : Slider; i_offset_err : Slider;
  i_slope : Slider; i_slope_err : Slider; i_correlation : Slider;
  d_offset : Q; d_offset_err : Q; d_slope : Q; d_slope_err : Q; d_correlation : Q
}.

(** [dataset.clear_fits(); dataset.fit("linear")] on the last dataset,
    which stays in [self.datasets] with its new state. *)
Definition refit_last_linear : M (Dataset * string) :=
  p <- get_self ;;
  when (Nat.ltb 1 (List.length (datasets p)))
       (print "Warning: only using the last added dataset, and clearing previous fits") ;;
  dataset <- lift (last_item (datasets p)) ;;
  color <- lift (last_item (datasets_colors p)) ;;
  let dataset := clear_fits dataset in
  modify_self (fun p => with_datasets (set_last (datasets p) dataset) p) ;;
  dataset <- lift (fit dataset "linear") ;;
  modify_self (fun p => with_datasets (set_last (datasets p) dataset) p) ;;
  ret (dataset, color).

(** "Extend the x range to 0": the block shared by [interactive_linear_fit]
    and [bk_show_linear_fit]. *)
Definition extend_range_to_zero (dataset : Dataset) (pars : list Measurement) : M unit :=
  p <- get_self ;;
  x0 <- lift (getitem (x_range p) 0) ;;
  when (Qlt_bool (- (1 # 2)) x0)
       (set_x_range_item 0 (SNum (- (1 # 2))) ;;
        f <- lift (last_item (XYDataSet.fit_function dataset)) ;;
        p <- get_self ;;
        x <- lift (getitem (x_range p) 0) ;;
        v <- run_callable (fun k => call_point f k x (map SNum (get_means pars))) ;;
        set_y_range_item 0 (SNum v)).

(** [interactive_linear_fit] ends by handing its callback to [interact];
    the value returned here is what [interact] receives. *)
Definition interactive_linear_fit (error_range : Q) : M Interact :=
  dc <- refit_last_linear ;;
  let (dataset, color) := dc : Dataset * string in
  func <- lift (last_item (XYDataSet.fit_function dataset)) ;;
  pars <- lift (last_item (XYDataSet.fit_pars dataset)) ;;
  extend_range_to_zero dataset pars ;;
  p0 <- lift (item pars 0) ;;
  let off_min := mean p0 - error_range * std p0 in
  let off_max := mean p0 + error_range * std p0 in
  let off_step := (off_max - off_min) / 50 in
  p1 <- lift (item pars 1) ;;
  let slope_min := mean p1 - error_range * std p1 in
  let slope_max := mean p1 + error_range * std p1 in
  let slope_step := (slope_max - slope_min) / 50 in
  pcorr <- lift (last_item (XYDataSet.fit_pcorr dataset)) ;;
  row <- lift (item pcorr 0) ;;
  corr <- lift (item row 1) ;;
  ret {| i_offset := mkSlider off_min off_max off_step;
         i_offset_err := mkSlider 0 (error_range * std p0) (std p0 / 50);
         i_slope := mkSlider slope_min slope_max slope_step;
         i_slope_err := mkSlider 0 (error_range * std p1) (std p1 / 50);
         i_correlation := mkSlider (-1) 1 (5 # 100);
         d_offset := mean p0; d_offset_err := std p0;
         d_slope := mean p1; d_slope_err := std p1; d_correlation := corr |}.

(** The callback [update] of [interactive_linear_fit], for the dataset and
    colour it closes over. *)
Definition interactive_linear_fit_update (dataset : Dataset) (color : string)
           (offset offset_err slope slope_err correlation : Q) : M unit :=
  p <- get_self ;;
  plt (plt_figure (fst (dimensions p) * mpl_scaling p, snd (dimensions p) * mpl_scaling p)) ;;
  ends <- lift (endpoints (x_range p)) ;;
  let (x0, x1) := ends : Q * Q in
  let xvals := linspace x0 x1 20 in
  let omes := mkMeasurement offset offset_err (Some "offset") in
  let smes := mkMeasurement slope slope_err (Some "slope") in
  recall <- get_minmax_n ;;
  put_minmax_n 1 ;;
  k <- get_minmax_n ;;
  let fmes := propagate_line k omes smes correlation xvals in
  put_minmax_n recall ;;
  let fvals := get_means fmes in
  let ferr := get_stds fmes in
  let fmax := arr_add fvals ferr in
  let fmin := arr_sub fvals ferr in
  plt (plt_errorbar (XYDataSet.xdata dataset) (XYDataSet.ydata dataset)
                    (XYDataSet.xerr dataset) (XYDataSet.yerr dataset)
                    color (Some (XYDataSet.name dataset))) ;;
  plt (plt_plot xvals fvals color (Some "linear fit")) ;;
  plt (plt_fill_between xvals fmin fmax color) ;;
  y1 <- lift (getitem (y_range p) 1) ;;
  y0 <- lift (getitem (y_range p) 0) ;;
  let h := y1 - y0 in
  let l := x1 - x0 in
  let start_x := x1 - (2 # 100) * l + fit_results_x_offset p in
  let start_y := y1 - (8 # 100) * h + fit_results_y_offset p in
  let textfit := (Measurement_str omes ++ newline ++ Measurement_str smes)%string in
  plt (plt_text start_x start_y textfit 12) ;;
  plt_axis_of (x_range p) (y_range p) ;;
  plt (plt_xlabel (l_xtitle (labels p))) ;;
  plt (plt_ylabel (l_ytitle (labels p))) ;;
  plt (plt_title (l_title (labels p))) ;;
  plt (plt_legend (mpl_legend_location p)) ;;
  plt plt_grid ;;
  plt plt_show.

(** *** Bokeh backend *)

Definition initialize_bokeh_figure (residuals : bool) : M BkFigure :=
  p <- get_self ;;
  if negb residuals then
    let f := {| bk_width := fst (dimensions p); bk_height := snd (dimensions p);
                bk_x_range := x_range p; bk_y_range := y_range p;
                bk_title := Some (l_title (labels p));
                bk_x_axis_label := l_xtitle (labels p);
                bk_y_axis_label := l_ytitle (labels p);
                bk_legend := (None, None); bk_renderers := [] |} in
    modify_self (with_bkfigure (Some (BkFig f))) ;;
    ret f
  else
    (* [self.set_yres_range_from_fits] is named here without being
       called. *)
    yres <- attr (yres_range p) ;;
    main <- attr (bkfigure p) ;;
    match main with
    | BkGrid _ _ => raise AttributeError
    | BkFig m =>
        let f := {| bk_width := fst (dimensions p);
                    bk_height := inject_Z (Qfloor (snd (dimensions p) / 3));
                    bk_x_range := bk_x_range m; bk_y_range := yres;
                    bk_title := None;
                    bk_x_axis_label := l_xtitle (labels p);
                    bk_y_axis_label := "Residuals";
                    bk_legend := (None, None); bk_renderers := [] |} in
        modify_self (with_bkres (Some f)) ;;
        ret f
    end.

(** [if not hasattr(self, 'bkfigure'):
       self.bkfigure = self.initialize_bokeh_figure(residuals=False)]. *)
Definition ensure_bk_figure : M unit :=
  p <- get_self ;;
  when (negb (has (bkfigure p)))
       (f <- initialize_bokeh_figure false ;;
        modify_self (with_bkfigure (Some (BkFig f)))).

(** A renderer or layout added to [self.bkfigure]; a grid of figures has no
    such method. *)
Definition bkfigure_add (i : BkItem) : M unit :=
  p <- get_self ;;
  fig <- attr (bkfigure p) ;;
  match fig with
  | BkFig f => modify_self (with_bkfigure (Some (BkFig (add_renderer i f))))
  | BkGrid _ _ => raise AttributeError
  end.

Definition bkres_add (i : BkItem) : M unit :=
  p <- get_self ;;
  f <- attr (bkres p) ;;
  modify_self (with_bkres (Some (add_renderer i f))).

Definition bk_plot_fit_results_text_box (dataset : Dataset) (yoffset : Q) : M Q :=
  ensure_bk_figure ;;
  p <- get_self ;;
  let start_x := fst (dimensions p) - 5 + fit_results_x_offset p in
  let start_y := snd (dimensions p) - 30 - yoffset + fit_results_y_offset p in
  npars <- lift (last_item (XYDataSet.fit_npars dataset)) ;;
  for_fold (seq 0 npars) yoffset (fun offset i =>
    pars <- lift (last_item (XYDataSet.fit_pars dataset)) ;;
    par <- lift (item pars i) ;;
    name <- lift (short_name par) ;;
    let offset := if Nat.ltb 0 i then offset + 18 else offset in
    bkfigure_add (BkLabel start_x (start_y - offset) name) ;;
    ret offset).

Definition bk_plot_function (function : Callable) (xdata : list Q) (pars : PyVal)
           (n : nat) (legend_name : option string) (color : string)
           (errorbandfactor : Q) : M (Line * option Patches) :=
  ensure_bk_figure ;;
  k <- get_minmax_n ;;
  r <- lift (qpu_bk_plot_function k function xdata pars n errorbandfactor) ;;
  bkfigure_add (BkFunction (fst r) (snd r) legend_name color) ;;
  ret r.

Definition bk_plot_dataset (dataset : Dataset) (residual : bool) (color : string)
           (show_fit_function : bool) : M unit :=
  if residual then
    p <- get_self ;;
    when (negb (has (bkfigure p)))
         (f <- initialize_bokeh_figure true ;;
          modify_self (with_bkres (Some f))) ;;
    bkres_add (BkDataset dataset true color)
  else
    ensure_bk_figure ;;
    bkfigure_add (BkDataset dataset false color) ;;
    when (Nat.ltb 0 (XYDataSet.nfits dataset) && show_fit_function)
         (f <- lift (last_item (XYDataSet.fit_function dataset)) ;;
          pars <- lift (last_item (XYDataSet.fit_pars dataset)) ;;
          fname <- lift (last_item (XYDataSet.fit_function_name dataset)) ;;
          p <- get_self ;;
          bk_plot_function f (XYDataSet.xdata dataset) (PyMeasurement_Array pars) 50
                           (Some fname) color (errorband_sigma p) ;;
          ret tt).

(** [pixelcount] of [populate_bokeh_figure]: 25 pixels for each parameter
    of the latest fit of each fitted dataset. *)
Definition pixelcount_of (ds : list Dataset) : M nat :=
  for_fold ds 0%nat (fun pixelcount dataset =>
    if Nat.ltb 0 (XYDataSet.nfits dataset) then
      npars <- lift (last_item (XYDataSet.fit_npars dataset)) ;;
      ret (pixelcount + npars * 25)%nat
    else ret pixelcount).

(** [self.bkfigure.legend.location = ...], and the orientation when given. *)
Definition set_legend (location : string) (orientation : option string) : M unit :=
  p <- get_self ;;
  fig <- attr (bkfigure p) ;;
  match fig with
  | BkFig f =>
      let o := match orientation with
               | Some o => Some o
               | None => snd (bk_legend f)
               end in
      modify_self (with_bkfigure (Some (BkFig (set_bk_legend (Some location, o) f))))
  | BkGrid _ _ => raise AttributeError
  end.

Definition populate_bokeh_figure : M BkObj :=
  p <- get_self ;;
  yrange_recall <- lift (getitem_raw (y_range p) 1) ;;
  when (show_fit_results p)
       (pixelcount <- pixelcount_of (datasets p) ;;
        y1 <- lift (getitem (y_range p) 1) ;;
        if Qeq_bool (snd (dimensions p)) 0 then raise ZeroDivisionError
        else
          set_y_range_item 1
            (SNum (y1 + inject_Z (Z.of_nat pixelcount) * y1 / snd (dimensions p)))) ;;
  initialize_bokeh_figure false ;;
  set_y_range_item 1 yrange_recall ;;
  p <- get_self ;;
  when (show_residuals p) (initialize_bokeh_figure true ;; ret tt) ;;
  for_fold (combine (datasets p) (datasets_colors p)) 0
    (fun legend_offset dc =>
       let (dataset, color) := dc : Dataset * string in
       bk_plot_dataset dataset false color true ;;
       if Nat.ltb 0 (XYDataSet.nfits dataset) then
         p <- get_self ;;
         legend_offset <-
           (if show_fit_results p then
              offset <- bk_plot_fit_results_text_box dataset legend_offset ;;
              ret (offset + 3)
            else ret legend_offset) ;;
         p <- get_self ;;
         when (show_residuals p) (bk_plot_dataset dataset true color true) ;;
         ret legend_offset
       else ret legend_offset) ;;
  xvals <- function_xdata ;;
  p <- get_self ;;
  for_each (zip4 (user_functions p) (user_functions_pars p)
                 (user_functions_names p) (user_functions_colors p))
    (fun entry =>
       let '(func, pars, fname, color) := entry in
       p <- get_self ;;
       bk_plot_function func xvals pars 100 (Some fname) color (errorband_sigma p) ;;
       ret tt) ;;
  p <- get_self ;;
  set_legend (bk_legend_location p) (Some (bk_legend_orientation p)) ;;
  p <- get_self ;;
  when (show_residuals p)
       (fig <- attr (bkfigure p) ;;
        res <- attr (bkres p) ;;
        match fig with
        | BkFig f => modify_self (with_bkfigure (Some (BkGrid f res)))
        | BkGrid _ _ => raise AttributeError
        end) ;;
  p <- get_self ;;
  attr (bkfigure p).

(** *** Showing the figure *)

Definition set_bokeh_output (output : string) : M unit :=
  fun e =>
    if String.eqb output "file" || negb (in_notebook e) then
      bokeh (bi_output_file (save_filename (self e)) (l_title (labels (self e)))) e
    else if negb (bokeh_ouput_notebook_called e) then
      (bokeh bi_output_notebook ;;
       (fun e => (Return tt, with_bokeh_ouput_notebook_called true e))) e
    else (Return tt, e).

Definition set_mpl_output (output : string) : M unit :=
  fun e =>
    if String.eqb output "file" || negb (in_notebook e) then
      plt (plt_savefig (save_filename (self e))) e
    else if negb (mpl_ouput_notebook_called e) then
      (bokeh mpl_output_notebook ;;
       (fun e => (Return tt, with_mpl_ouput_notebook_called true e))) e
    else (Return tt, e).

Definition show (output : string) (populate_figure refresh : bool) : M unit :=
  fun e =>
    match plot_engine e with
    | EngineBokeh =>
        (set_bokeh_output output ;;
         if populate_figure then
           fig <- populate_bokeh_figure ;; bokeh (bp_show fig)
         else
           p <- get_self ;; fig <- attr (bkfigure p) ;; bokeh (bp_show fig)) e
    | EngineMpl =>
        (set_mpl_output "inline" ;;
         when populate_figure (populate_mpl_figure refresh) ;;
         plt plt_show) e
    | EngineOther => print "Error: unrecognized plot engine" e
    end.

(** *** Linear fits on the bokeh backend *)

Definition bk_show_linear_fit (output : string) : M unit :=
  dc <- refit_last_linear ;;
  let (dataset, color) := dc : Dataset * string in
  func <- lift (last_item (XYDataSet.fit_function dataset)) ;;
  pars <- lift (last_item (XYDataSet.fit_pars dataset)) ;;
  let fname := "linear" in
  extend_range_to_zero dataset pars ;;
  f <- initialize_bokeh_figure false ;;
  modify_self (with_bkfigure (Some (BkFig f))) ;;
  bk_plot_dataset dataset false color false ;;
  xvals <- function_xdata ;;
  p <- get_self ;;
  lp <- bk_plot_function func xvals (PyMeasurement_Array pars) 100 (Some fname) color
                         (errorband_sigma p) ;;
  modify_self (with_linear_fit_line (Some (fst lp))) ;;
  modify_self (with_linear_fit_patches (Some (snd lp))) ;;
  modify_self (with_linear_fit_pars (Some pars)) ;;
  pcorr <- lift (last_item (XYDataSet.fit_pcorr dataset)) ;;
  row <- lift (item pcorr 0) ;;
  corr <- lift (item row 1) ;;
  modify_self (with_linear_fit_corr (Some corr)) ;;
  p <- get_self ;;
  set_legend (bk_legend_location p) None ;;
  show output false true.


(** The callback [update] of [bk_interact_linear_fit]. *)
Definition bk_interact_linear_fit_update
           (offset offset_err slope slope_err correlation : Q) : M unit :=
  recall <- get_minmax_n ;;
  put_minmax_n 1 ;;
  let omes := mkMeasurement offset offset_err None in
  let smes := mkMeasurement slope slope_err None in
  p <- get_self ;;
  line <- attr (linear_fit_line p) ;;
  let xdata := line_x line in
  k <- get_minmax_n ;;
  let fmes := propagate_line k omes smes correlation xdata in
  put_minmax_n recall ;;
  let ymax := arr_add (get_means fmes) (get_stds fmes) in
  let ymin := arr_sub (get_means fmes) (get_stds fmes) in
  modify_self (with_linear_fit_line (Some (mkLine (line_x line) (get_means fmes)))) ;;
  p <- get_self ;;
  patches <- attr (linear_fit_patches p) ;;
  match patches with
  | None => raise AttributeError
  | Some pt =>
      modify_self (with_linear_fit_patches
                     (Some (Some (mkPatches (patch_x pt) (ymax ++ rev ymin))))) ;;
      bokeh bi_push_notebook
  end.

End Collaborators.

(** [plot.show_fit_results = v], an attribute that callers assign directly. *)
Definition with_show_fit_results (v : bool) (p : Plot) : Plot :=
{| color_palette := color_palette p; color_count := color_count p; x_range_margin :=
   x_range_margin p; y_range_margin := y_range_margin p; dimensions := dimensions p; mpl_scaling
   := mpl_scaling p; user_functions_count := user_functions_count p; user_functions :=
   user_functions p; user_functions_pars := user_functions_pars p; user_functions_names :=
   user_functions_names p; user_functions_colors := user_functions_colors p; save_filename :=
   save_filename p; errorband_sigma := errorband_sigma p; show_residuals := show_residuals p;
   show_fit_results := v; fit_results_x_offset := fit_results_x_offset p; fit_results_y_offset :=
   fit_results_y_offset p; bk_legend_location := bk_legend_location p; bk_legend_orientation :=
   bk_legend_orientation p; mpl_legend_location := mpl_legend_location p; mpl_show_legend :=
   mpl_show_legend p; datasets := datasets p; datasets_colors := datasets_colors p; xunits :=
   xunits p; xname := xname p; yunits := yunits p; yname := yname p; x_range := x_range p; y_range
   := y_range p; title := title p; initialized_from_dataset := initialized_from_dataset p; labels
   := labels p; yres_range := yres_range p; mplfigure := mplfigure p; mpl_gs := mpl_gs p; bkfigure
   := bkfigure p; bkres := bkres p; linear_fit_line := linear_fit_line p; linear_fit_patches :=
   linear_fit_patches p; linear_fit_pars := linear_fit_pars p; linear_fit_corr := linear_fit_corr
   p |}.

(** [plot.color_palette = v], likewise. *)
Definition with_color_palette (v : list string) (p : Plot) : Plot :=
{| color_palette := v; color_count := color_count p; x_range_margin := x_range_margin p;
   y_range_margin := y_range_margin p; dimensions := dimensions p; mpl_scaling := mpl_scaling p;
   user_functions_count := user_functions_count p; user_functions := user_functions p;
   user_functions_pars := user_functions_pars p; user_functions_names := user_functions_names p;
   user_functions_colors := user_functions_colors p; save_filename := save_filename p;
   errorband_sigma := errorband_sigma p; show_residuals := show_residuals p; show_fit_results :=
   show_fit_results p; fit_results_x_offset := fit_results_x_offset p; fit_results_y_offset :=
   fit_results_y_offset p; bk_legend_location := bk_legend_location p; bk_legend_orientation :=
   bk_legend_orientation p; mpl_legend_location := mpl_legend_location p; mpl_show_legend :=
   mpl_show_legend p; datasets := datasets p; datasets_colors := datasets_colors p; xunits :=
   xunits p; xname := xname p; yunits := yunits p; yname := yname p; x_range := x_range p; y_range
   := y_range p; title := title p; initialized_from_dataset := initialized_from_dataset p; labels
   := labels p; yres_range := yres_range p; mplfigure := mplfigure p; mpl_gs := mpl_gs p; bkfigure
   := bkfigure p; bkres := bkres p; linear_fit_line := linear_fit_line p; linear_fit_patches :=
   linear_fit_patches p; linear_fit_pars := linear_fit_pars p; linear_fit_corr := linear_fit_corr
   p |}.

(** ** Labels, size and the report of the fit parameters *)

Definition set_labels (title' xtitle ytitle : option string) : M unit :=
  match title' with
  | Some t =>
      modify_self (fun p =>
        with_labels (mkLabels t (l_xtitle (labels p)) (l_ytitle (labels p))) p)
  | None => ret tt
  end ;;
  match xtitle with
  | Some t =>
      modify_self (fun p =>
        with_labels (mkLabels (l_title (labels p)) t (l_ytitle (labels p))) p)
  | None => ret tt
  end ;;
  match ytitle with
  | Some t =>
      modify_self (fun p =>
        with_labels (mkLabels (l_title (labels p)) (l_xtitle (labels p)) t) p)
  | None => ret tt
  end.

Definition resize_plot (width height mpl_scaling' : option Q) : M unit :=
  let width := match width with None => 600 | Some w => w end in
  let height := match height with None => 400 | Some h => h end in
  match mpl_scaling' with
  | Some s => modify_self (with_mpl_scaling s)
  | None => ret tt
  end ;;
  modify_self (with_dimensions (width, height)).

(** [l[i]] for an index of either sign: a negative index counts from the
    end. *)
Definition py_item {A : Type} (l : list A) (i : Z) : Result A :=
  let n := Z.of_nat (List.length l) in
  if (0 <=? i)%Z then item l (Z.to_nat i)
  else if (- n <=? i)%Z then item l (Z.to_nat (n + i))
  else Raise IndexError.

(** ** The constructor function [MakePlot] *)

(** An argument of [MakePlot] that the code tests for being a dataset:
    an [XYDataSet], or any other object ([None] included). *)
Inductive DataArg : Type :=
| ArgDataset (d : Dataset)
| ArgValue (v : PyVal).

(** [a is None]. *)
Definition arg_is_None (a : DataArg) : bool :=
  match a with
  | ArgValue PyNone => true
  | _ => false
  end.

(** [v is not None and isinstance(v, str)], with the string. *)
Definition as_str (v : PyVal) : option string :=
  match v with
  | PyScalar (SStr s) => Some s
  | _ => None
  end.

(** [if v is not None and isinstance(v, str): dataset.<attribute> = v]. *)
Definition override (set : string -> Dataset -> Dataset) (v : PyVal) (d : Dataset) : Dataset :=
  match as_str v with
  | Some s => set s d
  | None => d
  end.

(** The five conditional assignments that [MakePlot] makes on a dataset, in
    their order: [xname], [yname], [xunits], [yunits], [name]. *)
Definition with_overrides (xname' xunits' yname' yunits' data_name : PyVal) (d : Dataset)
  : Dataset :=
  override XYDataSet.with_name data_name
    (override XYDataSet.with_yunits yunits'
       (override XYDataSet.with_xunits xunits'
          (override XYDataSet.with_yname yname'
             (override XYDataSet.with_xname xname' d)))).

Section Construction.

Variable get_x_range get_y_range get_yres_range : Dataset -> Q -> Q * Q.
Variable Set1_9 Set2_8 : list string.

(** The constructor [qf.XYDataSet(x, y, xerr=, yerr=, data_name=, xname=,
    xunits=, yname=, yunits=)]. *)
Variable XYDataSet_init :
  DataArg -> DataArg -> PyVal -> PyVal -> PyVal -> PyVal -> PyVal -> PyVal -> PyVal ->
  Result Dataset.

(** [Measurement_Array.__str__]. *)
Variable Measurement_Array_str : list Measurement -> string.

(** [MakePlot] returns the [Plot] it constructs; here it leaves it in
    [self], as [__init__] does. *)
Definition MakePlot (x y : DataArg) (xerr yerr data_name : PyVal) (dataset : option Dataset)
           (xname' xunits' yname' yunits' : PyVal) : M unit :=
  let Plot := __init__ get_x_range get_y_range get_yres_range Set1_9 Set2_8 in
  if arg_is_None x && arg_is_None y && negb (has dataset) then Plot None
  else if negb (arg_is_None x) && arg_is_None y then
    match x with
    | ArgDataset d => Plot (Some (with_overrides xname' xunits' yname' yunits' data_name d))
    | ArgValue _ =>
        print "Must specify x AND y or dataset, returning empty plot" ;;
        Plot None
    end
  else
    match dataset with
    | Some d => Plot (Some (with_overrides xname' xunits' yname' yunits' data_name d))
    | None =>
        if negb (arg_is_None x) && negb (arg_is_None y) then
          ds <- lift (XYDataSet_init x y xerr yerr data_name xname' xunits' yname' yunits') ;;
          Plot (Some ds)
        else Plot None
    end.

Definition print_fit_parameters (dataset : Z) : M unit :=
  p <- get_self ;;
  last <- lift (last_item (datasets p)) ;;
  if Nat.ltb 0 (XYDataSet.nfits last) then
    d <- lift (py_item (datasets p) dataset) ;;
    pars <- lift (last_item (XYDataSet.fit_pars d)) ;;
    print ("Fit parameters:" ++ newline ++ Measurement_Array_str pars)
  else print "Datasets have not been fit".

End Construction.

(** ** Concrete collaborators and scenes

    Stand-ins for the collaborators and a few small scenes, on which the
    general statements below are instantiated and the methods are run. *)
Module Sample.

(** The two bokeh palettes: ColorBrewer's Set1 (9 colours) and Set2
    (8 colours). *)
Definition Set1_9 : list string :=
  ["#e41a1c"; "#377eb8"; "#4daf4a"; "#984ea3"; "#ff7f00"; "#ffff33"; "#a65628";
   "#f781bf"; "#999999"].
Definition Set2_8 : list string :=
  ["#66c2a5"; "#fc8d62"; "#8da0cb"; "#e78ac3"; "#a6d854"; "#ffd92f"; "#e5c494";
   "#b3b3b3"].

(** Modelled from the spec: [qexpy.utils.array_types] is not under src/;
    a range argument is a sequence, and the message of [set_plot_range]
    asks for a list. *)
Definition ARRAY : list SeqType := [TList; TTuple; TNdarray].

(** Modelled from the spec: [XYDataSet.get_x_range] and its siblings are
    not under src/; they return the extent of the points widened by the
    margin on both sides (data in [0, 10] with margin 0.5 gives
    [-0.5, 10.5]). *)
Definition widened (data : list Q) (margin : Q) : Q * Q :=
  match arr_min data, arr_max data with
  | Return lo, Return hi => (lo - margin, hi + margin)
  | _, _ => (0 - margin, 0 + margin)
  end.

Definition get_x_range (d : Dataset) (margin : Q) : Q * Q :=
  widened (XYDataSet.xdata d) margin.

Definition get_y_range (d : Dataset) (margin : Q) : Q * Q :=
  widened (XYDataSet.ydata d) margin.

Definition get_yres_range (d : Dataset) (margin : Q) : Q * Q :=
  match rev (XYDataSet.fit_yres d) with
  | yres :: _ => widened (get_means yres) margin
  | [] => widened [] margin
  end.

(** Modelled from the spec: the linear model of [qexpy.fitting] is not
    under src/; it is [offset + slope * x].  With uncertain parameters this
    stand-in adds the standard deviations up linearly. *)
Definition linear : Callable :=
  {| call := fun k xs pars =>
       match pars with
       | [SNum p0; SNum p1] => (Return (map (fun x => p0 + p1 * x) xs), k)
       | _ => (Raise TypeError, k)
       end;
     call_point := fun k x pars =>
       match pars with
       | [SNum p0; SNum p1] => (Return (p0 + p1 * x), k)
       | _ => (Raise TypeError, k)
       end;
     call_uncertain := fun k xs pars =>
       match pars with
       | [p0; p1] =>
           (Return (map (fun x => mkMeasurement (mean p0 + mean p1 * x)
                                                (std p0 + Qabs x * std p1) None) xs), k)
       | _ => (Raise TypeError, k)
       end |}.

(** A stand-in for the uncertainty engine on [omes + smes*xvals]. *)
Definition propagate_line (k : Z) (omes smes : Measurement) (corr : Q) (xs : list Q)
  : list Measurement :=
  map (fun x => mkMeasurement (mean omes + mean smes * x)
                              (std omes + Qabs x * std smes) None) xs.

(** [clear_fits] empties the fit stacks. *)
Definition clear_fits (d : Dataset) : Dataset :=
  XYDataSet.mk (XYDataSet.name d) (XYDataSet.xunits d) (XYDataSet.xname d)
               (XYDataSet.yunits d) (XYDataSet.yname d)
               (XYDataSet.xdata d) (XYDataSet.ydata d) (XYDataSet.xerr d) (XYDataSet.yerr d)
               (XYDataSet.is_histogram d) (XYDataSet.hist_data d) (XYDataSet.hist_bins d)
               0 [] [] [] [] [] [].

(** A stand-in for the fit engine that knows one model, the line through
    the first and the last point; a fit pushes one record on each fit
    stack. *)
Definition fit (d : Dataset) (model : string) : Result Dataset :=
  match XYDataSet.xdata d, XYDataSet.ydata d, rev (XYDataSet.xdata d), rev (XYDataSet.ydata d) with
  | xa :: _, ya :: _, xb :: _, yb :: _ =>
      if String.eqb model "linear" && negb (Qeq_bool xa xb) then
        let slope := (yb - ya) / (xb - xa) in
        let offset := ya - slope * xa in
        let pars := [mkMeasurement offset (1 # 10) (Some "linear_intercept");
                     mkMeasurement slope (1 # 20) (Some "linear_slope")] in
        Return
          (XYDataSet.mk (XYDataSet.name d) (XYDataSet.xunits d) (XYDataSet.xname d)
             (XYDataSet.yunits d) (XYDataSet.yname d)
             (XYDataSet.xdata d) (XYDataSet.ydata d) (XYDataSet.xerr d) (XYDataSet.yerr d)
             (XYDataSet.is_histogram d) (XYDataSet.hist_data d) (XYDataSet.hist_bins d)
             (XYDataSet.nfits d + 1)
             (XYDataSet.fit_pars d ++ [pars])
             (XYDataSet.fit_npars d ++ [2%nat])
             (XYDataSet.fit_function d ++ [linear])
             (XYDataSet.fit_function_name d ++ ["linear"])
             (XYDataSet.fit_yres d ++
                [map (fun xy => mkMeasurement (snd xy - (offset + slope * fst xy)) 0 None)
                     (combine (XYDataSet.xdata d) (XYDataSet.ydata d))])
             (XYDataSet.fit_pcorr d ++ [[[1; -(1 # 2)]; [-(1 # 2); 1]]]))
      else Raise CollaboratorError
  | _, _, _, _ => Raise CollaboratorError
  end.

Definition Measurement_str (m : Measurement) : string :=
  match mname m with
  | Some n => n
  | None => "unnamed"
  end.

(** A stand-in for [qexpy.plot_utils.bk_plot_function]: the curve on [n]
    samples between the ends of [xdata], and the band of [errorbandfactor]
    standard deviations around it when the parameters are uncertain. *)
Definition qpu_bk_plot_function (k : Z) (f : Callable) (xdata : list Q) (pars : PyVal)
           (n : nat) (errorbandfactor : Q) : Result (Line * option Patches) :=
  match arr_min xdata, arr_max xdata with
  | Return lo, Return hi =>
      let xvals := linspace lo hi n in
      match pars with
      | PyMeasurement_Array ms =>
          match fst (call_uncertain f 1 xvals ms) with
          | Return fmes =>
              let up := arr_add (get_means fmes) (map (Qmult errorbandfactor) (get_stds fmes)) in
              let dn := arr_sub (get_means fmes) (map (Qmult errorbandfactor) (get_stds fmes)) in
              Return (mkLine xvals (get_means fmes),
                      Some (mkPatches (xvals ++ rev xvals) (up ++ rev dn)))
          | Raise e => Raise e
          end
      | PySeq s =>
          match fst (call f k xvals (items s)) with
          | Return fvals => Return (mkLine xvals fvals, None)
          | Raise e => Raise e
          end
      | _ =>
          match fst (call f k xvals []) with
          | Return fvals => Return (mkLine xvals fvals, None)
          | Raise e => Raise e
          end
      end
  | Raise e, _ => Raise e
  | _, Raise e => Raise e
  end.

Definition dataset_of (name : string) (xs ys : list Q) : Dataset :=
  XYDataSet.mk name EmptyString "x" EmptyString "y" xs ys (map (fun _ => 0) xs) (map (fun _ => 0) ys)
               false None 10 0 [] [] [] [] [] [].

(** Five points spanning [x] in [0, 10] and [y] in [0, 5]. *)
Definition five_points : Dataset :=
  dataset_of "five points" [0; 5 # 2; 5; 15 # 2; 10] [0; 1; 5 # 2; 4; 5].

(** Two points away from the default range [0, 1]. *)
Definition far_points : Dataset := dataset_of "far points" [5; 6] [7; 9].

(** [five_points] after one linear fit. *)
Definition five_points_fitted : Dataset :=
  match fit five_points "linear" with
  | Return d => d
  | Raise _ => five_points
  end.

(** Two points on a falling line. *)
Definition falling_points : Dataset := dataset_of "falling points" [5; 6] [9; 7].

Definition blank : Plot := blank_plot Set1_9 Set2_8.

(** A process in a notebook with the bokeh engine selected, before any
    [Plot] method has run on [self]. *)
Definition env_of (p : Plot) : Env :=
  {| self := p; minmax_n := 8; stdout := []; pyplot := []; bokeh_io := [];
     plot_engine := EngineBokeh; in_notebook := true;
     bokeh_ouput_notebook_called := false; mpl_ouput_notebook_called := false |}.

(** [Plot()] and [Plot(dataset)]. *)
Definition new_plot (dataset : option Dataset) : Env :=
  snd (__init__ get_x_range get_y_range get_yres_range Set1_9 Set2_8 dataset (env_of blank)).

Definition attach (d : Dataset) (e : Env) : Env :=
  snd (add_dataset get_x_range get_y_range get_yres_range d None None e).

(** [Plot(five_points_fitted)], and the same with [far_points] attached
    afterwards. *)
Definition fitted_plot : Env := new_plot (Some five_points_fitted).
Definition fitted_then_unfitted : Env := attach far_points fitted_plot.

(** [Plot(falling_points)]. *)
Definition falling_plot : Env := new_plot (Some falling_points).

(** Two uncertain parameters, [3 +/- 0.1] and [0 +/- 0.5]. *)
Definition two_pars : list Measurement :=
  [mkMeasurement 3 (1 # 10) None; mkMeasurement 0 (1 # 2) None].

(** A tuple of two numbers: neither a list, an ndarray nor a
    [Measurement_Array]. *)
Definition a_tuple : PyVal := PySeq (mkSeq TTuple [SNum 1; SNum 2]).

(** A list of two strings. *)
Definition two_strings : Seq := mkSeq TList [SStr "a"; SStr "b"].

(** A function with a spike at [x = 1/2] and zero elsewhere. *)
Definition spike : Callable :=
  {| call := fun k xs _ =>
       (Return (map (fun x => if Qeq_bool x (1 # 2) then 100 else 0) xs), k);
     call_point := fun k x _ => (Return (if Qeq_bool x (1 # 2) then 100 else 0), k);
     call_uncertain := fun k xs _ =>
       (Return (map (fun x => mkMeasurement (if Qeq_bool x (1 # 2) then 100 else 0) 0 None)
                    xs), k) |}.

(** A function of two uncertain parameters whose value has mean [p0] and
    standard deviation that of [p1] at every sample. *)
Definition flat : Callable :=
  {| call := fun k xs pars =>
       match pars with
       | SNum p0 :: _ => (Return (map (fun _ => p0) xs), k)
       | _ => (Raise TypeError, k)
       end;
     call_point := fun k x pars =>
       match pars with
       | SNum p0 :: _ => (Return p0, k)
       | _ => (Raise TypeError, k)
       end;
     call_uncertain := fun k xs pars =>
       match pars with
       | [p0; p1] => (Return (map (fun _ => mkMeasurement (mean p0) (std p1) None) xs), k)
       | _ => (Raise TypeError, k)
       end |}.


(** [Plot(falling_points)] after [set_plot_range(x_range=(5, 6))]: the
    range is the tuple that was passed in. *)
Definition tuple_ranged : Env :=
  snd (set_plot_range ARRAY (PySeq (mkSeq TTuple [SNum 5; SNum 6])) PyNone falling_plot).

(** Modelled from the spec: the constructor of [qexpy.fitting.XYDataSet] is
    not under src/; this stand-in takes two lists of numbers, without
    uncertainties, and a name. *)
Definition XYDataSet_init (x y : DataArg) (xerr yerr data_name xname xunits yname yunits : PyVal)
  : Result Dataset :=
  let numbers := fold_right (fun s acc =>
                               match s, acc with
                               | SNum q, Some l => Some (q :: l)
                               | _, _ => None
                               end) (Some []) in
  match x, y with
  | ArgValue (PySeq xs), ArgValue (PySeq ys) =>
      match numbers (items xs), numbers (items ys) with
      | Some xl, Some yl =>
          Return (with_overrides xname xunits yname yunits data_name (dataset_of "dataset" xl yl))
      | _, _ => Raise TypeError
      end
  | _, _ => Raise TypeError
  end.

(** A stand-in for [Measurement_Array.__str__]. *)
Definition Measurement_Array_str (ms : list Measurement) : string :=
  String.concat ", " (map Measurement_str ms).

(** [Plot(far_points)] with [five_points_fitted] attached afterwards: the
    last dataset has a fit, the first has none. *)
Definition unfitted_then_fitted : Env := attach five_points_fitted (new_plot (Some far_points)).

(** The same process with the matplotlib engine selected, in a notebook or
    not. *)
Definition with_matplotlib (notebook : bool) (e : Env) : Env :=
  {| self := self e; minmax_n := minmax_n e; stdout := stdout e; pyplot := pyplot e;
     bokeh_io := bokeh_io e; plot_engine := EngineMpl; in_notebook := notebook;
     bokeh_ouput_notebook_called := bokeh_ouput_notebook_called e;
     mpl_ouput_notebook_called := mpl_ouput_notebook_called e |}.

(** A single point: the stand-in fit engine cannot put a line through it. *)
Definition one_point : Dataset := dataset_of "one point" [1] [2].
Definition one_point_plot : Env := new_plot (Some one_point).

(** [fitted_plot] after [plot.show_fit_results = False]. *)
Definition quiet_plot : Env :=
  with_self (with_show_fit_results false (self fitted_plot)) fitted_plot.

(** [Plot()] after [plot.color_palette = []]. *)
Definition colourless : Env :=
  with_self (with_color_palette [] (self (new_plot None))) (new_plot None).


End Sample.

(** ** Vocabulary of the statements *)

(** [returns m e Q]: from [e] the method [m] returns normally, and [Q] holds
    of its value and of the environment it leaves. *)
Definition returns {A : Type} (m : M A) (e : Env) (Q : A -> Env -> Prop) : Prop :=
  match m e with
  | (Return a, e') => Q a e'
  | (Raise _, _) => False
  end.

(** [inv I m]: the method [m] keeps [I], whether it returns or raises. *)
Definition inv {A : Type} (I : Env -> Prop) (m : M A) : Prop :=
  forall e, I e -> I (snd (m e)).

(** [n] calls of [m] in a row, with their results in order. *)
Fixpoint calls {A : Type} (n : nat) (m : M A) : M (list A) :=
  match n with
  | O => ret []
  | S n' => x <- m ;; xs <- calls n' m ;; ret (x :: xs)
  end.

(** The palette index that the next automatic colour assignment uses. *)
Definition next_index (p : Plot) : nat :=
  if Nat.ltb (color_count p) (List.length (color_palette p)) then color_count p else 0%nat.

(** The residual range after a pass of [set_yres_range_from_fits] over the
    datasets: the one of the last dataset that has a fit, or the previous
    one when none has. *)
Definition yres_after (get_yres_range : Dataset -> Q -> Q * Q)
           (ds : list Dataset) (margin : Q) (r : option Seq) : option Seq :=
  fold_left (fun r d =>
               if Nat.ltb 0 (XYDataSet.nfits d)
               then Some (fresh_list (get_yres_range d margin)) else r) ds r.

(** The dataset as [add_dataset] leaves it in [self.datasets]. *)
Definition renamed (name : option string) (d : Dataset) : Dataset :=
  match name with
  | Some n => XYDataSet.with_name n d
  | None => d
  end.

(** [base] widened to cover [box], bound by bound. *)
Definition widen (base box : Q * Q) : Seq :=
  list2 (if Qlt_bool (fst box) (fst base) then fst box else fst base)
        (if Qlt_bool (snd base) (snd box) then snd box else snd base).

(** [inner] lies within [outer]. *)
Definition within (inner outer : Q * Q) : Prop :=
  fst outer <= fst inner /\ snd inner <= snd outer.

(** The attributes of the plot that attaching a dataset leaves alone. *)
Record same_setup (p p' : Plot) : Prop := {
  same_x_margin : x_range_margin p' = x_range_margin p;
  same_y_margin : y_range_margin p' = y_range_margin p;
  same_palette : color_palette p' = color_palette p;
  same_datasets : datasets p' = datasets p
}.

(** Every attached dataset's margin-expanded box lies within the ranges [xr]
    and [yr]. *)
Definition covered (get_x_range get_y_range : Dataset -> Q -> Q * Q)
           (p : Plot) (xr yr : Q * Q) : Prop :=
  forall ds, In ds (datasets p) ->
    within (get_x_range ds (x_range_margin p)) xr /\
    within (get_y_range ds (y_range_margin p)) yr.

(** A sequence of [add_dataset] calls, one per [(dataset, color, name)]. *)
Definition add_datasets (get_x_range get_y_range get_yres_range : Dataset -> Q -> Q * Q)
           (args : list (Dataset * option string * option string)) : M unit :=
  for_each args (fun arg =>
    let '(ds, color, name) := arg in
    add_dataset get_x_range get_y_range get_yres_range ds color name).

(** [set_plot_range] stores the argument [v]: it is the sequence [s], of a
    type listed in [ARRAY] and with exactly two items, whatever they are. *)
Definition accepted (ARRAY : list SeqType) (v : PyVal) (s : Seq) : Prop :=
  v = PySeq s /\ In (seq_type s) ARRAY /\ List.length (items s) = 2%nat.

(** The message [set_plot_range] prints for an argument, if any. *)
Definition report (ARRAY : list SeqType) (axis : string) (v : PyVal) : list string :=
  match valid_range ARRAY v with
  | Some _ => []
  | None => if is_None v then [] else [range_message axis]
  end.

(** The curves and the error bands among the calls made to pyplot. *)
Definition drawn_curves (calls : list PltCall) : list (list Q * list Q) :=
  flat_map (fun c => match c with
                     | plt_plot xs ys _ _ => [(xs, ys)]
                     | _ => []
                     end) calls.

Definition drawn_bands (calls : list PltCall) : list (list Q * list Q * list Q) :=
  flat_map (fun c => match c with
                     | plt_fill_between xs fmin fmax _ => [(xs, fmin, fmax)]
                     | _ => []
                     end) calls.

(** The bounds of the main bokeh figure, as it was created. *)
Definition main_y_range (o : option BkObj) : option Seq :=
  match o with
  | Some (BkFig f) => Some (bk_y_range f)
  | Some (BkGrid m _) => Some (bk_y_range m)
  | None => None
  end.


(** [flag_triple P m Q]: when [m] starts with [qe.Measurement.minmax_n]
    satisfying [P] and returns, the flag satisfies [Q]. *)
Definition flag_triple {A : Type} (P : Z -> Prop) (m : M A) (Q : Z -> Prop) : Prop :=
  forall e a e', P (minmax_n e) -> m e = (Return a, e') -> Q (minmax_n e').

(** [m] never changes the flag. *)
Definition keeps_flag {A : Type} (m : M A) : Prop :=
  forall n, inv (fun e => minmax_n e = n) m.

(** The caller-visible [y_range] is [v] and the main bokeh figure was created
    with the bounds [w]. *)
Definition bk_state (v w : Seq) (e : Env) : Prop :=
  y_range (self e) = v /\ main_y_range (bkfigure (self e)) = Some w.

(** The two ranges of the plot are [xr] and [yr]. *)
Definition ranges_are (xr yr : Seq) (e : Env) : Prop :=
  x_range (self e) = xr /\ y_range (self e) = yr.

(** The run [r] of a method ended by returning. *)
Definition returned {A : Type} (r : Result A * Env) : bool :=
  match fst r with
  | Return _ => true
  | Raise _ => false
  end.

(** [raises m e x Q]: from [e] the method [m] raises [x], and [Q] holds of
    the environment it leaves behind. *)
Definition raises {A : Type} (m : M A) (e : Env) (x : exn) (Q : Env -> Prop) : Prop :=
  match m e with
  | (Raise y, e') => y = x /\ Q e'
  | (Return _, _) => False
  end.

(** The formats of [pars] for which [add_function] evaluates the function. *)
Definition recognized (pars : PyVal) : bool :=
  match pars with
  | PyNone | PyMeasurement_Array _ => true
  | PySeq s => is_list_or_ndarray s
  | PyScalar _ => false
  end.

(** [fvals] are the values that [add_function] gets from [f] on the grid
    [xvals] for the parameters [pars], when the flag is [k] at the call. *)
Definition evaluated (f : Callable) (pars : PyVal) (k : Z) (xvals fvals : list Q) : Prop :=
  match pars with
  | PyNone => fst (call f k xvals []) = Return fvals
  | PySeq s => fst (call f k xvals (items s)) = Return fvals
  | PyMeasurement_Array ms =>
      exists fmes, fst (call_uncertain f 1 xvals ms) = Return fmes /\ fvals = get_means fmes
  | PyScalar _ => False
  end.

(** The user functions as both [populate_*_figure] methods walk them. *)
Definition stored_functions (p : Plot) : list (Callable * PyVal * string * string) :=
  zip4 (user_functions p) (user_functions_pars p)
       (user_functions_names p) (user_functions_colors p).

(** The labels that [initialize_from_dataset] derives from a dataset. *)
Definition labels_of (d : Dataset) : Labels :=
  mkLabels (XYDataSet.name d)
           (XYDataSet.xname d ++ " [" ++ XYDataSet.xunits d ++ "]")%string
           (XYDataSet.yname d ++ " [" ++ XYDataSet.yunits d ++ "]")%string.

(** The datasets, their colours and the palette, as seen by the steps of
    [add_dataset] that do not touch them. *)
Definition attached_are (ds : list Dataset) (cs palette : list string) (e : Env) : Prop :=
  datasets (self e) = ds /\ datasets_colors (self e) = cs /\ color_palette (self e) = palette.


(** The plot that [Plot(d)] builds, as far as the dataset decides it: the
    dataset is attached, the labels are derived from it, and the ranges are
    its extent expanded by the default margin 0.5. *)
Definition plot_of (get_x_range get_y_range : Dataset -> Q -> Q * Q) (d : Dataset) (p : Plot)
  : Prop :=
  datasets p = [d] /\
  List.length (datasets_colors p) = 1%nat /\
  labels p = labels_of d /\
  x_range p = fresh_list (get_x_range d (1 # 2)) /\
  y_range p = fresh_list (get_y_range d (1 # 2)).

(** The plot that [Plot()] builds. *)
Definition empty_plot (p : Plot) : Prop :=
  datasets p = [] /\ datasets_colors p = [] /\
  x_range p = list2 0 1 /\ y_range p = list2 0 1 /\
  labels p = mkLabels "y as a function of x" "x []" "y []".


(** The matplotlib figure exists, with its grid when residuals are shown:
    what [initialize_mpl_figure(refresh=False)] asks for before it returns
    at once. *)
Definition figure_ready (e : Env) : Prop :=
  has (mplfigure (self e)) = true /\
  (show_residuals (self e) = true -> has (mpl_gs (self e)) = true).

(** The calls to [plt.savefig] among the calls made to pyplot. *)
Definition saved (calls : list PltCall) : list PltCall :=
  filter (fun c => match c with plt_savefig _ => true | _ => false end) calls.


(** The character [c] occurs in [s]. *)
Fixpoint occurs (c : Ascii.ascii) (s : string) : bool :=
  match s with
  | EmptyString => false
  | String a s' => Ascii.eqb a c || occurs c s'
  end.




(** * Properties *)

(** ** Numbers and lists *)

Lemma Qlt_bool_iff (x y : Q) : Qlt_bool x y = true <-> x < y.
Proof. unfold Qlt_bool, Qlt. apply Z.ltb_lt. Qed.

Lemma Qlt_bool_false_iff (x y : Q) : Qlt_bool x y = false <-> y <= x.
Proof. unfold Qlt_bool, Qle. rewrite Z.ltb_ge. reflexivity. Qed.

Lemma replace_nth_length {A : Type} (l : list A) (i : nat) (v : A) :
  List.length (replace_nth l i v) = List.length l.
Proof.
  revert i; induction l as [|h t IH]; intros [|i]; simpl; auto.
Qed.


Lemma nth_error_replace_nth_other {A : Type} (l : list A) (i j : nat) (v : A) :
  i <> j -> nth_error (replace_nth l i v) j = nth_error l j.
Proof.
  revert i j; induction l as [|h t IH]; intros [|i] [|j] H; simpl; auto; try congruence.
Qed.


Lemma replace_nth_same {A : Type} (l : list A) (i : nat) (v : A) :
  nth_error l i = Some v -> replace_nth l i v = l.
Proof.
  revert i; induction l as [|h t IH]; intros [|i] H; simpl in *; try congruence.
  now rewrite IH.
Qed.

Lemma last_item_app {A : Type} (l : list A) (x : A) : last_item (l ++ [x]) = Return x.
Proof. unfold last_item. rewrite rev_app_distr. reflexivity. Qed.

Lemma last_item_In {A : Type} (l : list A) (x : A) : last_item l = Return x -> In x l.
Proof.
  unfold last_item. destruct (rev l) as [|y t] eqn:E; intros H; inversion H; subst.
  apply in_rev. rewrite E. now left.
Qed.

Lemma last_item_nonempty {A : Type} (l : list A) :
  l <> [] -> exists x, last_item l = Return x.
Proof.
  intros H. unfold last_item. destruct (rev l) as [|y t] eqn:E.
  - apply (f_equal (@rev A)) in E. rewrite rev_involutive in E. contradiction.
  - now exists y.
Qed.

(** ** Reasoning about methods *)

(** Record extensionality for the two updates that come back to where they
    started. *)
Lemma with_self_self (e : Env) : with_self (self e) e = e.
Proof. now destruct e. Qed.

Lemma bind_Return {A B : Type} {m : M A} (k : A -> M B) {e e1 : Env} {a : A} :
  m e = (Return a, e1) -> bind m k e = k a e1.
Proof. unfold bind. now intros ->. Qed.

Lemma bind_Raise {A B : Type} {m : M A} (k : A -> M B) {e e1 : Env} {x : exn} :
  m e = (Raise x, e1) -> bind m k e = (Raise x, e1).
Proof. unfold bind. now intros ->. Qed.

Lemma bind_inv {A B : Type} {m : M A} {k : A -> M B} {e e' : Env} {b : B} :
  bind m k e = (Return b, e') ->
  exists a e1, m e = (Return a, e1) /\ k a e1 = (Return b, e').
Proof.
  unfold bind. destruct (m e) as [[a|x] e1]; intros H.
  - now exists a, e1.
  - discriminate.
Qed.

Lemma inv_ret {A : Type} (I : Env -> Prop) (a : A) : inv I (ret a).
Proof. now intros e H. Qed.

Lemma inv_raise {A : Type} (I : Env -> Prop) (x : exn) : inv I (@raise A x).
Proof. now intros e H. Qed.

Lemma inv_lift {A : Type} (I : Env -> Prop) (r : Result A) : inv I (lift r).
Proof. now intros e H. Qed.

Lemma inv_get_self (I : Env -> Prop) : inv I get_self.
Proof. now intros e H. Qed.

Lemma inv_get_minmax_n (I : Env -> Prop) : inv I get_minmax_n.
Proof. now intros e H. Qed.

Lemma inv_bind {A B : Type} (I : Env -> Prop) (m : M A) (k : A -> M B) :
  inv I m -> (forall a, inv I (k a)) -> inv I (bind m k).
Proof.
  intros Hm Hk e H. unfold bind. specialize (Hm e H).
  destruct (m e) as [[a|x] e1]; simpl in *; auto. now apply Hk.
Qed.

Lemma inv_when (I : Env -> Prop) (b : bool) (m : M unit) : inv I m -> inv I (when b m).
Proof. destruct b; simpl; auto using inv_ret. Qed.

Lemma inv_for_each {A : Type} (I : Env -> Prop) (l : list A) (body : A -> M unit) :
  (forall x, inv I (body x)) -> inv I (for_each l body).
Proof.
  intros H. induction l as [|x t IH]; simpl.
  - apply inv_ret.
  - apply inv_bind; auto.
Qed.

Lemma inv_for_fold {A S : Type} (I : Env -> Prop) (l : list A) (acc : S)
      (body : S -> A -> M S) :
  (forall s x, inv I (body s x)) -> inv I (for_fold l acc body).
Proof.
  intros H. revert acc. induction l as [|x t IH]; intros acc; simpl.
  - apply inv_ret.
  - apply inv_bind; auto.
Qed.

(** One step of an invariance proof: split the method along its syntax; the
    primitive updates that remain are left to the caller. *)
Ltac inv_step :=
  match goal with
  | |- inv _ (bind _ _) => apply inv_bind; [|intro]
  | |- inv _ (ret _) => apply inv_ret
  | |- inv _ (raise _) => apply inv_raise
  | |- inv _ (lift _) => apply inv_lift
  | |- inv _ get_self => apply inv_get_self
  | |- inv _ get_minmax_n => apply inv_get_minmax_n
  | |- inv _ (when _ _) => apply inv_when
  | |- inv _ (for_each _ _) => apply inv_for_each; intro
  | |- inv _ (for_fold _ _ _) => apply inv_for_fold; intros ? ?
  | |- inv _ (attr ?o) => destruct o; simpl
  | |- inv _ (if ?b then _ else _) => destruct b
  | |- inv _ (match ?x with _ => _ end) => destruct x
  | |- inv _ (let (_, _) := ?x in _) => destruct x
  end.

(** The primitive steps that can only touch [self], the printed text or the
    backends: they keep whatever is stated about the rest. *)
Ltac inv_leaf :=
  match goal with
  | |- inv _ (modify_self _) => now intros ? ?
  | |- inv _ (print _) => now intros ? ?
  | |- inv _ (plt _) => now intros ? ?
  | |- inv _ (bokeh _) => now intros ? ?
  end.

Ltac keep :=
  repeat first
    [ progress intros
    | inv_step
    | inv_leaf
    | match goal with |- keeps_flag _ => intro end ].

(** ** The colour cursor *)

Lemma get_color_step (e : Env) :
  color_palette (self e) <> [] ->
  exists c,
    nth_error (color_palette (self e)) (next_index (self e)) = Some c /\
    _get_color_from_palette e =
      (Return c, with_self (with_color_count (S (next_index (self e))) (self e)) e).
Proof.
  intros Hne. unfold next_index.
  assert (HN : (0 < List.length (color_palette (self e)))%nat).
  { destruct (color_palette (self e)); simpl; [congruence | lia]. }
  unfold _get_color_from_palette, bind, modify_self, get_self, when, lift, item, ret.
  cbn [fst snd self with_self color_count color_palette with_color_count].
  destruct (Nat.ltb_spec (color_count (self e)) (List.length (color_palette (self e)))) as [Hlt|Hge].
  - destruct (Nat.ltb_spec (List.length (color_palette (self e))) (color_count (self e) + 1)) as [H1|H1];
      [lia|].
    cbn [fst snd self with_self color_count color_palette with_color_count].
    replace (color_count (self e) + 1 - 1)%nat with (color_count (self e)) by lia.
    destruct (nth_error (color_palette (self e)) (color_count (self e))) as [c|] eqn:E.
    + exists c. split; [reflexivity|].
      replace (color_count (self e) + 1)%nat with (S (color_count (self e))) by lia.
      reflexivity.
    + apply nth_error_None in E. lia.
  - destruct (Nat.ltb_spec (List.length (color_palette (self e))) (color_count (self e) + 1)) as [H1|H1];
      [|lia].
    cbn [fst snd self with_self color_count color_palette with_color_count].
    destruct (nth_error (color_palette (self e)) (1 - 1)) as [c|] eqn:E.
    + exists c. split; [exact E|]. reflexivity.
    + apply nth_error_None in E. simpl in E. lia.
Qed.

Lemma succ_mod (j N : nat) :
  (0 < N)%nat ->
  ((j + 1) mod N = if Nat.ltb (S (j mod N)) N then S (j mod N) else 0)%nat.
Proof.
  intros HN.
  pose proof (Nat.mod_upper_bound j N ltac:(lia)) as Hb.
  pose proof (Nat.div_mod_eq j N) as Hd.
  destruct (Nat.ltb_spec (S (j mod N)) N) as [H|H].
  - symmetry. apply (Nat.mod_unique (j + 1) N (j / N)); lia.
  - symmetry. apply (Nat.mod_unique (j + 1) N (S (j / N))); nia.
Qed.

Lemma calls_get_color (k : nat) :
  forall (j : nat) (e : Env),
    color_palette (self e) <> [] ->
    next_index (self e) = (j mod List.length (color_palette (self e)))%nat ->
    exists cs e',
      calls k _get_color_from_palette e = (Return cs, e') /\
      List.length cs = k /\
      color_palette (self e') = color_palette (self e) /\
      next_index (self e') = ((j + k) mod List.length (color_palette (self e)))%nat /\
      forall i, (i < k)%nat ->
        nth_error cs i =
        nth_error (color_palette (self e)) ((j + i) mod List.length (color_palette (self e))).
Proof.
  induction k as [|k IH]; intros j e Hne Hidx.
  - exists [], e. simpl. repeat split; auto.
    + now rewrite Nat.add_0_r.
    + intros i Hi; lia.
  - destruct (get_color_step e Hne) as (c & Hc & Hstep).
    set (e1 := with_self (with_color_count (S (next_index (self e))) (self e)) e) in *.
    assert (HN : (0 < List.length (color_palette (self e)))%nat).
    { destruct (color_palette (self e)); simpl; [congruence | lia]. }
    assert (Hidx1 : next_index (self e1) = ((j + 1) mod List.length (color_palette (self e1)))%nat).
    { unfold e1, next_index at 1. cbn [self with_self color_count color_palette with_color_count].
      rewrite Hidx. now rewrite succ_mod. }
    destruct (IH (j + 1)%nat e1 Hne Hidx1) as (cs & e' & Hcalls & Hlen & Hpal & Hnext & Hnth).
    exists (c :: cs), e'. simpl calls.
    rewrite (bind_Return _ Hstep).
    rewrite (bind_Return _ Hcalls). unfold ret.
    assert (Hp1 : color_palette (self e1) = color_palette (self e)) by reflexivity.
    rewrite Hp1 in *.
    split; [reflexivity|]. split; [simpl; now rewrite Hlen|].
    split; [exact Hpal|]. split.
    + rewrite Hnext. f_equal. lia.
    + intros [|i] Hi; simpl.
      * rewrite Nat.add_0_r, <- Hidx. now rewrite Hc.
      * rewrite Hnth by lia. f_equal. f_equal. lia.
Qed.

(** C3: on a plot with a palette of [N >= 1] colours and a cursor at its
    initial value 0, [N + 1] automatic assignments in a row all return, and
    the last of them returns the colour at palette index 0; after any number
    [k] of assignments the next one returns the element of the palette at
    index [k mod N]. *)
Theorem C3_color_cursor_wraps (e : Env) :
  color_palette (self e) <> [] ->
  color_count (self e) = 0%nat ->
  let palette := color_palette (self e) in
  let N := List.length palette in
  (exists cs e' c,
      calls (N + 1) _get_color_from_palette e = (Return cs, e') /\
      nth_error cs N = Some c /\ nth_error palette 0 = Some c) /\
  (forall k, exists cs e' c e'',
      calls k _get_color_from_palette e = (Return cs, e') /\
      _get_color_from_palette e' = (Return c, e'') /\
      nth_error palette (k mod N) = Some c /\ In c palette).
Proof.
  intros Hne Hc palette N.
  assert (HN : (0 < N)%nat).
  { unfold N, palette. destruct (color_palette (self e)); simpl; [congruence | lia]. }
  assert (Hidx : next_index (self e) = (0 mod N)%nat).
  { unfold next_index. rewrite Hc. fold palette. fold N.
    destruct (Nat.ltb_spec 0 N); [|lia]. symmetry. apply Nat.mod_small. lia. }
  split.
  - destruct (calls_get_color (N + 1) 0 e Hne Hidx) as (cs & e' & Hcalls & _ & _ & _ & Hnth).
    destruct (nth_error palette 0) as [c|] eqn:E0.
    + exists cs, e', c. split; [exact Hcalls|]. split; [|reflexivity].
      rewrite (Hnth N) by lia. fold palette. fold N.
      simpl. rewrite Nat.Div0.mod_same. exact E0.
    + apply nth_error_None in E0. fold N in E0. lia.
  - intros k.
    destruct (calls_get_color k 0 e Hne Hidx) as (cs & e' & Hcalls & _ & Hpal & Hnext & _).
    assert (Hne' : color_palette (self e') <> []) by (rewrite Hpal; exact Hne).
    destruct (get_color_step e' Hne') as (c & Hc' & Hstep).
    exists cs, e', c. eexists. split; [exact Hcalls|]. split; [exact Hstep|].
    rewrite Hnext, Hpal in Hc'. simpl in Hc'. fold palette in Hc'. fold N in Hc'.
    split; [exact Hc'|]. eapply nth_error_In; eauto.
Qed.

Lemma returns_bind {A B : Type} (m : M A) (k : A -> M B) (e : Env) (Q : B -> Env -> Prop) :
  returns m e (fun a e1 => returns (k a) e1 Q) -> returns (bind m k) e Q.
Proof.
  unfold returns, bind. destruct (m e) as [[a|x] e1]; auto.
Qed.

Lemma returns_eq {A : Type} (m : M A) (e e' : Env) (a : A) (Q : A -> Env -> Prop) :
  m e = (Return a, e') -> Q a e' -> returns m e Q.
Proof. unfold returns. now intros ->. Qed.

Lemma returns_inv {A : Type} (m : M A) (e : Env) (Q : A -> Env -> Prop) :
  returns m e Q -> exists a e', m e = (Return a, e') /\ Q a e'.
Proof.
  unfold returns. destruct (m e) as [[a|x] e1]; intros H; [|contradiction].
  now exists a, e1.
Qed.

Lemma returns_conj {A : Type} (m : M A) (e : Env) (Q Q' : A -> Env -> Prop) :
  returns m e Q -> returns m e Q' -> returns m e (fun a e' => Q a e' /\ Q' a e').
Proof.
  unfold returns. destruct (m e) as [[a|x] e1]; auto.
Qed.

Lemma returns_weaken {A : Type} (m : M A) (e : Env) (Q Q' : A -> Env -> Prop) :
  (forall a e', Q a e' -> Q' a e') -> returns m e Q -> returns m e Q'.
Proof.
  unfold returns. destruct (m e) as [[a|x] e1]; auto.
Qed.

Lemma with_yres_range_same (p : Plot) : with_yres_range (yres_range p) p = p.
Proof. now destruct p. Qed.

Lemma with_x_range_same (p : Plot) : with_x_range (x_range p) p = p.
Proof. now destruct p. Qed.

Lemma with_y_range_same (p : Plot) : with_y_range (y_range p) p = p.
Proof. now destruct p. Qed.

Section Ranges.

Variable get_x_range get_y_range get_yres_range : Dataset -> Q -> Q * Q.

(** *** The residual range *)

Lemma set_yres_range_from_fits_eq (e : Env) :
  set_yres_range_from_fits get_yres_range e =
    (Return tt,
     with_self (with_yres_range
                  (yres_after get_yres_range (datasets (self e)) (y_range_margin (self e))
                              (yres_range (self e))) (self e)) e).
Proof.
  unfold set_yres_range_from_fits, bind, get_self.
  generalize (datasets (self e)) as l. intros l. revert e.
  induction l as [|d t IH]; intros e; simpl.
  - unfold ret. now rewrite with_yres_range_same, with_self_self.
  - unfold bind, when. destruct (Nat.ltb 0 (XYDataSet.nfits d)).
    + unfold modify_self. rewrite IH. reflexivity.
    + unfold ret. rewrite IH. reflexivity.
Qed.

(** *** Attaching datasets *)

Lemma when_set_x_range_0 (c : bool) (v : Q) (e : Env) (a b : Q) :
  x_range (self e) = list2 a b ->
  when c (set_x_range_item 0 (SNum v)) e =
    (Return tt, with_self (with_x_range (list2 (if c then v else a) b) (self e)) e).
Proof.
  intros H. destruct c; simpl.
  - unfold set_x_range_item, bind, get_self, lift, modify_self. rewrite H. reflexivity.
  - unfold ret. now rewrite <- H, with_x_range_same, with_self_self.
Qed.

Lemma when_set_x_range_1 (c : bool) (v : Q) (e : Env) (a b : Q) :
  x_range (self e) = list2 a b ->
  when c (set_x_range_item 1 (SNum v)) e =
    (Return tt, with_self (with_x_range (list2 a (if c then v else b)) (self e)) e).
Proof.
  intros H. destruct c; simpl.
  - unfold set_x_range_item, bind, get_self, lift, modify_self. rewrite H. reflexivity.
  - unfold ret. now rewrite <- H, with_x_range_same, with_self_self.
Qed.

Lemma when_set_y_range_0 (c : bool) (v : Q) (e : Env) (a b : Q) :
  y_range (self e) = list2 a b ->
  when c (set_y_range_item 0 (SNum v)) e =
    (Return tt, with_self (with_y_range (list2 (if c then v else a) b) (self e)) e).
Proof.
  intros H. destruct c; simpl.
  - unfold set_y_range_item, bind, get_self, lift, modify_self. rewrite H. reflexivity.
  - unfold ret. now rewrite <- H, with_y_range_same, with_self_self.
Qed.

Lemma when_set_y_range_1 (c : bool) (v : Q) (e : Env) (a b : Q) :
  y_range (self e) = list2 a b ->
  when c (set_y_range_item 1 (SNum v)) e =
    (Return tt, with_self (with_y_range (list2 a (if c then v else b)) (self e)) e).
Proof.
  intros H. destruct c; simpl.
  - unfold set_y_range_item, bind, get_self, lift, modify_self. rewrite H. reflexivity.
  - unfold ret. now rewrite <- H, with_y_range_same, with_self_self.
Qed.

Lemma initialize_from_dataset_returns (d : Dataset) (e : Env) :
  returns (initialize_from_dataset get_x_range get_y_range get_yres_range d) e
    (fun _ e' =>
       x_range (self e') = fresh_list (get_x_range d (x_range_margin (self e))) /\
       y_range (self e') = fresh_list (get_y_range d (y_range_margin (self e))) /\
       same_setup (self e) (self e')).
Proof.
  unfold initialize_from_dataset, set_range_from_dataset.
  repeat (apply returns_bind; eapply returns_eq; [reflexivity|]; cbv beta).
  apply returns_bind.
  eapply returns_eq; [apply set_yres_range_from_fits_eq|]; cbv beta.
  eapply returns_eq; [reflexivity|].
  repeat split.
Qed.

Lemma add_dataset_returns (d : Dataset) (color name : option string) (e : Env)
      (a b c' d' : Q) :
  x_range (self e) = list2 a b ->
  y_range (self e) = list2 c' d' ->
  color_palette (self e) <> [] ->
  returns (add_dataset get_x_range get_y_range get_yres_range d color name) e
    (fun _ e' =>
       let p := self e in
       let first := match datasets p with [] => true | _ => false end in
       x_range (self e') =
         widen (if first then get_x_range d (x_range_margin p) else (a, b))
               (get_x_range (renamed name d) (x_range_margin p)) /\
       y_range (self e') =
         widen (if first then get_y_range d (y_range_margin p) else (c', d'))
               (get_y_range (renamed name d) (y_range_margin p)) /\
       datasets (self e') = datasets p ++ [renamed name d] /\
       x_range_margin (self e') = x_range_margin p /\
       y_range_margin (self e') = y_range_margin p /\
       color_palette (self e') = color_palette p).
Proof.
  intros Hx Hy Hpal.
  unfold add_dataset.
  apply returns_bind; eapply returns_eq; [reflexivity|]; cbv beta.
  apply returns_bind; eapply returns_eq; [reflexivity|]; cbv beta.
  set (e0 := with_self (with_datasets (datasets (self e) ++ [d]) (self e)) e).
  (* the state after the optional initialization *)
  assert (Hinit :
    returns (when (Nat.ltb (List.length (datasets (self e0))) 2)
                  (initialize_from_dataset get_x_range get_y_range get_yres_range d)) e0
      (fun _ e1 =>
         let first := match datasets (self e) with [] => true | _ => false end in
         x_range (self e1) =
           fresh_list (if first then get_x_range d (x_range_margin (self e)) else (a, b)) /\
         y_range (self e1) =
           fresh_list (if first then get_y_range d (y_range_margin (self e)) else (c', d')) /\
         same_setup (self e0) (self e1))).
  { unfold e0 at 1. cbn [self with_self datasets with_datasets].
    destruct (datasets (self e)) as [|d0 t] eqn:Hds.
    - simpl. eapply returns_weaken; [|apply initialize_from_dataset_returns].
      intros _ e1 (H1 & H2 & H3). auto.
    - replace (Nat.ltb (List.length ((d0 :: t) ++ [d])) 2) with false.
      + simpl. unfold returns, ret. repeat split; auto.
      + symmetry. apply Nat.ltb_ge. rewrite length_app. simpl. lia. }
  apply returns_bind. eapply returns_weaken; [|exact Hinit]. clear Hinit.
  intros _ e1 (Hx1 & Hy1 & Hs1). cbv beta.
  set (bx := if match datasets (self e) with [] => true | _ => false end
             then get_x_range d (x_range_margin (self e)) else (a, b)) in *.
  set (by' := if match datasets (self e) with [] => true | _ => false end
              then get_y_range d (y_range_margin (self e)) else (c', d')) in *.
  (* the colour *)
  assert (Hcol :
    returns (match color with
             | None =>
                 c <- _get_color_from_palette ;;
                 modify_self (fun p => with_datasets_colors (datasets_colors p ++ [c]) p)
             | Some c =>
                 modify_self (fun p => with_datasets_colors (datasets_colors p ++ [c]) p)
             end) e1
      (fun _ e2 =>
         x_range (self e2) = fresh_list bx /\ y_range (self e2) = fresh_list by' /\
         same_setup (self e0) (self e2))).
  { destruct color as [c|].
    - eapply returns_eq; [reflexivity|].
      destruct Hs1. repeat split; auto.
    - destruct (get_color_step e1) as (c & _ & Hstep).
      { destruct Hs1 as [_ _ Hp _]. rewrite Hp. exact Hpal. }
      apply returns_bind. eapply returns_eq; [exact Hstep|]; cbv beta.
      eapply returns_eq; [reflexivity|].
      destruct Hs1. repeat split; auto. }
  apply returns_bind. eapply returns_weaken; [|exact Hcol]. clear Hcol.
  intros _ e2 (Hx2 & Hy2 & Hs2). cbv beta. clear Hx1 Hy1 Hs1 e1.
  (* the name *)
  assert (Hname :
    returns (match name with
             | Some n =>
                 modify_self (fun p =>
                   with_datasets (set_last (datasets p) (XYDataSet.with_name n d)) p) ;;
                 ret (XYDataSet.with_name n d)
             | None => ret d
             end) e2
      (fun dataset e3 =>
         dataset = renamed name d /\
         x_range (self e3) = fresh_list bx /\ y_range (self e3) = fresh_list by' /\
         x_range_margin (self e3) = x_range_margin (self e) /\
         y_range_margin (self e3) = y_range_margin (self e) /\
         color_palette (self e3) = color_palette (self e) /\
         datasets (self e3) = datasets (self e) ++ [renamed name d])).
  { destruct Hs2 as [Hm1 Hm2 Hp Hd]. destruct name as [n|].
    - apply returns_bind. eapply returns_eq; [reflexivity|]; cbv beta.
      eapply returns_eq; [reflexivity|].
      cbn [self with_self datasets with_datasets x_range y_range x_range_margin
           y_range_margin color_palette].
      repeat split; auto.
      rewrite Hd. unfold e0. cbn [self with_self datasets with_datasets].
      unfold set_last. rewrite rev_app_distr. simpl. now rewrite rev_involutive.
    - eapply returns_eq; [reflexivity|]. repeat split; auto. }
  apply returns_bind. eapply returns_weaken; [|exact Hname]. clear Hname.
  intros dataset e3 (-> & Hx3 & Hy3 & Hmx & Hmy & Hp3 & Hd3). cbv beta.
  clear Hx2 Hy2 Hs2 e2.
  (* the four comparisons *)
  apply returns_bind; eapply returns_eq; [reflexivity|]; cbv beta.
  rewrite Hx3, Hmx, Hmy.
  apply returns_bind; eapply returns_eq; [reflexivity|]; cbv beta.
  apply returns_bind; eapply returns_eq; [apply when_set_x_range_0; exact Hx3|]; cbv beta.
  apply returns_bind; eapply returns_eq; [reflexivity|]; cbv beta.
  apply returns_bind; eapply returns_eq; [reflexivity|]; cbv beta.
  apply returns_bind; eapply returns_eq; [apply when_set_x_range_1; reflexivity|]; cbv beta.
  apply returns_bind; eapply returns_eq; [reflexivity|]; cbv beta.
  cbn [self with_self y_range with_x_range]. rewrite Hy3.
  apply returns_bind; eapply returns_eq; [reflexivity|]; cbv beta.
  apply returns_bind; eapply returns_eq;
    [apply when_set_y_range_0; cbn [self with_self y_range with_x_range]; exact Hy3|];
    cbv beta.
  apply returns_bind; eapply returns_eq; [reflexivity|]; cbv beta.
  apply returns_bind; eapply returns_eq; [reflexivity|]; cbv beta.
  apply returns_bind; eapply returns_eq; [apply when_set_y_range_1; reflexivity|]; cbv beta.
  eapply returns_eq; [apply set_yres_range_from_fits_eq|].
  cbn [self with_self datasets x_range y_range x_range_margin y_range_margin color_palette
       with_x_range with_y_range with_yres_range].
  repeat split; auto.
Qed.


Lemma widen_within (base box : Q * Q) :
exists a b, widen base box = list2 a b /\ within base (a, b) /\ within box (a, b).
Proof.
unfold widen, within.
exists (if Qlt_bool (fst box) (fst base) then fst box else fst base),
       (if Qlt_bool (snd base) (snd box) then snd box else snd base).
split; [reflexivity|]. cbn [fst snd].
destruct (Qlt_bool (fst box) (fst base)) eqn:E1;
  destruct (Qlt_bool (snd base) (snd box)) eqn:E2;
  try apply Qlt_bool_iff in E1; try apply Qlt_bool_iff in E2;
  try apply Qlt_bool_false_iff in E1; try apply Qlt_bool_false_iff in E2;
  repeat split; auto using Qle_refl, Qlt_le_weak.
Qed.

Lemma within_trans (r1 r2 r3 : Q * Q) : within r1 r2 -> within r2 r3 -> within r1 r3.
Proof.
unfold within. intros [H1 H2] [H3 H4]. split; eapply Qle_trans; eauto.
Qed.

Lemma list2_inj (a b c d : Q) : list2 a b = list2 c d -> a = c /\ b = d.
Proof. unfold list2. intros H. inversion H. auto. Qed.

Lemma add_dataset_step (d : Dataset) (color name : option string) (e : Env)
      (a b c' d' : Q) :
  x_range (self e) = list2 a b ->
  y_range (self e) = list2 c' d' ->
  color_palette (self e) <> [] ->
  covered get_x_range get_y_range (self e) (a, b) (c', d') ->
  returns (add_dataset get_x_range get_y_range get_yres_range d color name) e
    (fun _ e' =>
       exists a1 b1 c1 d1,
         x_range (self e') = list2 a1 b1 /\ y_range (self e') = list2 c1 d1 /\
         color_palette (self e') <> [] /\
         datasets (self e') = datasets (self e) ++ [renamed name d] /\
         covered get_x_range get_y_range (self e') (a1, b1) (c1, d1) /\
         (datasets (self e) <> [] -> within (a, b) (a1, b1) /\ within (c', d') (c1, d1)) /\
         (datasets (self e) = [] ->
            x_range (self e') =
              widen (get_x_range d (x_range_margin (self e)))
                    (get_x_range (renamed name d) (x_range_margin (self e))) /\
            y_range (self e') =
              widen (get_y_range d (y_range_margin (self e)))
                    (get_y_range (renamed name d) (y_range_margin (self e))))).
Proof.
  intros Hx Hy Hpal Hcov.
  eapply returns_weaken; [|apply (add_dataset_returns d color name e Hx Hy Hpal)].
  intros _ e' (Hx' & Hy' & Hds & Hmx & Hmy & Hp). cbv zeta in *.
  set (first := match datasets (self e) with [] => true | _ => false end) in *.
  destruct (widen_within (if first then get_x_range d (x_range_margin (self e)) else (a, b))
              (get_x_range (renamed name d) (x_range_margin (self e))))
    as (a1 & b1 & Ex & Hbx & Hnx).
  destruct (widen_within (if first then get_y_range d (y_range_margin (self e)) else (c', d'))
              (get_y_range (renamed name d) (y_range_margin (self e))))
    as (c1 & d1 & Ey & Hby & Hny).
  exists a1, b1, c1, d1.
  split; [congruence|]. split; [congruence|]. split; [congruence|]. split; [exact Hds|].
  split; [|split].
  - intros ds Hin. rewrite Hds in Hin. rewrite Hmx, Hmy.
    apply in_app_or in Hin. destruct Hin as [Hin|[<-|[]]]; [|now split].
    assert (Hf : first = false).
    { unfold first. destruct (datasets (self e)); [contradiction|reflexivity]. }
    rewrite Hf in Hbx, Hby. destruct (Hcov ds Hin) as [H1 H2].
    split; eapply within_trans; eauto.
  - intros Hne.
    assert (Hf : first = false).
    { unfold first. destruct (datasets (self e)); [contradiction|reflexivity]. }
    rewrite Hf in Hbx, Hby. now split.
  - intros Hnil. unfold first in Hx', Hy'. rewrite Hnil in Hx', Hy'. now split.
Qed.

Lemma add_datasets_widen (args : list (Dataset * option string * option string)) :
  forall (e : Env) (a b c d : Q),
    x_range (self e) = list2 a b ->
    y_range (self e) = list2 c d ->
    color_palette (self e) <> [] ->
    covered get_x_range get_y_range (self e) (a, b) (c, d) ->
    returns (add_datasets get_x_range get_y_range get_yres_range args) e
      (fun _ e' =>
         exists a' b' c' d',
           x_range (self e') = list2 a' b' /\ y_range (self e') = list2 c' d' /\
           datasets (self e') =
             datasets (self e) ++ map (fun arg => renamed (snd arg) (fst (fst arg))) args /\
           covered get_x_range get_y_range (self e') (a', b') (c', d') /\
           (datasets (self e) <> [] -> within (a, b) (a', b') /\ within (c, d) (c', d'))).
Proof.
  unfold add_datasets.
  induction args as [|[[ds color] name] rest IH]; intros e a b c d Hx Hy Hpal Hcov.
  - simpl. unfold returns, ret. exists a, b, c, d.
    rewrite app_nil_r. split; [exact Hx|]. split; [exact Hy|]. split; [reflexivity|].
    split; [exact Hcov|]. intros _. split; split; apply Qle_refl.
  - simpl for_each. apply returns_bind.
    eapply returns_weaken; [|apply (add_dataset_step ds color name e Hx Hy Hpal Hcov)].
    intros _ e1 (a1 & b1 & c1 & d1 & Hx1 & Hy1 & Hp1 & Hds1 & Hcov1 & Hgrow & _).
    eapply returns_weaken; [|apply (IH e1 a1 b1 c1 d1 Hx1 Hy1 Hp1 Hcov1)].
    intros _ e' (a' & b' & c' & d' & Hx' & Hy' & Hds' & Hcov' & Hgrow').
    exists a', b', c', d'.
    split; [exact Hx'|]. split; [exact Hy'|]. split; [|split; [exact Hcov'|]].
    + rewrite Hds', Hds1, <- app_assoc. reflexivity.
    + intros Hne. destruct (Hgrow Hne) as [G1 G2].
      destruct Hgrow' as [G3 G4].
      { rewrite Hds1. destruct (datasets (self e)); discriminate. }
      split; eapply within_trans; eauto.
Qed.

Lemma first_add_dataset_starts_from_the_dataset
      (ds : Dataset) (color name : option string) (e : Env) (a b c d : Q) :
  x_range (self e) = list2 a b ->
  y_range (self e) = list2 c d ->
  color_palette (self e) <> [] ->
  datasets (self e) = [] ->
  returns (add_datasets get_x_range get_y_range get_yres_range [(ds, color, name)]) e
    (fun _ e' =>
       x_range (self e') =
         widen (get_x_range ds (x_range_margin (self e)))
               (get_x_range (renamed name ds) (x_range_margin (self e))) /\
       y_range (self e') =
         widen (get_y_range ds (y_range_margin (self e)))
               (get_y_range (renamed name ds) (y_range_margin (self e)))).
Proof.
  intros Hx Hy Hpal Hnil. unfold add_datasets. simpl for_each.
  apply returns_bind.
  eapply returns_weaken; [|apply (add_dataset_returns ds color name e Hx Hy Hpal)].
  intros _ e' (Hx' & Hy' & _). cbv zeta in Hx', Hy'. rewrite Hnil in Hx', Hy'.
  unfold returns, ret. now split.
Qed.

(** C2 (as amended): along every sequence of [add_dataset] calls on a plot
    whose ranges are lists of two numbers covering the margin-expanded boxes
    of the datasets already attached, every call returns, and the ranges
    cover the margin-expanded box of every attached dataset; when the plot
    held a dataset to begin with, the ranges at the end contain the ranges
    at the start, so that such a call only widens; whereas the first call on
    a plot without datasets sets the ranges to the box of its dataset,
    whatever they were. *)
Theorem C2_add_dataset_widens (args : list (Dataset * option string * option string))
        (e : Env) (a b c d : Q) :
  x_range (self e) = list2 a b ->
  y_range (self e) = list2 c d ->
  color_palette (self e) <> [] ->
  covered get_x_range get_y_range (self e) (a, b) (c, d) ->
  returns (add_datasets get_x_range get_y_range get_yres_range args) e
    (fun _ e' =>
       (exists a' b' c' d',
           x_range (self e') = list2 a' b' /\ y_range (self e') = list2 c' d' /\
           datasets (self e') =
             datasets (self e) ++ map (fun arg => renamed (snd arg) (fst (fst arg))) args /\
           covered get_x_range get_y_range (self e') (a', b') (c', d') /\
           (datasets (self e) <> [] -> within (a, b) (a', b') /\ within (c, d) (c', d'))) /\
       (datasets (self e) = [] ->
        forall ds color name, args = [(ds, color, name)] ->
          x_range (self e') =
            widen (get_x_range ds (x_range_margin (self e)))
                  (get_x_range (renamed name ds) (x_range_margin (self e))) /\
          y_range (self e') =
            widen (get_y_range ds (y_range_margin (self e)))
                  (get_y_range (renamed name ds) (y_range_margin (self e))))).
Proof.
  intros Hx Hy Hpal Hcov.
  apply returns_conj; [now apply add_datasets_widen|].
  destruct (datasets (self e)) as [|d0 t] eqn:Hds.
  - destruct args as [|[[ds color] name] [|arg rest]].
    + unfold returns, add_datasets, for_each, ret. intros _ ds color name H. discriminate.
    + eapply returns_weaken;
        [|apply (first_add_dataset_starts_from_the_dataset ds color name e Hx Hy Hpal Hds)].
      intros [] e' H _ ds' color' name' Heq.
      injection Heq as <- <- <-. exact H.
    + eapply returns_weaken;
        [|apply (add_datasets_widen ((ds, color, name) :: arg :: rest) e Hx Hy Hpal Hcov)].
      intros [] e' _ _ ds' color' name' Heq. discriminate.
  - eapply returns_weaken; [|apply (add_datasets_widen args e Hx Hy Hpal Hcov)].
    intros [] e' _ H. discriminate.
Qed.

(** C7 (as amended): on a plot with at least one dataset, [add_residuals]
    returns; it recomputes the residual range, and [show_residuals] is true
    afterwards exactly when it was true before or the most recently attached
    dataset has a fit.  Nothing else of the ranges or the datasets moves. *)
Theorem C7_add_residuals_looks_at_last_dataset (e : Env) (last : Dataset) :
  last_item (datasets (self e)) = Return last ->
  returns (add_residuals get_yres_range) e
    (fun _ e' =>
       show_residuals (self e') =
         (show_residuals (self e) || Nat.ltb 0 (XYDataSet.nfits last)) /\
       yres_range (self e') =
         yres_after get_yres_range (datasets (self e)) (y_range_margin (self e))
                    (yres_range (self e)) /\
       datasets (self e') = datasets (self e) /\
       x_range (self e') = x_range (self e) /\
       y_range (self e') = y_range (self e)).
Proof.
  intros Hlast. unfold add_residuals.
  apply returns_bind. eapply returns_eq; [apply set_yres_range_from_fits_eq|]; cbv beta.
  apply returns_bind. eapply returns_eq; [reflexivity|]; cbv beta.
  cbn [self with_self datasets with_yres_range].
  rewrite Hlast.
  apply returns_bind. eapply returns_eq; [reflexivity|]; cbv beta.
  destruct (Nat.ltb 0 (XYDataSet.nfits last)).
  - eapply returns_eq; [reflexivity|].
    cbn. rewrite orb_true_r. repeat split.
  - eapply returns_eq; [reflexivity|].
    cbn. rewrite orb_false_r. repeat split.
Qed.

Lemma yres_after_no_fit (ds : list Dataset) (margin : Q) (r : option Seq) :
  (forall d, In d ds -> XYDataSet.nfits d = 0%nat) ->
  yres_after get_yres_range ds margin r = r.
Proof.
  unfold yres_after. revert r. induction ds as [|d t IH]; intros r H; simpl; auto.
  rewrite (H d) by now left. simpl. apply IH. intros d' Hd'. apply H. now right.
Qed.

End Ranges.

Section SetRange.

Variable ARRAY : list SeqType.

Lemma SeqType_eqb_eq (a b : SeqType) : SeqType_eqb a b = true <-> a = b.
Proof. destruct a, b; simpl; split; congruence. Qed.

Lemma valid_range_accepted (v : PyVal) (s : Seq) :
  valid_range ARRAY v = Some s <-> accepted ARRAY v s.
Proof.
  unfold valid_range, accepted. destruct v as [| |s'|]; try (split; [discriminate|]; intros [H _]; discriminate).
  destruct (existsb (SeqType_eqb (seq_type s')) ARRAY) eqn:E1;
    destruct (Nat.eqb (List.length (items s')) 2) eqn:E2; simpl.
  - apply existsb_exists in E1. destruct E1 as (t & Hin & Ht).
    apply SeqType_eqb_eq in Ht. subst t. apply Nat.eqb_eq in E2.
    split.
    + intros H; inversion H; subst. auto.
    + intros (H & _ & _). inversion H. reflexivity.
  - split; [discriminate|]. intros (H & _ & Hl). inversion H; subst.
    apply Nat.eqb_neq in E2. contradiction.
  - split; [discriminate|]. intros (H & Hin & _). inversion H; subst.
    assert (existsb (SeqType_eqb (seq_type s)) ARRAY = true).
    { apply existsb_exists. exists (seq_type s). split; auto. now apply SeqType_eqb_eq. }
    congruence.
  - split; [discriminate|]. intros (H & _ & Hl). inversion H; subst.
    apply Nat.eqb_neq in E2. contradiction.
Qed.

(** C9 (as amended): [set_plot_range] always returns.  An argument that is
    a sequence of one of the array types with exactly two items becomes the
    range as it is, numeric or not, and nothing is printed for it; any other
    argument leaves the range as it was, and the message is printed for it
    unless it is [None]. *)
Theorem C9_set_plot_range_checks_type_and_length (xr yr : PyVal) (e : Env) :
  returns (set_plot_range ARRAY xr yr) e
    (fun _ e' =>
       (forall s, accepted ARRAY xr s -> x_range (self e') = s) /\
       ((forall s, ~ accepted ARRAY xr s) -> x_range (self e') = x_range (self e)) /\
       (forall s, accepted ARRAY yr s -> y_range (self e') = s) /\
       ((forall s, ~ accepted ARRAY yr s) -> y_range (self e') = y_range (self e)) /\
       stdout e' = stdout e ++ report ARRAY "X" xr ++ report ARRAY "Y" yr).
Proof.
  unfold set_plot_range, report.
  destruct (valid_range ARRAY xr) as [sx|] eqn:Ex;
    destruct (valid_range ARRAY yr) as [sy|] eqn:Ey;
    destruct (is_None xr); destruct (is_None yr);
    (apply returns_bind; eapply returns_eq; [reflexivity|]; cbv beta;
     eapply returns_eq; [reflexivity|];
     cbn [self with_self x_range y_range with_x_range with_y_range stdout with_stdout];
     rewrite ?app_nil_r, <- ?app_assoc;
     repeat split; auto;
     try (intros s Hs; apply valid_range_accepted in Hs; congruence);
     try (intros Hs; exfalso;
          match goal with
          | H : valid_range ARRAY _ = Some ?s |- _ =>
              apply valid_range_accepted in H; apply (Hs s H)
          end)).
Qed.

End SetRange.

(** ** Sampling grids *)

Lemma linspace_length (a b : Q) (n : nat) : List.length (linspace a b n) = n.
Proof. unfold linspace. now rewrite length_map, length_seq. Qed.

Lemma linspace_nth (a b : Q) (n i : nat) :
  (i < n)%nat ->
  nth_error (linspace a b n) i =
    Some (a + inject_Z (Z.of_nat i) * ((b - a) / inject_Z (Z.of_nat (n - 1)))).
Proof.
  intros H. unfold linspace.
  rewrite nth_error_map, nth_error_seq.
  destruct (Nat.ltb_spec i n); [reflexivity | lia].
Qed.

(** The first sample is [a] and the last is [b]. *)
Lemma linspace_100_endpoints (a b : Q) :
  exists first last,
    nth_error (linspace a b 100) 0 = Some first /\ first == a /\
    nth_error (linspace a b 100) 99 = Some last /\ last == b.
Proof.
  eexists. eexists.
  split; [apply linspace_nth; lia|]. split.
  - simpl. field.
  - split; [apply linspace_nth; lia|]. simpl. field.
Qed.

Lemma linspace_Qeq (a b a' b' : Q) (n : nat) :
  a == a' -> b == b' -> Forall2 Qeq (linspace a b n) (linspace a' b' n).
Proof.
  intros Ha Hb. unfold linspace.
  induction (seq 0 n) as [|i t IH]; simpl; constructor; auto.
  now rewrite Ha, Hb.
Qed.

(** C4 (as amended): with [x_range = [a, b]] and margin [m], the grid of
    [add_function] has 100 samples from [a] to [b], and the grid on which
    [populate_mpl_figure] draws a user function has 100 samples from the
    smaller to the larger of [a + m] and [b - m]: the same point count, but
    endpoints moved inwards by the margin.  The two grids agree when the
    margin is zero and [a <= b]. *)
Theorem C4_grids_share_count_not_endpoints (e : Env) (a b : Q) :
  x_range (self e) = list2 a b ->
  let m := x_range_margin (self e) in
  let lo := if Qlt_bool (b - m) (a + m) then b - m else a + m in
  let hi := if Qlt_bool (a + m) (b - m) then b - m else a + m in
  add_function_xvals e = (Return (linspace a b 100), e) /\
  function_xdata e = (Return [a + m; b - m], e) /\
  plot_function_xvals [a + m; b - m] 100 = Return (linspace lo hi 100) /\
  List.length (linspace a b 100) = List.length (linspace lo hi 100) /\
  (m == 0 -> a <= b -> Forall2 Qeq (linspace a b 100) (linspace lo hi 100)).
Proof.
  intros Hx m lo hi.
  split; [|split; [|split; [|split]]].
  - unfold add_function_xvals, bind, get_self, lift. rewrite Hx. reflexivity.
  - unfold function_xdata, bind, get_self, lift. rewrite Hx. reflexivity.
  - reflexivity.
  - now rewrite !linspace_length.
  - intros Hm Hab.
    assert (Hlo : a == lo).
    { unfold lo. destruct (Qlt_bool (b - m) (a + m)) eqn:E.
      - apply Qlt_bool_iff in E. lra.
      - lra. }
    assert (Hhi : b == hi).
    { unfold hi. destruct (Qlt_bool (a + m) (b - m)) eqn:E.
      - lra.
      - apply Qlt_bool_false_iff in E. lra. }
    now apply linspace_Qeq.
Qed.

(** ** The propagation-mode flag *)

Lemma with_minmax_n_same (e : Env) : with_minmax_n (minmax_n e) e = e.
Proof. now destruct e. Qed.

Lemma triple_bind {A B : Type} (P R Q : Z -> Prop) (m : M A) (k : A -> M B) :
  flag_triple P m R -> (forall a, flag_triple R (k a) Q) -> flag_triple P (bind m k) Q.
Proof.
  intros Hm Hk e b e' HP H.
  destruct (bind_inv H) as (a & e1 & H1 & H2).
  eapply Hk; eauto.
Qed.

Lemma triple_keep {A : Type} (P : Z -> Prop) (m : M A) : keeps_flag m -> flag_triple P m P.
Proof.
  intros H e a e' HP Heq.
  specialize (H (minmax_n e) e eq_refl). rewrite Heq in H. simpl in H. now rewrite H.
Qed.

Lemma triple_get {B : Type} (P Q : Z -> Prop) (k : Z -> M B) :
  (forall r, P r -> flag_triple (fun z => z = r) (k r) Q) ->
  flag_triple P (bind get_minmax_n k) Q.
Proof.
  intros Hk e b e' HP H. unfold bind, get_minmax_n in H.
  eapply Hk; eauto.
Qed.

Lemma triple_put (P : Z -> Prop) (n : Z) : flag_triple P (put_minmax_n n) (fun z => z = n).
Proof. intros e a e' _ H. inversion H. reflexivity. Qed.

Lemma triple_run_callable {A : Type} (P : Z -> Prop) (f : Z -> Result A * Z) :
  flag_triple P (run_callable f) (fun _ => True).
Proof. now intros e a e' _ _. Qed.

Lemma triple_ret {A : Type} (P : Z -> Prop) (a : A) : flag_triple P (ret a) P.
Proof. intros e a' e' HP H. inversion H. now subst. Qed.

Lemma triple_conseq {A : Type} (P P' Q Q' : Z -> Prop) (m : M A) :
  (forall z, P' z -> P z) -> (forall z, Q z -> Q' z) ->
  flag_triple P m Q -> flag_triple P' m Q'.
Proof. intros H1 H2 H e a e' HP Heq. apply H2. eapply H; eauto. Qed.

(** Methods built from reads, updates of [self], printing and backend calls
    never touch the flag. *)

Lemma set_x_range_item_keeps (i : nat) (v : Scalar) : keeps_flag (set_x_range_item i v).
Proof. unfold set_x_range_item. keep. Qed.

Lemma set_y_range_item_keeps (i : nat) (v : Scalar) : keeps_flag (set_y_range_item i v).
Proof. unfold set_y_range_item. keep. Qed.

Lemma get_color_keeps : keeps_flag _get_color_from_palette.
Proof. unfold _get_color_from_palette. keep. Qed.

Lemma add_function_xvals_keeps : keeps_flag add_function_xvals.
Proof. unfold add_function_xvals. keep. Qed.

Lemma plt_axis_of_keeps (xr yr : Seq) : keeps_flag (plt_axis_of xr yr).
Proof. unfold plt_axis_of. keep. Qed.

Lemma initialize_mpl_figure_keeps (refresh : bool) : keeps_flag (initialize_mpl_figure refresh).
Proof.
  unfold initialize_mpl_figure. keep; apply plt_axis_of_keeps.
Qed.

Lemma ensure_mpl_figure_keeps : keeps_flag ensure_mpl_figure.
Proof. unfold ensure_mpl_figure. keep. apply initialize_mpl_figure_keeps. Qed.

Lemma select_main_subplot_keeps : keeps_flag select_main_subplot.
Proof. unfold select_main_subplot. keep. Qed.

(** The evaluation with an uncertain parameter vector: the callable runs
    under flag 1 and, when it returns, the environment is back to what it
    was, whatever the flag was and whatever the callable left in it. *)
Lemma add_function_eval_uncertain (f : Callable) (ms fmes : list Measurement)
      (xvals : list Q) (n' : Z) (e : Env) :
  call_uncertain f 1 xvals ms = (Return fmes, n') ->
  add_function_eval f (PyMeasurement_Array ms) xvals e = (Return (Some (get_means fmes)), e).
Proof.
  intros H. unfold add_function_eval, bind, get_minmax_n, put_minmax_n, run_callable, ret.
  cbn [minmax_n with_minmax_n]. rewrite H.
  cbn [minmax_n with_minmax_n].
  f_equal. now destruct e.
Qed.

Lemma mpl_plot_function_eval_uncertain (f : Callable) (ms fmes : list Measurement)
      (xvals : list Q) (n' : Z) (e : Env) :
  call_uncertain f 1 xvals ms = (Return fmes, n') ->
  mpl_plot_function_eval f (PyMeasurement_Array ms) xvals e =
    (Return (Uncertain (get_means fmes) (get_stds fmes)), e).
Proof.
  intros H. unfold mpl_plot_function_eval, bind, get_minmax_n, put_minmax_n, run_callable, ret.
  cbn [minmax_n with_minmax_n]. rewrite H.
  cbn [minmax_n with_minmax_n].
  f_equal. now destruct e.
Qed.

(** A block that saves the flag, sets it to 1 and puts the saved value back
    once its evaluation has returned. *)
Ltac restore_flag :=
  apply triple_get; intros ? ?; subst;
  eapply triple_bind; [apply triple_put|]; intros _.

Lemma add_function_eval_restores (f : Callable) (ms : list Measurement) (xvals : list Q)
      (n : Z) :
  flag_triple (fun z => z = n) (add_function_eval f (PyMeasurement_Array ms) xvals)
              (fun z => z = n).
Proof.
  unfold add_function_eval. restore_flag.
  eapply triple_bind; [apply triple_run_callable|]. intros fmes.
  eapply triple_bind; [apply triple_put|]. intros _.
  apply triple_ret.
Qed.

Lemma mpl_plot_function_eval_restores (f : Callable) (ms : list Measurement)
      (xvals : list Q) (n : Z) :
  flag_triple (fun z => z = n) (mpl_plot_function_eval f (PyMeasurement_Array ms) xvals)
              (fun z => z = n).
Proof.
  unfold mpl_plot_function_eval. restore_flag.
  eapply triple_bind; [apply triple_run_callable|]. intros fmes.
  eapply triple_bind; [apply triple_put|]. intros _.
  apply triple_ret.
Qed.

Lemma add_function_restores (f : Callable) (ms : list Measurement)
      (name color : option string) (n : Z) :
  flag_triple (fun z => z = n) (add_function f (PyMeasurement_Array ms) name color)
              (fun z => z = n).
Proof.
  unfold add_function.
  eapply triple_bind; [apply triple_keep, add_function_xvals_keeps|]. intros xvals.
  eapply triple_bind; [apply add_function_eval_restores|]. intros r.
  apply triple_keep.
  keep; first [apply set_y_range_item_keeps | apply get_color_keeps].
Qed.

Lemma mpl_plot_function_restores (f : Callable) (xdata : list Q) (ms : list Measurement)
      (k : nat) (legend_name : option string) (color : string) (errorbandfactor : Q)
      (n : Z) :
  flag_triple (fun z => z = n)
              (mpl_plot_function f xdata (PyMeasurement_Array ms) k legend_name color
                                 errorbandfactor)
              (fun z => z = n).
Proof.
  unfold mpl_plot_function.
  eapply triple_bind; [apply triple_keep, ensure_mpl_figure_keeps|]. intros _.
  eapply triple_bind; [apply triple_keep, select_main_subplot_keeps|]. intros _.
  eapply triple_bind; [apply triple_keep; keep|]. intros xvals.
  eapply triple_bind; [apply mpl_plot_function_eval_restores|]. intros ev.
  apply triple_keep. keep.
Qed.

Section Updates.

Variable Measurement_str : Measurement -> string.
Variable propagate_line : Z -> Measurement -> Measurement -> Q -> list Q -> list Measurement.

Lemma interactive_linear_fit_update_restores (dataset : Dataset) (color : string)
      (offset offset_err slope slope_err correlation : Q) (n : Z) :
  flag_triple (fun z => z = n)
    (interactive_linear_fit_update Measurement_str propagate_line dataset color
       offset offset_err slope slope_err correlation)
    (fun z => z = n).
Proof.
  unfold interactive_linear_fit_update.
  eapply triple_bind; [apply triple_keep; keep|]. intros p.
  eapply triple_bind; [apply triple_keep; keep|]. intros _.
  eapply triple_bind; [apply triple_keep; keep|]. intros [x0 x1].
  restore_flag.
  apply triple_get; intros k Hk.
  eapply triple_bind; [apply triple_put|]. intros _.
  apply triple_keep. keep. apply plt_axis_of_keeps.
Qed.

Lemma bk_interact_linear_fit_update_restores
      (offset offset_err slope slope_err correlation : Q) (n : Z) :
  flag_triple (fun z => z = n)
    (bk_interact_linear_fit_update propagate_line
       offset offset_err slope slope_err correlation)
    (fun z => z = n).
Proof.
  unfold bk_interact_linear_fit_update.
  restore_flag.
  eapply triple_bind with (R := fun z => z = 1%Z); [apply triple_keep; keep|]. intros p.
  eapply triple_bind with (R := fun z => z = 1%Z); [apply triple_keep; keep|].
  intros line.
  apply triple_get; intros k Hk.
  eapply triple_bind; [apply triple_put|]. intros _.
  apply triple_keep. keep.
Qed.


Lemma drawn_curves_app (l1 l2 : list PltCall) :
drawn_curves (l1 ++ l2) = drawn_curves l1 ++ drawn_curves l2.
Proof. unfold drawn_curves. apply flat_map_app. Qed.

(** The curve that the callback of [interactive_linear_fit] draws is the
    propagation computed under flag 1. *)
Lemma interactive_linear_fit_update_curve (dataset : Dataset) (color : string)
      (offset offset_err slope slope_err correlation : Q) (e e' : Env) :
  interactive_linear_fit_update Measurement_str propagate_line dataset color
    offset offset_err slope slope_err correlation e = (Return tt, e') ->
  exists x0 x1,
    endpoints (x_range (self e)) = Return (x0, x1) /\
    drawn_curves (pyplot e') =
      drawn_curves (pyplot e) ++
      [(linspace x0 x1 20,
        get_means (propagate_line 1%Z (mkMeasurement offset offset_err (Some "offset"))
                                  (mkMeasurement slope slope_err (Some "slope"))
                                  correlation (linspace x0 x1 20)))].
Proof.
  intros H. unfold interactive_linear_fit_update in H.
  unfold plt_axis_of, bind, get_self, plt, lift, get_minmax_n, put_minmax_n, ret in H.
  cbn [self with_self pyplot with_pyplot minmax_n with_minmax_n fst snd] in H.
  destruct (endpoints (x_range (self e))) as [[x0 x1]|]; [|discriminate].
  exists x0, x1. split; [reflexivity|].
  cbn [self with_self pyplot with_pyplot minmax_n with_minmax_n fst snd] in H.
  repeat match type of H with
         | context [match ?r with Return _ => _ | Raise _ => _ end] =>
             destruct r; [|discriminate]
         end.
  inversion H. subst e'. clear H.
  cbn [pyplot with_pyplot].
  rewrite !drawn_curves_app. cbn [drawn_curves flat_map app]. now rewrite !app_nil_r.
Qed.

(** The line that the callback of [bk_interact_linear_fit] leaves in
    [self.linear_fit_line] is the propagation computed under flag 1. *)
Lemma bk_interact_linear_fit_update_line
      (offset offset_err slope slope_err correlation : Q) (e e' : Env) :
  bk_interact_linear_fit_update propagate_line
    offset offset_err slope slope_err correlation e = (Return tt, e') ->
  exists line,
    linear_fit_line (self e) = Some line /\
    linear_fit_line (self e') =
      Some (mkLine (line_x line)
              (get_means (propagate_line 1%Z (mkMeasurement offset offset_err None)
                                        (mkMeasurement slope slope_err None)
                                        correlation (line_x line)))).
Proof.
  intros H. unfold bk_interact_linear_fit_update in H.
  unfold bind, get_self, bokeh, lift, get_minmax_n, put_minmax_n, modify_self, ret in H.
  cbn [self with_self minmax_n with_minmax_n fst snd] in H.
  destruct (linear_fit_line (self e)) as [line|]; [|discriminate].
  exists line. split; [reflexivity|].
  cbn [attr ret self with_self minmax_n with_minmax_n fst snd
       linear_fit_patches with_linear_fit_line] in H.
  destruct (linear_fit_patches (self e)) as [[pt|]|]; try discriminate.
  cbn in H. inversion H. subst e'. reflexivity.
Qed.

End Updates.

(** ** The bokeh figure and the space for the fit results *)

Lemma inv_at {A : Type} (I : Env -> Prop) (m : M A) (e e' : Env) (a : A) :
  inv I m -> I e -> m e = (Return a, e') -> I e'.
Proof. intros H HI Heq. specialize (H e HI). now rewrite Heq in H. Qed.

Lemma lift_inv {A : Type} (r : Result A) (e e' : Env) (a : A) :
  lift r e = (Return a, e') -> r = Return a /\ e' = e.
Proof. unfold lift. intros H. inversion H. auto. Qed.

Lemma setitem_inv (r r' : Seq) (i : nat) (v : Scalar) :
  setitem r i v = Return r' ->
  (i < List.length (items r))%nat /\ r' = mkSeq (seq_type r) (replace_nth (items r) i v).
Proof.
  unfold setitem. intros H.
  destruct (Nat.ltb_spec i (List.length (items r))) as [Hlt|Hge].
  - destruct (seq_type r); try discriminate; inversion H; auto.
  - destruct (seq_type r); discriminate.
Qed.

Lemma set_y_range_item_inv (i : nat) (v : Scalar) (e e' : Env) :
  set_y_range_item i v e = (Return tt, e') ->
  (i < List.length (items (y_range (self e))))%nat /\
  e' = with_self (with_y_range (mkSeq (seq_type (y_range (self e)))
                                      (replace_nth (items (y_range (self e))) i v))
                               (self e)) e.
Proof.
  unfold set_y_range_item, bind, get_self, lift, modify_self.
  destruct (setitem (y_range (self e)) i v) as [r'|x] eqn:E; [|discriminate].
  apply setitem_inv in E. destruct E as [Hlt ->]. intros H. inversion H. auto.
Qed.




Section Bokeh.

Variable Measurement_str : Measurement -> string.
Variable qpu_bk_plot_function :
  Z -> Callable -> list Q -> PyVal -> nat -> Q -> Result (Line * option Patches).

Lemma ensure_bk_figure_keeps (v w : Seq) : inv (bk_state v w) ensure_bk_figure.
Proof.
  intros e [H1 H2]. unfold ensure_bk_figure, bind, get_self.
  destruct (bkfigure (self e)) eqn:E; simpl.
  - split; [exact H1 | now rewrite E].
  - discriminate.
Qed.

Lemma bkfigure_add_keeps (v w : Seq) (i : BkItem) : inv (bk_state v w) (bkfigure_add i).
Proof.
  intros e [H1 H2]. unfold bkfigure_add, bind, get_self.
  destruct (bkfigure (self e)) as [[f|m r]|] eqn:E; simpl;
    (split; [exact H1 | first [exact H2 | now rewrite E]]).
Qed.

Lemma bkres_add_keeps (v w : Seq) (i : BkItem) : inv (bk_state v w) (bkres_add i).
Proof.
  intros e [H1 H2]. unfold bkres_add, bind, get_self.
  destruct (bkres (self e)) eqn:E; simpl; (split; [exact H1 | exact H2]).
Qed.

Lemma set_legend_keeps (v w : Seq) (loc : string) (o : option string) :
  inv (bk_state v w) (set_legend loc o).
Proof.
  intros e [H1 H2]. unfold set_legend, bind, get_self.
  destruct (bkfigure (self e)) as [[f|m r]|] eqn:E; simpl;
    (split; [exact H1 | first [exact H2 | now rewrite E]]).
Qed.

Lemma initialize_residual_figure_keeps (v w : Seq) :
  inv (bk_state v w) (initialize_bokeh_figure true).
Proof.
  intros e [H1 H2]. unfold initialize_bokeh_figure, bind, get_self. simpl.
  destruct (yres_range (self e)); simpl; [|now split].
  destruct (bkfigure (self e)) as [[f|m r]|] eqn:E; simpl.
  all: split; [exact H1 |].
  all: cbn [bkfigure self with_self with_bkres]; rewrite E; exact H2.
Qed.

Lemma function_xdata_keeps (v w : Seq) : inv (bk_state v w) function_xdata.
Proof. unfold function_xdata. keep. Qed.

Lemma bk_plot_function_keeps (v w : Seq) (f : Callable) (xdata : list Q) (pars : PyVal)
      (n : nat) (legend_name : option string) (color : string) (c : Q) :
  inv (bk_state v w)
      (bk_plot_function qpu_bk_plot_function f xdata pars n legend_name color c).
Proof.
  unfold bk_plot_function.
  keep; first [apply ensure_bk_figure_keeps | apply bkfigure_add_keeps].
Qed.

Lemma bk_plot_dataset_keeps (v w : Seq) (d : Dataset) (residual : bool) (color : string)
      (show_fit_function : bool) :
  inv (bk_state v w)
      (bk_plot_dataset qpu_bk_plot_function d residual color show_fit_function).
Proof.
  unfold bk_plot_dataset.
  keep;
    first [apply ensure_bk_figure_keeps | apply bkfigure_add_keeps | apply bkres_add_keeps
          | apply initialize_residual_figure_keeps | apply bk_plot_function_keeps].
Qed.

Lemma bk_plot_fit_results_text_box_keeps (v w : Seq) (d : Dataset) (yoffset : Q) :
  inv (bk_state v w) (bk_plot_fit_results_text_box Measurement_str d yoffset).
Proof.
  unfold bk_plot_fit_results_text_box.
  keep; first [apply ensure_bk_figure_keeps | apply bkfigure_add_keeps].
Qed.

Lemma initialize_main_figure_inv (e e1 : Env) (f : BkFigure) :
  initialize_bokeh_figure false e = (Return f, e1) ->
  bk_y_range f = y_range (self e) /\
  y_range (self e1) = y_range (self e) /\
  bkfigure (self e1) = Some (BkFig f).
Proof.
  unfold initialize_bokeh_figure, bind, get_self, modify_self, ret. simpl.
  intros H. inversion H. subst. auto.
Qed.

(** The end of [populate_bokeh_figure]: the optional grid around the two
    figures, and the value returned. *)
Lemma populate_bokeh_figure_end (v w : Seq) (e e' : Env) (fig : BkObj) :
  bk_state v w e ->
  (p <- get_self ;;
   when (show_residuals p)
        (fig <- attr (bkfigure p) ;;
         res <- attr (bkres p) ;;
         match fig with
         | BkFig f => modify_self (with_bkfigure (Some (BkGrid f res)))
         | BkGrid _ _ => raise AttributeError
         end) ;;
   p <- get_self ;;
   attr (bkfigure p)) e = (Return fig, e') ->
  y_range (self e') = v /\ main_y_range (Some fig) = Some w.
Proof.
  intros [H1 H2]. unfold bind, get_self, when.
  destruct (show_residuals (self e)).
  - destruct (bkfigure (self e)) as [[f|m r]|] eqn:E; simpl; try discriminate.
    + destruct (bkres (self e)) as [res|]; simpl; try discriminate.
      intros H. inversion H. subst. auto.
    + destruct (bkres (self e)) as [res|]; simpl; discriminate.
  - simpl. destruct (bkfigure (self e)) as [o|] eqn:E; simpl; try discriminate.
    intros H. inversion H. subst. auto.
Qed.


End Bokeh.

(** ** The linear-fit entry points *)


Lemma run_callable_inv {A : Type} (f : Z -> Result A * Z) (e e' : Env) (a : A) :
  run_callable f e = (Return a, e') ->
  exists n, f (minmax_n e) = (Return a, n) /\ e' = with_minmax_n n e.
Proof.
  unfold run_callable. destruct (f (minmax_n e)) as [r n] eqn:E.
  intros H. inversion H. subst. now exists n.
Qed.

(** The bokeh methods only write the figure handles. *)
Ltac keep_ranges :=
  repeat first
    [ progress intros
    | inv_step
    | inv_leaf
    | match goal with
      | |- inv _ (initialize_bokeh_figure _) => unfold initialize_bokeh_figure
      | |- inv _ ensure_bk_figure => unfold ensure_bk_figure
      | |- inv _ (bkfigure_add _) => unfold bkfigure_add
      | |- inv _ (bkres_add _) => unfold bkres_add
      | |- inv _ (bk_plot_function _ _ _ _ _ _ _ _) => unfold bk_plot_function
      | |- inv _ (bk_plot_dataset _ _ _ _ _) => unfold bk_plot_dataset
      | |- inv _ function_xdata => unfold function_xdata
      | |- inv _ (set_legend _ _) => unfold set_legend
      end ].

Section LinearFit.

Variable clear_fits : Dataset -> Dataset.
Variable fit : Dataset -> string -> Result Dataset.
Variable Measurement_str : Measurement -> string.
Variable qpu_bk_plot_function :
  Z -> Callable -> list Q -> PyVal -> nat -> Q -> Result (Line * option Patches).




Lemma set_bokeh_output_keeps (xr yr : Seq) (output : string) :
  inv (ranges_are xr yr) (set_bokeh_output output).
Proof.
  intros e H. unfold set_bokeh_output.
  destruct (String.eqb output "file" || negb (in_notebook e)); [exact H|].
  destruct (negb (bokeh_ouput_notebook_called e)); exact H.
Qed.

Lemma set_mpl_output_keeps (xr yr : Seq) (output : string) :
  inv (ranges_are xr yr) (set_mpl_output output).
Proof.
  intros e H. unfold set_mpl_output.
  destruct (String.eqb output "file" || negb (in_notebook e)); [exact H|].
  destruct (negb (mpl_ouput_notebook_called e)); exact H.
Qed.

(** [show] on a figure that is already populated. *)
Lemma show_populated_keeps (xr yr : Seq) (output : string) (refresh : bool) :
  inv (ranges_are xr yr)
      (show Measurement_str qpu_bk_plot_function output false refresh).
Proof.
  intros e H. unfold show. destruct (plot_engine e).
  - revert e H. change (inv (ranges_are xr yr)
      (set_bokeh_output output ;;
       p <- get_self ;; fig <- attr (bkfigure p) ;; bokeh (bp_show fig))).
    keep_ranges. apply set_bokeh_output_keeps.
  - revert e H. change (inv (ranges_are xr yr)
      (set_mpl_output "inline" ;; ret tt ;; plt plt_show)).
    keep_ranges. apply set_mpl_output_keeps.
  - exact H.
Qed.



End LinearFit.

(** C6: at each of the four places where a function is evaluated with an
    uncertain parameter vector, whatever the flag was before, a call that
    returns leaves [qe.Measurement.minmax_n] at its value from before the
    call; and the evaluation itself runs under flag 1: the callable of
    [add_function] and [mpl_plot_function] is called with flag 1 and the whole
    environment is back afterwards, and what the two callbacks draw is the
    propagation computed under flag 1. *)
Theorem C6_minmax_n_restored_after_evaluation (f : Callable) (ms : list Measurement) :
  (forall name color e e',
      add_function f (PyMeasurement_Array ms) name color e = (Return tt, e') ->
      minmax_n e' = minmax_n e) /\
  (forall xvals fmes n' e,
      call_uncertain f 1 xvals ms = (Return fmes, n') ->
      add_function_eval f (PyMeasurement_Array ms) xvals e
        = (Return (Some (get_means fmes)), e)) /\
  (forall xdata n legend_name color errorbandfactor e e',
      mpl_plot_function f xdata (PyMeasurement_Array ms) n legend_name color errorbandfactor e
        = (Return tt, e') ->
      minmax_n e' = minmax_n e) /\
  (forall xvals fmes n' e,
      call_uncertain f 1 xvals ms = (Return fmes, n') ->
      mpl_plot_function_eval f (PyMeasurement_Array ms) xvals e
        = (Return (Uncertain (get_means fmes) (get_stds fmes)), e)) /\
  (forall Measurement_str propagate_line dataset color
          offset offset_err slope slope_err correlation e e',
      interactive_linear_fit_update Measurement_str propagate_line dataset color
        offset offset_err slope slope_err correlation e = (Return tt, e') ->
      minmax_n e' = minmax_n e /\
      exists x0 x1,
        endpoints (x_range (self e)) = Return (x0, x1) /\
        drawn_curves (pyplot e') =
          drawn_curves (pyplot e) ++
          [(linspace x0 x1 20,
            get_means (propagate_line 1%Z (mkMeasurement offset offset_err (Some "offset"))
                                      (mkMeasurement slope slope_err (Some "slope"))
                                      correlation (linspace x0 x1 20)))]) /\
  (forall propagate_line offset offset_err slope slope_err correlation e e',
      bk_interact_linear_fit_update propagate_line
        offset offset_err slope slope_err correlation e = (Return tt, e') ->
      minmax_n e' = minmax_n e /\
      exists line,
        linear_fit_line (self e) = Some line /\
        linear_fit_line (self e') =
          Some (mkLine (line_x line)
                  (get_means (propagate_line 1%Z (mkMeasurement offset offset_err None)
                                            (mkMeasurement slope slope_err None)
                                            correlation (line_x line))))).
Proof.
  split; [|split; [|split; [|split; [|split]]]].
  - intros name color e e' H.
    exact (@add_function_restores f ms name color (minmax_n e) e tt e' eq_refl H).
  - intros xvals fmes n' e H. eapply add_function_eval_uncertain; eauto.
  - intros xdata n legend_name color c e e' H.
    exact (@mpl_plot_function_restores f xdata ms n legend_name color c (minmax_n e)
             e tt e' eq_refl H).
  - intros xvals fmes n' e H. eapply mpl_plot_function_eval_uncertain; eauto.
  - intros Measurement_str propagate_line dataset color o oe s se corr e e' H. split.
    + exact (@interactive_linear_fit_update_restores Measurement_str propagate_line dataset
               color o oe s se corr (minmax_n e) e tt e' eq_refl H).
    + eapply interactive_linear_fit_update_curve; eauto.
  - intros propagate_line o oe s se corr e e' H. split.
    + exact (@bk_interact_linear_fit_update_restores propagate_line o oe s se corr
               (minmax_n e) e tt e' eq_refl H).
    + eapply bk_interact_linear_fit_update_line; eauto.
Qed.

(** ** The code on concrete scenes *)

Lemma run_returned {A : Type} (m : M A) (e : Env) :
  returned (m e) = true -> exists a e', m e = (Return a, e').
Proof.
  unfold returned. destruct (m e) as [[a|x] e']; simpl; [|discriminate].
  intros _. now exists a, e'.
Qed.

(** The standard deviations of a [Measurement_Array] are as many as its
    means. *)
Lemma get_stds_length (fmes : list Measurement) :
  List.length (get_stds fmes) = List.length (get_means fmes).
Proof. unfold get_stds, get_means. now rewrite !length_map. Qed.

(** C1, on the code: with [errorbandfactor = 2], means 3 and standard
    deviations 1/2, the band that [mpl_plot_function] fills is
    [3 - 1/2, 3 + 1/2] at each of the five samples, not [3 - 1, 3 + 1]; and
    for no input does the result depend on [errorbandfactor]. *)
Theorem C1_mpl_band_ignores_errorbandfactor :
  (let r := mpl_plot_function Sample.flat [0; 10] (PyMeasurement_Array Sample.two_pars) 5
                              None "black" 2 (Sample.new_plot None) in
   fst r = Return tt /\
   drawn_bands (pyplot (snd r)) =
     [(linspace 0 10 5, repeat (3 - (1 # 2)) 5, repeat (3 + (1 # 2)) 5)] /\
   ~ 3 - (1 # 2) == 3 - 2 * (1 # 2)) /\
  (forall f xdata pars n legend_name color c c',
      mpl_plot_function f xdata pars n legend_name color c =
      mpl_plot_function f xdata pars n legend_name color c').
Proof.
  split.
  - cbv zeta. split; [vm_compute; reflexivity|]. split; [vm_compute; reflexivity|].
    intros H. vm_compute in H. discriminate.
  - reflexivity.
Qed.

(** With parameters of no recognized format the branch on [pars] prints and
    leaves [fvals] unassigned. *)
Lemma mpl_plot_function_eval_unrecognized (f : Callable) (pars : PyVal) (xvals : list Q)
      (e : Env) :
  match pars with
  | PyScalar _ => True
  | PySeq s => seq_type s = TTuple
  | _ => False
  end ->
  mpl_plot_function_eval f pars xvals e =
    (Return Unbound,
     with_stdout (stdout e ++ ["Error: unrecognized parameters for function"]) e).
Proof.
  destruct pars as [|s|s|ms]; try contradiction; intros H.
  - reflexivity.
  - unfold mpl_plot_function_eval, is_list_or_ndarray. rewrite H. reflexivity.
Qed.

Lemma mpl_plot_function_unrecognized (f : Callable) (xdata : list Q) (pars : PyVal)
      (n : nat) (legend_name : option string) (color : string) (c : Q) (e : Env) :
  match pars with
  | PyScalar _ => True
  | PySeq s => seq_type s = TTuple
  | _ => False
  end ->
  exists x, fst (mpl_plot_function f xdata pars n legend_name color c e) = Raise x.
Proof.
  intros H. unfold mpl_plot_function, bind.
  destruct (ensure_mpl_figure e) as [[[]|x] e1]; [|now exists x].
  destruct (select_main_subplot e1) as [[[]|x] e2]; [|now exists x].
  destruct (lift (plot_function_xvals xdata n) e2) as [[xvals|x] e3]; [|now exists x].
  rewrite (mpl_plot_function_eval_unrecognized f pars xvals e3 H).
  now exists UnboundLocalError.
Qed.

(** C5, on the code: with a tuple as [pars], [mpl_plot_function] prints its
    message, draws no curve and then raises [UnboundLocalError], whereas
    [add_function] prints its message and returns without storing the
    function; and with a scalar or a tuple as [pars], [mpl_plot_function]
    never returns normally. *)
Theorem C5_mpl_plot_function_raises_on_unrecognized_pars :
  (let r := mpl_plot_function Sample.linear [0; 1] Sample.a_tuple 100 None "black" 1
                              (Sample.new_plot None) in
   fst r = Raise UnboundLocalError /\
   stdout (snd r) = ["Error: unrecognized parameters for function"] /\
   drawn_curves (pyplot (snd r)) = []) /\
  (let r := add_function Sample.linear Sample.a_tuple None None (Sample.new_plot None) in
   fst r = Return tt /\
   stdout (snd r) = ["Error: Not a recognized format for parameter"] /\
   user_functions_names (self (snd r)) = [] /\
   y_range (self (snd r)) = list2 0 1) /\
  (forall f xdata (s : Scalar) n legend_name color c e,
      exists x, fst (mpl_plot_function f xdata (PyScalar s) n legend_name color c e)
                = Raise x) /\
  (forall f xdata (items : list Scalar) n legend_name color c e,
      exists x, fst (mpl_plot_function f xdata (PySeq (mkSeq TTuple items)) n legend_name
                                       color c e) = Raise x).
Proof.
  split; [|split; [|split]].
  - cbv zeta. repeat split; vm_compute; reflexivity.
  - cbv zeta. repeat split; vm_compute; reflexivity.
  - intros. now apply mpl_plot_function_unrecognized.
  - intros. now apply mpl_plot_function_unrecognized.
Qed.

(** C2, the claim as stated fails: the first [add_dataset] on [Plot()]
    replaces the default range [0, 1] by [4.5, 6.5], which does not contain
    it. *)
Lemma C2_first_attach_replaces_default_range :
  let e := Sample.new_plot None in
  let r := add_dataset Sample.get_x_range Sample.get_y_range Sample.get_yres_range
                       Sample.far_points None None e in
  fst r = Return tt /\
  x_range (self e) = list2 0 1 /\
  x_range (self (snd r)) = list2 (9 # 2) (13 # 2) /\
  ~ within (0, 1) (9 # 2, 13 # 2).
Proof.
  cbv zeta. split; [vm_compute; reflexivity|]. split; [vm_compute; reflexivity|].
  split; [vm_compute; reflexivity|].
  unfold within. cbn [fst snd]. intros [H _]. vm_compute in H. now apply H.
Qed.

(** C4, the claim as stated fails: on [Plot()] the grid of [add_function]
    starts at 0 and the grid of the drawn curve at 1/2; a function with a
    spike at 1/2 is zero on the first grid, so that [y_range] stays
    [-1/2, 1], and 100 at every drawn sample. *)
Lemma C4_drawn_curve_leaves_the_add_time_range :
  let e0 := Sample.new_plot None in
  let e1 := snd (add_function Sample.spike PyNone None None e0) in
  let r := populate_mpl_figure Sample.Measurement_str true e1 in
  fst (add_function_xvals e0) = Return (linspace 0 1 100) /\
  y_range (self e1) = list2 (- (1 # 2)) 1 /\
  fst r = Return tt /\
  drawn_curves (pyplot (snd r)) = [(linspace (1 # 2) (1 # 2) 100, repeat 100 100)] /\
  nth_error (linspace 0 1 100) 0 = Some (0 # 99) /\
  nth_error (linspace (1 # 2) (1 # 2) 100) 0 = Some (396 # 792) /\
  ~ 0 # 99 == 396 # 792.
Proof.
  cbv zeta. repeat (split; [vm_compute; reflexivity|]).
  intros H. vm_compute in H. discriminate.
Qed.

(** C7, the claim as stated fails: with a fitted dataset attached first and
    an unfitted one after it, [add_residuals] returns and [show_residuals]
    stays false. *)
Lemma C7_fit_on_earlier_dataset_is_ignored :
  let e := Sample.fitted_then_unfitted in
  let r := add_residuals Sample.get_yres_range e in
  map XYDataSet.nfits (datasets (self e)) = [1; 0]%nat /\
  show_residuals (self e) = false /\
  fst r = Return tt /\
  show_residuals (self (snd r)) = false.
Proof.
  cbv zeta. repeat split; vm_compute; reflexivity.
Qed.

(** On a plot without datasets [self.datasets[-1]] raises. *)
Lemma add_residuals_on_empty_plot_raises :
  fst (add_residuals Sample.get_yres_range (Sample.new_plot None)) = Raise IndexError.
Proof. vm_compute. reflexivity. Qed.

(** C9, the claim as stated fails: a list of two strings is stored as the
    x range and nothing is printed. *)
Lemma C9_two_strings_are_accepted :
  let r := set_plot_range Sample.ARRAY (PySeq Sample.two_strings) PyNone
                          (Sample.new_plot None) in
  fst r = Return tt /\
  x_range (self (snd r)) = Sample.two_strings /\
  stdout (snd r) = [].
Proof.
  cbv zeta. repeat split; vm_compute; reflexivity.
Qed.

(** ** The general statements on concrete scenes *)

Lemma C2_witness :
  returns (add_datasets Sample.get_x_range Sample.get_y_range Sample.get_yres_range
             [(Sample.far_points, None, None); (Sample.five_points, None, Some "renamed")])
          (Sample.new_plot None)
          (fun _ e' =>
             exists a' b' c' d',
               x_range (self e') = list2 a' b' /\ y_range (self e') = list2 c' d' /\
               covered Sample.get_x_range Sample.get_y_range (self e') (a', b') (c', d')).
Proof.
  eapply returns_weaken;
    [|apply (@C2_add_dataset_widens Sample.get_x_range Sample.get_y_range
               Sample.get_yres_range
               [(Sample.far_points, None, None); (Sample.five_points, None, Some "renamed")]
               (Sample.new_plot None) 0 1 0 1)].
  - intros _ e' ((a' & b' & c' & d' & Hx & Hy & _ & Hcov & _) & _).
    exists a', b', c', d'. auto.
  - reflexivity.
  - reflexivity.
  - intros H. vm_compute in H. discriminate.
  - intros ds H. vm_compute in H. destruct H.
Defined.

Lemma C3_witness :
  exists cs e' c,
    calls 18 _get_color_from_palette (Sample.new_plot None) = (Return cs, e') /\
    nth_error cs 17 = Some c /\
    nth_error (Sample.Set1_9 ++ Sample.Set2_8) 0 = Some c.
Proof.
  refine (proj1 (@C3_color_cursor_wraps (Sample.new_plot None) _ _)).
  - intros H. vm_compute in H. discriminate.
  - reflexivity.
Defined.

Lemma C4_witness :
  add_function_xvals (Sample.new_plot None)
    = (Return (linspace 0 1 100), Sample.new_plot None) /\
  function_xdata (Sample.new_plot None)
    = (Return [0 + (1 # 2); 1 - (1 # 2)], Sample.new_plot None).
Proof.
  destruct (@C4_grids_share_count_not_endpoints (Sample.new_plot None) 0 1 eq_refl)
    as (H1 & H2 & _).
  split; [exact H1 | exact H2].
Defined.

Lemma C6_witness :
  exists e',
    add_function Sample.flat (PyMeasurement_Array Sample.two_pars) None None
                 (Sample.new_plot None) = (Return tt, e') /\
    minmax_n e' = 8%Z.
Proof.
  destruct (@run_returned _
              (add_function Sample.flat (PyMeasurement_Array Sample.two_pars) None None)
              (Sample.new_plot None)) as ([] & e' & H).
  - vm_compute. reflexivity.
  - exists e'. split; [exact H|].
    exact (proj1 (C6_minmax_n_restored_after_evaluation Sample.flat Sample.two_pars)
                 None None (Sample.new_plot None) e' H).
Defined.

Lemma C7_witness :
  returns (add_residuals Sample.get_yres_range) Sample.fitted_plot
          (fun _ e' => show_residuals (self e') = true).
Proof.
  eapply returns_weaken;
    [|apply (@C7_add_residuals_looks_at_last_dataset Sample.get_yres_range
               Sample.fitted_plot Sample.five_points_fitted)].
  - intros _ e' (H & _). rewrite H. reflexivity.
  - vm_compute. reflexivity.
Defined.


Lemma C9_witness :
  returns (set_plot_range Sample.ARRAY (PySeq Sample.two_strings) (PyScalar (SNum 3)))
          (Sample.new_plot None)
          (fun _ e' =>
             x_range (self e') = Sample.two_strings /\
             y_range (self e') = list2 0 1 /\
             stdout e' = [range_message "Y"]).
Proof.
  eapply returns_weaken;
    [|apply (@C9_set_plot_range_checks_type_and_length Sample.ARRAY
               (PySeq Sample.two_strings) (PyScalar (SNum 3)) (Sample.new_plot None))].
  intros _ e' (Hx & _ & _ & Hy & Hout).
  split; [|split].
  - apply Hx. repeat split. simpl. auto.
  - rewrite Hy; [reflexivity|]. intros s (H & _). discriminate.
  - rewrite Hout. reflexivity.
Defined.


(** * Further properties of the methods *)

(** ** Taking a run apart *)

Lemma get_self_inv (e e' : Env) (p : Plot) :
  get_self e = (Return p, e') -> p = self e /\ e' = e.
Proof. unfold get_self. intros H. inversion H. auto. Qed.

Lemma modify_self_inv (f : Plot -> Plot) (e e' : Env) (u : unit) :
  modify_self f e = (Return u, e') -> e' = with_self (f (self e)) e.
Proof. unfold modify_self. intros H. inversion H. auto. Qed.

Lemma ret_inv {A : Type} (a b : A) (e e' : Env) :
  ret a e = (Return b, e') -> b = a /\ e' = e.
Proof. unfold ret. intros H. inversion H. auto. Qed.

Lemma when_inv (b : bool) (m : M unit) (e e' : Env) (u : unit) :
  when b m e = (Return u, e') ->
  (b = true /\ m e = (Return u, e')) \/ (b = false /\ e' = e).
Proof.
  destruct b; simpl; intros H.
  - left. auto.
  - right. apply ret_inv in H. tauto.
Qed.

Lemma raises_now {A B : Type} (m : M A) (k : A -> M B) (e : Env) (x : exn)
      (Q : Env -> Prop) :
  raises m e x Q -> raises (bind m k) e x Q.
Proof. unfold raises, bind. destruct (m e) as [[a|y] e1]; auto. contradiction. Qed.

Lemma raises_later {A B : Type} (m : M A) (k : A -> M B) (e : Env) (x : exn)
      (Q : Env -> Prop) :
  returns m e (fun a e1 => raises (k a) e1 x Q) -> raises (bind m k) e x Q.
Proof. unfold raises, returns, bind. destruct (m e) as [[a|y] e1]; auto. contradiction. Qed.

Lemma raises_eq {A : Type} (m : M A) (e e' : Env) (x : exn) (Q : Env -> Prop) :
  m e = (Raise x, e') -> Q e' -> raises m e x Q.
Proof. unfold raises. intros ->. auto. Qed.

Lemma raises_inv {A : Type} (m : M A) (e : Env) (x : exn) (Q : Env -> Prop) :
  raises m e x Q -> exists e', m e = (Raise x, e') /\ Q e'.
Proof.
  unfold raises. destruct (m e) as [[a|y] e1]; [contradiction|].
  intros [-> H]. now exists e1.
Qed.

(** A returning colour assignment moves the cursor and nothing else, and
    the colour comes from the palette. *)
Lemma get_color_inv (e e' : Env) (c : string) :
  _get_color_from_palette e = (Return c, e') ->
  In c (color_palette (self e)) /\
  exists k, e' = with_self (with_color_count k (self e)) e.
Proof.
  destruct (color_palette (self e)) as [|c0 t] eqn:Hp.
  - unfold _get_color_from_palette, bind, modify_self, get_self, when, lift, item, ret.
    cbn [fst snd self with_self color_count color_palette with_color_count].
    rewrite Hp. cbn [List.length].
    destruct (Nat.ltb 0 (color_count (self e) + 1));
      cbn [fst snd self with_self color_count color_palette with_color_count];
      rewrite Hp; destruct (_ - 1)%nat; discriminate.
  - assert (Hne : color_palette (self e) <> []) by (rewrite Hp; discriminate).
    destruct (get_color_step e Hne) as (c' & Hc & Hstep).
    rewrite Hstep. intros H. injection H as <- <-. rewrite <- Hp. split.
    + eapply nth_error_In. exact Hc.
    + eexists. reflexivity.
Qed.

(** Steps that move the ranges, the residual range or the colour cursor:
    opened up so that an invariant about the rest goes through them. *)
Ltac keep_attributes :=
  repeat first
    [ progress intros
    | inv_step
    | inv_leaf
    | match goal with
      | |- inv _ (let _ := _ in _) => cbv zeta
      | |- inv _ _get_color_from_palette => unfold _get_color_from_palette
      | |- inv _ (set_x_range_item _ _) => unfold set_x_range_item
      | |- inv _ (set_y_range_item _ _) => unfold set_y_range_item
      | |- inv _ (set_yres_range_from_fits _) => unfold set_yres_range_from_fits
      | |- inv _ (set_range_from_dataset _ _ _ _) => unfold set_range_from_dataset
      end ].


(** ** User functions *)

Lemma add_function_xvals_inv (e e' : Env) (xvals : list Q) :
  add_function_xvals e = (Return xvals, e') ->
  exists a b,
    endpoints (x_range (self e)) = Return (a, b) /\ xvals = linspace a b 100 /\ e' = e.
Proof.
  unfold add_function_xvals. intros H.
  apply bind_inv in H as (p & e1 & H1 & H). apply get_self_inv in H1 as [-> ->].
  apply bind_inv in H as ([a b] & e1 & H1 & H). apply lift_inv in H1 as [H1 ->].
  apply ret_inv in H as [-> ->]. now exists a, b.
Qed.

Lemma add_function_eval_inv (f : Callable) (pars : PyVal) (xvals : list Q)
      (e e1 : Env) (r : option (list Q)) :
  add_function_eval f pars xvals e = (Return r, e1) ->
  self e1 = self e /\
  match r with
  | Some fvals => recognized pars = true /\ evaluated f pars (minmax_n e) xvals fvals
  | None =>
      recognized pars = false /\
      e1 = with_stdout (stdout e ++ ["Error: Not a recognized format for parameter"]) e
  end.
Proof.
  destruct pars as [|s|s|ms]; simpl; intros H.
  - apply bind_inv in H as (fvals & e2 & H1 & H). apply ret_inv in H as [-> ->].
    apply run_callable_inv in H1 as (n & H1 & ->).
    split; [reflexivity|]. split; [reflexivity|]. now rewrite H1.
  - apply bind_inv in H as ([] & e2 & H1 & H). apply ret_inv in H as [-> ->].
    unfold print in H1. injection H1 as <-. auto.
  - destruct (is_list_or_ndarray s) eqn:E.
    + apply bind_inv in H as (fvals & e2 & H1 & H). apply ret_inv in H as [-> ->].
      apply run_callable_inv in H1 as (n & H1 & ->).
      split; [reflexivity|]. split; [reflexivity|]. now rewrite H1.
    + apply bind_inv in H as ([] & e2 & H1 & H). apply ret_inv in H as [-> ->].
      unfold print in H1. injection H1 as <-. auto.
  - apply bind_inv in H as (recall & e2 & H1 & H).
    unfold get_minmax_n in H1. injection H1 as <- <-.
    apply bind_inv in H as ([] & e2 & H1 & H).
    unfold put_minmax_n in H1. injection H1 as <-.
    apply bind_inv in H as (fmes & e2 & H1 & H).
    apply run_callable_inv in H1 as (n & H1 & ->).
    apply bind_inv in H as ([] & e2 & H2 & H).
    unfold put_minmax_n in H2. injection H2 as <-.
    apply ret_inv in H as [-> ->].
    split; [reflexivity|]. split; [reflexivity|].
    exists fmes. cbn [minmax_n with_minmax_n] in H1. now rewrite H1.
Qed.

(** What a returning [add_function] has done when the parameters have a
    recognized format. *)
Lemma add_function_stored (f : Callable) (pars : PyVal) (name color : option string)
      (e e' : Env) (c d : Q) :
  y_range (self e) = list2 c d ->
  recognized pars = true ->
  add_function f pars name color e = (Return tt, e') ->
  exists a b fvals vmin vmax col,
    endpoints (x_range (self e)) = Return (a, b) /\
    evaluated f pars (minmax_n e) (linspace a b 100) fvals /\
    arr_min fvals = Return vmin /\ arr_max fvals = Return vmax /\
    y_range (self e') =
      widen (c, d) (vmin - y_range_margin (self e), vmax + y_range_margin (self e)) /\
    x_range (self e') = x_range (self e) /\
    datasets (self e') = datasets (self e) /\
    user_functions (self e') = user_functions (self e) ++ [f] /\
    user_functions_pars (self e') = user_functions_pars (self e) ++ [pars] /\
    user_functions_names (self e') =
      user_functions_names (self e) ++
      [match name with
       | Some n => n
       | None => ("userf_" ++ str_of_nat (user_functions_count (self e)))%string
       end] /\
    user_functions_colors (self e') = user_functions_colors (self e) ++ [col] /\
    user_functions_count (self e') = (user_functions_count (self e) + 1)%nat /\
    match color with
    | Some c0 => col = c0 /\ color_count (self e') = color_count (self e)
    | None => In col (color_palette (self e))
    end.
Proof.
  intros Hy Hrec H. unfold add_function in H.
  apply bind_inv in H as (xvals & e0 & H0 & H).
  apply add_function_xvals_inv in H0 as (a & b & Hends & -> & ->).
  apply bind_inv in H as (r & e1 & H1 & H).
  apply add_function_eval_inv in H1 as [Hself Hr].
  destruct r as [fvals|]; [|destruct Hr; congruence].
  destruct Hr as [_ Hev].
  apply bind_inv in H as (p & e2 & H2 & H). apply get_self_inv in H2 as [-> ->].
  apply bind_inv in H as (vmax & e2 & H2 & H). apply lift_inv in H2 as [Hmax ->].
  apply bind_inv in H as (vmin & e2 & H2 & H). apply lift_inv in H2 as [Hmin ->].
  rewrite Hself in H. rewrite Hy in H.
  apply bind_inv in H as (y1 & e2 & H2 & H). apply lift_inv in H2 as [H2 ->].
  injection H2 as <-.
  assert (Hy1 : y_range (self e1) = list2 c d) by congruence.
  apply bind_inv in H as ([] & e2 & H2 & H).
  rewrite (when_set_y_range_1 _ _ e1 Hy1) in H2. injection H2 as <-.
  apply bind_inv in H as (p & e2 & H2 & H). apply get_self_inv in H2 as [-> ->].
  cbn [self with_self y_range with_y_range] in H.
  apply bind_inv in H as (y0 & e2 & H2 & H). apply lift_inv in H2 as [H2 ->].
  injection H2 as <-.
  apply bind_inv in H as ([] & e2 & H2 & H).
  erewrite when_set_y_range_0 in H2 by reflexivity. injection H2 as <-.
  apply bind_inv in H as ([] & e2 & H2 & H). apply modify_self_inv in H2 as ->.
  apply bind_inv in H as ([] & e2 & H2 & H). apply modify_self_inv in H2 as ->.
  apply bind_inv in H as (p & e2 & H2 & H). apply get_self_inv in H2 as [-> ->].
  apply bind_inv in H as ([] & e2 & H2 & H). apply modify_self_inv in H2 as ->.
  apply bind_inv in H as ([] & e2 & H2 & H). apply modify_self_inv in H2 as ->.
  exists a, b, fvals, vmin, vmax.
  destruct color as [c0|].
  - apply modify_self_inv in H as ->. exists c0.
    cbn. rewrite Hself. unfold widen. cbn [fst snd].
    repeat split; auto.
  - apply bind_inv in H as (col & e2 & H2 & H). apply modify_self_inv in H as ->.
    apply get_color_inv in H2 as [Hin [k ->]].
    exists col. cbn. cbn in Hin. rewrite Hself in *. unfold widen. cbn [fst snd].
    repeat split; auto.
Qed.

Lemma add_function_unrecognized (f : Callable) (pars : PyVal) (name color : option string)
      (e : Env) (a b : Q) :
  recognized pars = false ->
  endpoints (x_range (self e)) = Return (a, b) ->
  add_function f pars name color e =
    (Return tt, with_stdout (stdout e ++ ["Error: Not a recognized format for parameter"]) e).
Proof.
  intros Hrec Hends. unfold add_function, add_function_xvals, bind, get_self, lift.
  rewrite Hends. unfold ret.
  destruct pars as [|s|s|ms]; simpl in *; try discriminate.
  - reflexivity.
  - rewrite Hrec. reflexivity.
Qed.

Lemma zip4_app {A B C D : Type} (a : list A) (b : list B) (c : list C) (d : list D)
      (x : A) (y : B) (z : C) (w : D) :
  List.length b = List.length a -> List.length c = List.length a ->
  List.length d = List.length a ->
  zip4 (a ++ [x]) (b ++ [y]) (c ++ [z]) (d ++ [w]) = zip4 a b c d ++ [(x, y, z, w)].
Proof.
  revert b c d. induction a as [|a0 a IH]; intros [|b0 b] [|c0 c] [|d0 d] Hb Hc Hd;
    simpl in *; try discriminate; auto.
  f_equal. apply IH; congruence.
Qed.


(** X2: the four parallel lists of user functions stay aligned.  When they
    have the same length before a returning [add_function] with parameters
    of a recognized format, the list of entries that both
    [populate_*_figure] methods walk has grown by exactly the new function
    with its own parameters, name and colour; the name defaults to
    ["userf_"] followed by the count of functions added so far, an explicit
    colour leaves the palette cursor alone and an automatic one comes from
    the palette. *)
Theorem add_function_keeps_the_lists_aligned (f : Callable) (pars : PyVal)
        (name color : option string) (e e' : Env) (c d : Q) :
  y_range (self e) = list2 c d ->
  recognized pars = true ->
  List.length (user_functions_pars (self e)) = List.length (user_functions (self e)) ->
  List.length (user_functions_names (self e)) = List.length (user_functions (self e)) ->
  List.length (user_functions_colors (self e)) = List.length (user_functions (self e)) ->
  add_function f pars name color e = (Return tt, e') ->
  exists col,
    stored_functions (self e') =
      stored_functions (self e) ++
      [(f, pars,
        match name with
        | Some n => n
        | None => ("userf_" ++ str_of_nat (user_functions_count (self e)))%string
        end, col)] /\
    user_functions_count (self e') = (user_functions_count (self e) + 1)%nat /\
    match color with
    | Some c0 => col = c0 /\ color_count (self e') = color_count (self e)
    | None => In col (color_palette (self e))
    end.
Proof.
  intros Hy Hrec Hp Hn Hc H.
  destruct (add_function_stored f pars name color e Hy Hrec H)
    as (a & b & fvals & vmin & vmax & col & _ & _ & _ & _ & _ & _ & _ &
        Hf' & Hp' & Hn' & Hc' & Hcount & Hcol).
  exists col. split; [|split; [exact Hcount | exact Hcol]].
  unfold stored_functions. rewrite Hf', Hp', Hn', Hc'. now apply zip4_app.
Qed.

(** X3: with parameters of a format that [add_function] does not recognize
    (a number, a string, a tuple), on any plot whose [x_range] holds two
    numbers, the call returns after printing its message and leaves the
    plot object exactly as it was: nothing is stored, no range moves and no
    colour is taken from the palette. *)
Theorem add_function_with_unrecognized_pars_changes_nothing
        (f : Callable) (pars : PyVal) (name color : option string) (e : Env) (a b : Q) :
  recognized pars = false ->
  endpoints (x_range (self e)) = Return (a, b) ->
  exists e',
    add_function f pars name color e = (Return tt, e') /\
    self e' = self e /\
    stdout e' = stdout e ++ ["Error: Not a recognized format for parameter"] /\
    pyplot e' = pyplot e /\ minmax_n e' = minmax_n e.
Proof.
  intros Hrec Hends. eexists. split.
  - apply (add_function_unrecognized f pars name color e Hrec Hends).
  - repeat split.
Qed.


Lemma add_function_keeps_the_lists_aligned_witness :
  exists e' col,
    add_function Sample.flat (PySeq (mkSeq TList [SNum 12])) None None (Sample.new_plot None)
      = (Return tt, e') /\
    stored_functions (self e') =
      [(Sample.flat, PySeq (mkSeq TList [SNum 12]), "userf_0", col)] /\
    In col (Sample.Set1_9 ++ Sample.Set2_8).
Proof.
  destruct (@run_returned _
              (add_function Sample.flat (PySeq (mkSeq TList [SNum 12])) None None)
              (Sample.new_plot None)) as ([] & e' & H).
  - vm_compute. reflexivity.
  - assert (Hy : y_range (self (Sample.new_plot None)) = list2 0 1) by reflexivity.
    destruct (add_function_keeps_the_lists_aligned
                Sample.flat (PySeq (mkSeq TList [SNum 12])) None None
                (Sample.new_plot None) Hy eq_refl eq_refl eq_refl eq_refl H)
      as (col & Hs & _ & Hin).
    exists e', col. split; [exact H|]. split; [exact Hs | exact Hin].
Defined.

Lemma add_function_with_unrecognized_pars_changes_nothing_witness :
  exists e',
    add_function Sample.linear Sample.a_tuple None None (Sample.new_plot None)
      = (Return tt, e') /\
    self e' = self (Sample.new_plot None) /\
    stdout e' = ["Error: Not a recognized format for parameter"].
Proof.
  assert (Hends : endpoints (x_range (self (Sample.new_plot None))) = Return (0, 1))
    by reflexivity.
  destruct (add_function_with_unrecognized_pars_changes_nothing
              Sample.linear Sample.a_tuple None None (Sample.new_plot None) eq_refl Hends)
    as (e' & H & Hs & Ho & _).
  exists e'. split; [exact H|]. split; [exact Hs | exact Ho].
Defined.


(** ** Attached datasets *)

Section Attaching.

Variable get_x_range get_y_range get_yres_range : Dataset -> Q -> Q * Q.

Lemma not_first_attach (ds : list Dataset) (d : Dataset) :
  ds <> [] -> Nat.ltb (List.length (ds ++ [d])) 2 = false.
Proof.
  intros H. apply Nat.ltb_ge. rewrite length_app. destruct ds; [contradiction|]. simpl. lia.
Qed.

Lemma set_last_app {A : Type} (l : list A) (x y : A) : set_last (l ++ [x]) y = l ++ [y].
Proof. unfold set_last. rewrite rev_app_distr. simpl. now rewrite rev_involutive. Qed.

(** X4: a range stored as a tuple cannot be widened.  On a plot that holds
    a dataset and whose [x_range] is a tuple of two numbers, attaching a
    dataset whose margin-expanded box starts left of the range raises
    [TypeError]; by then the dataset and its colour have been appended, and
    the ranges are as they were. *)
Theorem add_dataset_on_a_tuple_range_raises (d : Dataset) (color name : option string)
        (e : Env) (a b : Q) :
  datasets (self e) <> [] ->
  color_palette (self e) <> [] ->
  x_range (self e) = mkSeq TTuple [SNum a; SNum b] ->
  fst (get_x_range (renamed name d) (x_range_margin (self e))) < a ->
  raises (add_dataset get_x_range get_y_range get_yres_range d color name) e TypeError
    (fun e' =>
       datasets (self e') = datasets (self e) ++ [renamed name d] /\
       List.length (datasets_colors (self e')) = S (List.length (datasets_colors (self e))) /\
       x_range (self e') = x_range (self e) /\
       y_range (self e') = y_range (self e)).
Proof.
  intros Hds Hpal Hx Hlt. unfold add_dataset.
  apply raises_later; eapply returns_eq; [reflexivity|]; cbv beta.
  apply raises_later; eapply returns_eq; [reflexivity|]; cbv beta.
  cbn [self with_self datasets with_datasets].
  rewrite (not_first_attach d Hds).
  apply raises_later; eapply returns_eq; [reflexivity|]; cbv beta.
  set (e0 := with_self (with_datasets (datasets (self e) ++ [d]) (self e)) e).
  (* the colour *)
  assert (Hcol :
    returns (match color with
             | None =>
                 c <- _get_color_from_palette ;;
                 modify_self (fun p => with_datasets_colors (datasets_colors p ++ [c]) p)
             | Some c =>
                 modify_self (fun p => with_datasets_colors (datasets_colors p ++ [c]) p)
             end) e0
      (fun _ e1 =>
         datasets (self e1) = datasets (self e) ++ [d] /\
         List.length (datasets_colors (self e1)) = S (List.length (datasets_colors (self e))) /\
         x_range (self e1) = x_range (self e) /\ y_range (self e1) = y_range (self e) /\
         x_range_margin (self e1) = x_range_margin (self e))).
  { destruct color as [c|].
    - eapply returns_eq; [reflexivity|].
      cbn. rewrite length_app. simpl. repeat split; lia.
    - destruct (get_color_step e0) as (c & _ & Hstep); [exact Hpal|].
      apply returns_bind. eapply returns_eq; [exact Hstep|]; cbv beta.
      eapply returns_eq; [reflexivity|].
      cbn. rewrite length_app. simpl. repeat split; lia. }
  apply raises_later. eapply returns_weaken; [|exact Hcol]. clear Hcol.
  intros _ e1 (Hd1 & Hc1 & Hx1 & Hy1 & Hm1). cbv beta.
  (* the name *)
  assert (Hname :
    returns (match name with
             | Some n =>
                 modify_self (fun p =>
                   with_datasets (set_last (datasets p) (XYDataSet.with_name n d)) p) ;;
                 ret (XYDataSet.with_name n d)
             | None => ret d
             end) e1
      (fun dataset e2 =>
         dataset = renamed name d /\
         datasets (self e2) = datasets (self e) ++ [renamed name d] /\
         List.length (datasets_colors (self e2)) = S (List.length (datasets_colors (self e))) /\
         x_range (self e2) = x_range (self e) /\ y_range (self e2) = y_range (self e) /\
         x_range_margin (self e2) = x_range_margin (self e))).
  { destruct name as [n|].
    - apply returns_bind. eapply returns_eq; [reflexivity|]; cbv beta.
      eapply returns_eq; [reflexivity|].
      cbn [self with_self datasets with_datasets datasets_colors x_range y_range
           x_range_margin renamed].
      rewrite Hd1, set_last_app. repeat split; auto.
    - eapply returns_eq; [reflexivity|]. repeat split; auto. }
  apply raises_later. eapply returns_weaken; [|exact Hname]. clear Hname.
  intros dataset e2 (-> & Hd2 & Hc2 & Hx2 & Hy2 & Hm2). cbv beta.
  apply raises_later; eapply returns_eq; [reflexivity|]; cbv beta.
  rewrite Hx2, Hx, Hm2.
  apply raises_later; eapply returns_eq; [reflexivity|]; cbv beta.
  apply raises_now.
  apply (proj2 (Qlt_bool_iff _ _)) in Hlt. rewrite Hlt.
  eapply raises_eq.
  - unfold when, set_x_range_item, bind, get_self, lift. rewrite Hx2, Hx. reflexivity.
  - repeat split; auto. congruence.
Qed.


Lemma with_labels_same (p : Plot) : with_labels (labels p) p = p.
Proof. now destruct p. Qed.

Lemma set_labels_eq (t x y : option string) (e : Env) :
  set_labels t x y e =
    (Return tt,
     with_self (with_labels
                  (mkLabels (match t with Some s => s | None => l_title (labels (self e)) end)
                            (match x with Some s => s | None => l_xtitle (labels (self e)) end)
                            (match y with Some s => s | None => l_ytitle (labels (self e)) end))
                  (self e)) e).
Proof.
  unfold set_labels, bind, modify_self, ret.
  destruct t as [t|], x as [x|], y as [y|];
    cbn [self with_self labels with_labels l_title l_xtitle l_ytitle];
    try reflexivity.
  replace (mkLabels (l_title (labels (self e))) (l_xtitle (labels (self e)))
                    (l_ytitle (labels (self e)))) with (labels (self e))
    by now destruct (labels (self e)).
  now rewrite with_labels_same, with_self_self.
Qed.

(** The part of [add_dataset] after the optional initialization. *)
Lemma add_dataset_tail_keeps_labels (L : Labels) (d : Dataset) (color name : option string) :
  inv (fun e => labels (self e) = L)
      (match color with
       | None =>
           c <- _get_color_from_palette ;;
           modify_self (fun p => with_datasets_colors (datasets_colors p ++ [c]) p)
       | Some c =>
           modify_self (fun p => with_datasets_colors (datasets_colors p ++ [c]) p)
       end ;;
       dataset <- match name with
                  | Some n =>
                      modify_self (fun p =>
                        with_datasets (set_last (datasets p) (XYDataSet.with_name n d)) p) ;;
                      ret (XYDataSet.with_name n d)
                  | None => ret d
                  end ;;
       p <- get_self ;;
       let x_range' := get_x_range dataset (x_range_margin p) in
       let y_range' := get_y_range dataset (y_range_margin p) in
       x0 <- lift (getitem (x_range p) 0) ;;
       when (Qlt_bool (fst x_range') x0) (set_x_range_item 0 (SNum (fst x_range'))) ;;
       p <- get_self ;;
       x1 <- lift (getitem (x_range p) 1) ;;
       when (Qlt_bool x1 (snd x_range')) (set_x_range_item 1 (SNum (snd x_range'))) ;;
       p <- get_self ;;
       y0 <- lift (getitem (y_range p) 0) ;;
       when (Qlt_bool (fst y_range') y0) (set_y_range_item 0 (SNum (fst y_range'))) ;;
       p <- get_self ;;
       y1 <- lift (getitem (y_range p) 1) ;;
       when (Qlt_bool y1 (snd y_range')) (set_y_range_item 1 (SNum (snd y_range'))) ;;
       set_yres_range_from_fits get_yres_range).
Proof. keep_attributes. Qed.

Lemma initialize_from_dataset_labels (d : Dataset) (e : Env) :
  returns (initialize_from_dataset get_x_range get_y_range get_yres_range d) e
    (fun _ e' => labels (self e') = labels_of d).
Proof.
  unfold initialize_from_dataset, set_range_from_dataset.
  repeat (apply returns_bind; eapply returns_eq; [reflexivity|]; cbv beta).
  apply returns_bind.
  eapply returns_eq; [apply set_yres_range_from_fits_eq|]; cbv beta.
  eapply returns_eq; [reflexivity|].
  reflexivity.
Qed.

(** X5: the labels and the first dataset.  [set_labels] replaces the labels
    it is given and keeps the others.  A later [add_dataset] on a plot that
    already holds a dataset leaves the labels alone, whatever its outcome;
    but the first [add_dataset] on a plot without datasets overwrites all
    three labels with those derived from the dataset, so labels set before
    it are lost; the title it takes is the dataset's name from before the
    renaming that the [name] argument asks for. *)
Theorem first_dataset_overwrites_the_labels (d : Dataset) (color name : option string)
        (t x y : option string) (e : Env) :
  let configured := snd (set_labels t x y e) in
  let e' := snd ((set_labels t x y ;;
                  add_dataset get_x_range get_y_range get_yres_range d color name) e) in
  labels (self configured) =
    mkLabels (match t with Some s => s | None => l_title (labels (self e)) end)
             (match x with Some s => s | None => l_xtitle (labels (self e)) end)
             (match y with Some s => s | None => l_ytitle (labels (self e)) end) /\
  (datasets (self e) <> [] -> labels (self e') = labels (self configured)) /\
  (datasets (self e) = [] -> labels (self e') = labels_of d).
Proof.
  intros configured e'. subst configured e'.
  rewrite (bind_Return _ (set_labels_eq t x y e)).
  rewrite set_labels_eq. cbn [snd].
  set (e0 := with_self _ e).
  split; [reflexivity|].
  unfold add_dataset.
  rewrite (bind_Return _ (eq_refl : modify_self _ e0 = (Return tt, _))).
  rewrite (bind_Return _ (eq_refl : get_self _ = (Return _, _))).
  cbn [self with_self datasets with_datasets with_labels e0].
  split.
  - intros Hne. rewrite (not_first_attach d Hne).
    rewrite (bind_Return _ (eq_refl : when false _ _ = (Return tt, _))).
    apply (add_dataset_tail_keeps_labels (L := labels (self e0))). reflexivity.
  - intros Hnil. rewrite Hnil. cbn [app List.length Nat.ltb Nat.leb when].
    match goal with
    | |- context [bind (initialize_from_dataset _ _ _ d) _ ?e1] =>
        destruct (@returns_inv _ _ _ _ (initialize_from_dataset_labels d e1))
          as ([] & e2 & Hi & HL)
    end.
    rewrite (bind_Return _ Hi).
    now apply add_dataset_tail_keeps_labels.
Qed.

End Attaching.

Lemma add_dataset_on_a_tuple_range_raises_witness :
  raises (add_dataset Sample.get_x_range Sample.get_y_range Sample.get_yres_range
                      Sample.five_points None None)
         Sample.tuple_ranged TypeError
         (fun e' =>
            datasets (self e') = datasets (self Sample.tuple_ranged) ++ [Sample.five_points] /\
            List.length (datasets_colors (self e')) =
              S (List.length (datasets_colors (self Sample.tuple_ranged))) /\
            x_range (self e') = x_range (self Sample.tuple_ranged) /\
            y_range (self e') = y_range (self Sample.tuple_ranged)).
Proof.
  apply (add_dataset_on_a_tuple_range_raises
           Sample.get_x_range Sample.get_y_range Sample.get_yres_range
           Sample.five_points None None Sample.tuple_ranged (a := 5) (b := 6)).
  - vm_compute. discriminate.
  - vm_compute. discriminate.
  - reflexivity.
  - vm_compute. reflexivity.
Defined.

Lemma first_dataset_overwrites_the_labels_witness :
  labels (self (snd ((set_labels (Some "My title") None None ;;
                      add_dataset Sample.get_x_range Sample.get_y_range Sample.get_yres_range
                                  Sample.far_points None (Some "renamed"))
                       (Sample.new_plot None))))
    = mkLabels "far points" "x []" "y []".
Proof.
  apply (proj2 (proj2 (first_dataset_overwrites_the_labels
                         Sample.get_x_range Sample.get_y_range Sample.get_yres_range
                         Sample.far_points None (Some "renamed")
                         (Some "My title") None None (Sample.new_plot None)))).
  reflexivity.
Defined.


Section Pairing.

Variable get_x_range get_y_range get_yres_range : Dataset -> Q -> Q * Q.





End Pairing.



(** ** The residual range *)

Section Residuals.

Variable get_yres_range : Dataset -> Q -> Q * Q.

Lemma yres_after_last_fitted (l1 l2 : list Dataset) (d : Dataset) (margin : Q)
      (r : option Seq) :
  (0 < XYDataSet.nfits d)%nat ->
  (forall d', In d' l2 -> XYDataSet.nfits d' = 0%nat) ->
  yres_after get_yres_range (l1 ++ d :: l2) margin r =
    Some (fresh_list (get_yres_range d margin)).
Proof.
  intros Hd Hl2. unfold yres_after. rewrite fold_left_app. simpl.
  apply Nat.ltb_lt in Hd. rewrite Hd.
  now apply (yres_after_no_fit get_yres_range).
Qed.

(** X7: the residual range is not a union over the datasets.  After
    [add_residuals] on a plot where [d] is the last attached dataset that
    has a fit, the residual range is the one of [d] alone, expanded by the
    y margin as [d] reports it: what an earlier fitted dataset would need,
    and the residual range held before, are discarded. *)
Theorem residual_range_is_that_of_the_last_fitted_dataset
        (l1 l2 : list Dataset) (d : Dataset) (e : Env) :
  datasets (self e) = l1 ++ d :: l2 ->
  (0 < XYDataSet.nfits d)%nat ->
  (forall d', In d' l2 -> XYDataSet.nfits d' = 0%nat) ->
  returns (add_residuals get_yres_range) e
    (fun _ e' =>
       yres_range (self e') =
         Some (fresh_list (get_yres_range d (y_range_margin (self e))))).
Proof.
  intros Hds Hd Hl2. unfold add_residuals.
  apply returns_bind. eapply returns_eq; [apply set_yres_range_from_fits_eq|]; cbv beta.
  apply returns_bind. eapply returns_eq; [reflexivity|]; cbv beta.
  cbn [self with_self datasets with_yres_range].
  destruct (@last_item_nonempty _ (datasets (self e))) as (last & Hlast).
  { rewrite Hds. destruct l1; discriminate. }
  rewrite Hlast.
  apply returns_bind. eapply returns_eq; [reflexivity|]; cbv beta.
  rewrite Hds, (yres_after_last_fitted l1 l2 d _ _ Hd Hl2).
  destruct (Nat.ltb 0 (XYDataSet.nfits last)); (eapply returns_eq; [reflexivity|]); reflexivity.
Qed.

End Residuals.

Lemma residual_range_is_that_of_the_last_fitted_dataset_witness :
  returns (add_residuals Sample.get_yres_range) Sample.fitted_then_unfitted
    (fun _ e' =>
       yres_range (self e') =
         Some (fresh_list (Sample.get_yres_range Sample.five_points_fitted
                             (y_range_margin (self Sample.fitted_then_unfitted))))).
Proof.
  apply (residual_range_is_that_of_the_last_fitted_dataset
           Sample.get_yres_range [] [Sample.far_points] Sample.five_points_fitted
           Sample.fitted_then_unfitted).
  - reflexivity.
  - vm_compute. lia.
  - intros d' [<-|[]]. reflexivity.
Defined.


(** ** Making a plot *)

Section Making.

Variable get_x_range get_y_range get_yres_range : Dataset -> Q -> Q * Q.
Variable Set1_9 Set2_8 : list string.
Variable XYDataSet_init :
  DataArg -> DataArg -> PyVal -> PyVal -> PyVal -> PyVal -> PyVal -> PyVal -> PyVal ->
  Result Dataset.

Lemma init_without_dataset (e : Env) :
  returns (__init__ get_x_range get_y_range get_yres_range Set1_9 Set2_8 None) e
    (fun _ e' => empty_plot (self e') /\ stdout e' = stdout e).
Proof.
  unfold __init__.
  repeat (apply returns_bind; eapply returns_eq; [reflexivity|]; cbv beta).
  eapply returns_eq; [reflexivity|].
  repeat split.
Qed.

Lemma initialize_from_dataset_facts (d : Dataset) (e : Env) :
  returns (initialize_from_dataset get_x_range get_y_range get_yres_range d) e
    (fun _ e' =>
       make_labels (self e') = labels_of d /\
       x_range (self e') = fresh_list (get_x_range d (x_range_margin (self e))) /\
       y_range (self e') = fresh_list (get_y_range d (y_range_margin (self e))) /\
       datasets (self e') = datasets (self e) /\
       datasets_colors (self e') = datasets_colors (self e) /\
       stdout e' = stdout e).
Proof.
  unfold initialize_from_dataset, set_range_from_dataset.
  repeat (apply returns_bind; eapply returns_eq; [reflexivity|]; cbv beta).
  apply returns_bind.
  eapply returns_eq; [apply set_yres_range_from_fits_eq|]; cbv beta.
  eapply returns_eq; [reflexivity|].
  repeat split.
Qed.

Lemma init_with_dataset (d : Dataset) (e : Env) :
  Set1_9 ++ Set2_8 <> [] ->
  returns (__init__ get_x_range get_y_range get_yres_range Set1_9 Set2_8 (Some d)) e
    (fun _ e' => plot_of get_x_range get_y_range d (self e') /\ stdout e' = stdout e).
Proof.
  intros Hpal. unfold __init__.
  apply returns_bind; eapply returns_eq; [reflexivity|]; cbv beta.
  set (e1 := with_self (blank_plot Set1_9 Set2_8) e).
  apply returns_bind.
  apply returns_bind; eapply returns_eq; [reflexivity|]; cbv beta.
  set (e2 := with_self _ e1).
  destruct (get_color_step e2) as (c & _ & Hstep); [exact Hpal|].
  apply returns_bind; eapply returns_eq; [exact Hstep|]; cbv beta.
  set (e3 := with_self _ e2) in *.
  apply returns_bind; eapply returns_eq; [reflexivity|]; cbv beta.
  set (e4 := with_self _ e3).
  eapply returns_weaken; [|apply initialize_from_dataset_facts].
  intros _ e5 (Hl & Hx & Hy & Hd & Hc & Ho). cbv beta.
  eapply returns_eq; [reflexivity|].
  unfold plot_of. cbn [self with_self labels with_labels datasets datasets_colors
                       x_range y_range stdout].
  rewrite Hl, Hx, Hy, Hd, Hc, Ho.
  repeat split.
Qed.

(** X8: [MakePlot] with half of the data.  When [x] is given without [y]
    and is not a dataset, the result is the empty plot of [Plot()] and the
    message is printed, even when the [dataset] argument holds a dataset;
    when [y] is given without [x] and without [dataset], the result is the
    empty plot and nothing is printed. *)
Theorem MakePlot_with_half_of_the_data_is_empty
        (xerr yerr data_name xname' xunits' yname' yunits' : PyVal) (e : Env) :
  (forall (v : PyVal) (dataset : option Dataset),
      v <> PyNone ->
      returns (MakePlot get_x_range get_y_range get_yres_range Set1_9 Set2_8 XYDataSet_init
                        (ArgValue v) (ArgValue PyNone) xerr yerr data_name dataset
                        xname' xunits' yname' yunits') e
        (fun _ e' =>
           empty_plot (self e') /\
           stdout e' =
             stdout e ++ ["Must specify x AND y or dataset, returning empty plot"])) /\
  (forall (y : DataArg),
      arg_is_None y = false ->
      returns (MakePlot get_x_range get_y_range get_yres_range Set1_9 Set2_8 XYDataSet_init
                        (ArgValue PyNone) y xerr yerr data_name None
                        xname' xunits' yname' yunits') e
        (fun _ e' => empty_plot (self e') /\ stdout e' = stdout e)).
Proof.
  split.
  - intros v dataset Hv. unfold MakePlot.
    assert (Hx : arg_is_None (ArgValue v) = false) by (destruct v; auto; congruence).
    rewrite Hx. cbn [andb negb arg_is_None].
    apply returns_bind; eapply returns_eq; [reflexivity|]; cbv beta.
    eapply returns_weaken; [|apply init_without_dataset].
    intros _ e' [H1 H2]. split; [exact H1|]. exact H2.
  - intros y Hy. unfold MakePlot. rewrite Hy. cbn [andb negb arg_is_None].
    apply init_without_dataset.
Qed.

(** X9: [MakePlot] with a dataset.  With a palette that is not empty, a
    dataset passed as [x] without [y] is used whatever [dataset] holds, and
    a dataset passed as [dataset] is used whenever [x] is missing or [y] is
    given, whatever [x] and [y] hold.  The plot is then [Plot(d')] for the
    dataset [d'] after the overrides: each of [xname], [yname], [xunits],
    [yunits] and [data_name] that is a string replaces the attribute of the
    dataset, any other value is ignored; the labels and the ranges follow
    the overridden dataset. *)
Theorem MakePlot_with_a_dataset
        (xerr yerr data_name xname' xunits' yname' yunits' : PyVal) (d : Dataset) (e : Env) :
  Set1_9 ++ Set2_8 <> [] ->
  let d' := with_overrides xname' xunits' yname' yunits' data_name d in
  (forall (other : option Dataset),
      returns (MakePlot get_x_range get_y_range get_yres_range Set1_9 Set2_8 XYDataSet_init
                        (ArgDataset d) (ArgValue PyNone) xerr yerr data_name other
                        xname' xunits' yname' yunits') e
        (fun _ e' => plot_of get_x_range get_y_range d' (self e') /\ stdout e' = stdout e)) /\
  (forall (x y : DataArg),
      arg_is_None x = true \/ arg_is_None y = false ->
      returns (MakePlot get_x_range get_y_range get_yres_range Set1_9 Set2_8 XYDataSet_init
                        x y xerr yerr data_name (Some d)
                        xname' xunits' yname' yunits') e
        (fun _ e' => plot_of get_x_range get_y_range d' (self e') /\ stdout e' = stdout e)).
Proof.
  intros Hpal d'. split.
  - intros other. unfold MakePlot. cbn [andb negb arg_is_None].
    now apply init_with_dataset.
  - intros x y Hxy. unfold MakePlot. cbn [has negb]. rewrite andb_false_r.
    destruct Hxy as [Hx|Hy].
    + rewrite Hx. cbn [negb andb]. now apply init_with_dataset.
    + rewrite Hy, andb_false_r. now apply init_with_dataset.
Qed.

End Making.

Section Reports.

Variable Measurement_Array_str : list Measurement -> string.

Lemma py_item_last {A : Type} (l : list A) : py_item l (-1) = last_item l.
Proof.
  unfold py_item, last_item, item. cbn [Z.leb Z.compare].
  destruct l as [|a l] using rev_ind.
  - reflexivity.
  - rewrite rev_app_distr. simpl rev. cbn [app].
    rewrite length_app. cbn [List.length].
    replace (- Z.of_nat (List.length l + 1) <=? -1)%Z with true
      by (symmetry; apply Z.leb_le; lia).
    replace (Z.to_nat (Z.of_nat (List.length l + 1) + -1)) with (List.length l) by lia.
    rewrite nth_error_app2 by lia. now rewrite Nat.sub_diag.
Qed.

(** X10: [print_fit_parameters] tests the last dataset and prints the
    indexed one.  When the last attached dataset has no fit, the call
    prints that the datasets have not been fit, whatever the index is and
    whether or not the indexed dataset has a fit.  When the last dataset
    has a fit, the parameters of the latest fit of the indexed dataset are
    printed; if that dataset has no fit, [IndexError] is raised and nothing
    is printed.  The default index [-1] is the last dataset. *)
Theorem print_fit_parameters_tests_the_last_dataset (i : Z) (e : Env) (last : Dataset) :
  last_item (datasets (self e)) = Return last ->
  py_item (datasets (self e)) (-1) = Return last /\
  (XYDataSet.nfits last = 0%nat ->
   print_fit_parameters Measurement_Array_str i e =
     (Return tt, with_stdout (stdout e ++ ["Datasets have not been fit"]) e)) /\
  ((0 < XYDataSet.nfits last)%nat ->
   forall d, py_item (datasets (self e)) i = Return d ->
     (XYDataSet.fit_pars d = [] ->
      print_fit_parameters Measurement_Array_str i e = (Raise IndexError, e)) /\
     (forall pars, last_item (XYDataSet.fit_pars d) = Return pars ->
        print_fit_parameters Measurement_Array_str i e =
          (Return tt,
           with_stdout (stdout e ++
                          [("Fit parameters:" ++ newline ++ Measurement_Array_str pars)%string])
                       e))).
Proof.
  intros Hlast. split; [now rewrite py_item_last|].
  unfold print_fit_parameters, bind, get_self, lift. rewrite Hlast. split.
  - intros ->. reflexivity.
  - intros Hfit d Hd. apply Nat.ltb_lt in Hfit. rewrite Hfit, Hd. split.
    + intros ->. reflexivity.
    + intros pars ->. reflexivity.
Qed.

End Reports.

Lemma MakePlot_with_half_of_the_data_is_empty_witness :
  returns (MakePlot Sample.get_x_range Sample.get_y_range Sample.get_yres_range
                    Sample.Set1_9 Sample.Set2_8 Sample.XYDataSet_init
                    (ArgValue (PySeq (list2 1 2))) (ArgValue PyNone) PyNone PyNone PyNone
                    (Some Sample.five_points) PyNone PyNone PyNone PyNone)
          (Sample.env_of Sample.blank)
          (fun _ e' =>
             empty_plot (self e') /\
             stdout e' = stdout (Sample.env_of Sample.blank) ++
                         ["Must specify x AND y or dataset, returning empty plot"]).
Proof.
  apply (proj1 (MakePlot_with_half_of_the_data_is_empty
                  Sample.get_x_range Sample.get_y_range Sample.get_yres_range
                  Sample.Set1_9 Sample.Set2_8 Sample.XYDataSet_init
                  PyNone PyNone PyNone PyNone PyNone PyNone PyNone
                  (Sample.env_of Sample.blank))).
  discriminate.
Defined.

Lemma MakePlot_with_a_dataset_witness :
  returns (MakePlot Sample.get_x_range Sample.get_y_range Sample.get_yres_range
                    Sample.Set1_9 Sample.Set2_8 Sample.XYDataSet_init
                    (ArgDataset Sample.far_points) (ArgValue PyNone) PyNone PyNone PyNone
                    (Some Sample.five_points)
                    (PyScalar (SStr "t")) (PyScalar (SStr "s")) PyNone (PyScalar (SNum 3)))
          (Sample.env_of Sample.blank)
          (fun _ e' =>
             plot_of Sample.get_x_range Sample.get_y_range
                     (XYDataSet.with_xunits "s" (XYDataSet.with_xname "t" Sample.far_points))
                     (self e') /\
             stdout e' = stdout (Sample.env_of Sample.blank)).
Proof.
  apply (proj1 (MakePlot_with_a_dataset
                  Sample.get_x_range Sample.get_y_range Sample.get_yres_range
                  Sample.Set1_9 Sample.Set2_8 Sample.XYDataSet_init
                  PyNone PyNone PyNone (PyScalar (SStr "t")) (PyScalar (SStr "s")) PyNone
                  (PyScalar (SNum 3)) Sample.far_points (Sample.env_of Sample.blank)
                  ltac:(discriminate))).
Defined.

Lemma print_fit_parameters_tests_the_last_dataset_witness :
  print_fit_parameters Sample.Measurement_Array_str 0 Sample.fitted_then_unfitted =
    (Return tt,
     with_stdout (stdout Sample.fitted_then_unfitted ++ ["Datasets have not been fit"])
                 Sample.fitted_then_unfitted) /\
  print_fit_parameters Sample.Measurement_Array_str 0 Sample.unfitted_then_fitted =
    (Raise IndexError, Sample.unfitted_then_fitted).
Proof.
  split.
  - apply (proj1 (proj2 (print_fit_parameters_tests_the_last_dataset
                           Sample.Measurement_Array_str 0 Sample.fitted_then_unfitted
                           (last := Sample.far_points)
                           ltac:(reflexivity)))).
    reflexivity.
  - apply (proj2 (proj2 (print_fit_parameters_tests_the_last_dataset
                           Sample.Measurement_Array_str 0 Sample.unfitted_then_fitted
                           (last := Sample.five_points_fitted)
                           ltac:(reflexivity)))
                 ltac:(vm_compute; lia) Sample.far_points ltac:(reflexivity)).
    reflexivity.
Defined.


(** ** The matplotlib figure *)

(** X11: drawing a fitted dataset on a plot that has never computed a
    residual range.  [mpl_plot_dataset] asks for residuals by default; on a
    plot without a figure and without [yres_range] (the dataset was not
    attached, or was fitted after it was attached), a dataset with a fit
    switches [show_residuals] on and the figure set-up then raises
    [AttributeError]: by then the figure and its grid exist and nothing of
    the dataset has been drawn. *)
Theorem mpl_plot_dataset_needs_the_residual_range
        (d : Dataset) (color : string) (show_fit_function : bool) (e : Env) (a b : Scalar) :
  mplfigure (self e) = None ->
  yres_range (self e) = None ->
  (0 < XYDataSet.nfits d)%nat ->
  getitem_raw (x_range (self e)) 0 = Return a ->
  getitem_raw (x_range (self e)) 1 = Return b ->
  raises (mpl_plot_dataset d color show_fit_function true) e AttributeError
    (fun e' =>
       show_residuals (self e') = true /\
       has (mplfigure (self e')) = true /\ has (mpl_gs (self e')) = true /\
       pyplot e' =
         pyplot e ++
         [plt_figure (fst (dimensions (self e)) * mpl_scaling (self e),
                      (133 # 100) * snd (dimensions (self e)) * mpl_scaling (self e));
          plt_subplot (mkGridSpec 2 1 [3; 1]) 1]).
Proof.
  intros Hfig Hres Hfit Ha Hb. apply Nat.ltb_lt in Hfit.
  unfold mpl_plot_dataset.
  apply raises_later; eapply returns_eq; [reflexivity|]; cbv beta.
  rewrite Hfig, Hfit. cbn [has negb andb when].
  apply raises_now. apply raises_later; eapply returns_eq; [reflexivity|]; cbv beta.
  unfold initialize_mpl_figure.
  apply raises_later; eapply returns_eq; [reflexivity|]; cbv beta.
  cbn [self with_self show_residuals with_show_residuals mplfigure mpl_gs dimensions
       mpl_scaling x_range yres_range negb andb].
  rewrite Hres, Ha, Hb. cbn [has negb andb].
  apply raises_now.
  eapply raises_eq; [reflexivity|].
  cbn. rewrite <- app_assoc. repeat split.
Qed.

Lemma mpl_plot_dataset_needs_the_residual_range_witness :
  raises (mpl_plot_dataset Sample.five_points_fitted "black" true true)
         (Sample.new_plot None) AttributeError
         (fun e' =>
            show_residuals (self e') = true /\
            has (mplfigure (self e')) = true /\ has (mpl_gs (self e')) = true /\
            pyplot e' =
              pyplot (Sample.new_plot None) ++
              [plt_figure (fst (dimensions (self (Sample.new_plot None)))
                             * mpl_scaling (self (Sample.new_plot None)),
                           (133 # 100) * snd (dimensions (self (Sample.new_plot None)))
                             * mpl_scaling (self (Sample.new_plot None)));
               plt_subplot (mkGridSpec 2 1 [3; 1]) 1]).
Proof.
  apply (mpl_plot_dataset_needs_the_residual_range
           Sample.five_points_fitted "black" true (Sample.new_plot None)
           (a := SNum 0) (b := SNum 1)).
  - reflexivity.
  - reflexivity.
  - vm_compute. lia.
  - reflexivity.
  - reflexivity.
Defined.

Ltac open_mpl :=
  match goal with
  | |- inv _ (initialize_mpl_figure _) => unfold initialize_mpl_figure
  | |- inv _ ensure_mpl_figure => unfold ensure_mpl_figure
  | |- inv _ select_main_subplot => unfold select_main_subplot
  | |- inv _ (plt_axis_of _ _) => unfold plt_axis_of
  | |- inv _ function_xdata => unfold function_xdata
  | |- inv _ (mpl_plot_function_eval _ _ _) => unfold mpl_plot_function_eval
  | |- inv _ (mpl_plot_function _ _ _ _ _ _ _) => unfold mpl_plot_function
  | |- inv _ (mpl_plot_dataset _ _ _ _) => unfold mpl_plot_dataset
  | |- inv _ (mpl_plot_fit_results_text_box _ _ _) => unfold mpl_plot_fit_results_text_box
  | |- inv _ (populate_mpl_figure _ _) => unfold populate_mpl_figure
  | |- inv _ (let _ := _ in _) => cbv zeta
  end.

Lemma initialize_mpl_figure_ready (refresh : bool) (e e1 : Env) :
  initialize_mpl_figure refresh e = (Return tt, e1) -> figure_ready e1.
Proof.
  unfold initialize_mpl_figure. intros H.
  apply bind_inv in H as (p & e0 & H0 & H). apply get_self_inv in H0 as [-> ->].
  destruct (negb refresh && has (mplfigure (self e))
            && negb (show_residuals (self e) && negb (has (mpl_gs (self e))))) eqn:Hc.
  - apply ret_inv in H as [_ ->].
    apply andb_prop in Hc as [Hc Hgs]. apply andb_prop in Hc as [_ Hfig].
    split; [exact Hfig|]. intros Hs. rewrite Hs in Hgs.
    destruct (has (mpl_gs (self e))); [reflexivity | discriminate].
  - clear Hc. apply bind_inv in H as ([] & e2 & H2 & H).
    assert (R2 : figure_ready e2).
    { destruct (show_residuals (self e)) eqn:Hs; cbn [negb] in H2.
      - apply bind_inv in H2 as ([] & e3 & H3 & H2).
        unfold plt in H3. injection H3 as <-.
        apply bind_inv in H2 as ([] & e3 & H3 & H2). apply modify_self_inv in H3 as ->.
        apply bind_inv in H2 as ([] & e3 & H3 & H2). apply modify_self_inv in H3 as ->.
        eapply inv_at; [| |exact H2].
        + unfold figure_ready.
          repeat first [progress intros | inv_step | inv_leaf | open_mpl].
        + split; reflexivity.
      - apply bind_inv in H2 as ([] & e3 & H3 & H2).
        unfold plt in H3. injection H3 as <-.
        apply modify_self_inv in H2 as ->.
        split; [reflexivity|]. cbn. rewrite Hs. discriminate. }
    eapply inv_at; [| exact R2 | exact H].
    unfold figure_ready.
    repeat first [progress intros | inv_step | inv_leaf | open_mpl].
Qed.

(** X12: the matplotlib figure is set up once.  After any returning call of
    [initialize_mpl_figure], a call with [refresh=False] returns at once:
    it makes no pyplot call and changes nothing at all. *)
Theorem initialize_mpl_figure_without_refresh_is_idle (refresh : bool) (e e1 : Env) :
  initialize_mpl_figure refresh e = (Return tt, e1) ->
  initialize_mpl_figure false e1 = (Return tt, e1).
Proof.
  intros H. apply initialize_mpl_figure_ready in H as [Hfig Hgs].
  unfold initialize_mpl_figure, bind, get_self. rewrite Hfig. cbn [negb andb].
  destruct (show_residuals (self e1)).
  - rewrite Hgs by reflexivity. reflexivity.
  - reflexivity.
Qed.

Lemma initialize_mpl_figure_without_refresh_is_idle_witness :
  exists e1,
    initialize_mpl_figure true (Sample.new_plot None) = (Return tt, e1) /\
    initialize_mpl_figure false e1 = (Return tt, e1).
Proof.
  destruct (@run_returned _ (initialize_mpl_figure true) (Sample.new_plot None))
    as ([] & e1 & H).
  - vm_compute. reflexivity.
  - exists e1. split; [exact H|].
    exact (initialize_mpl_figure_without_refresh_is_idle true (Sample.new_plot None) H).
Defined.

Section MplText.

Variable Measurement_str : Measurement -> string.

Lemma ensure_mpl_figure_keeps_y_range (v : Seq) :
  inv (fun e => y_range (self e) = v) ensure_mpl_figure.
Proof. repeat first [progress intros | inv_step | inv_leaf | open_mpl]. Qed.

(** X13: the offset that [mpl_plot_fit_results_text_box] hands back does not
    build on the one it is given.  When the call returns, the value is
    0.045 times the height of [y_range] for each parameter of the
    dataset's latest fit, whatever [yoffset] was: two calls that differ in
    the incoming offset only return the same value. *)
Theorem mpl_fit_text_offset_ignores_the_incoming_offset
        (d : Dataset) (yoffset : Q) (e e1 : Env) (o : Q) :
  mpl_plot_fit_results_text_box Measurement_str d yoffset e = (Return o, e1) ->
  (exists npars y0 y1,
      last_item (XYDataSet.fit_npars d) = Return npars /\
      getitem (y_range (self e)) 0 = Return y0 /\
      getitem (y_range (self e)) 1 = Return y1 /\
      o = inject_Z (Z.of_nat npars) * (45 # 1000) * (y1 - y0)) /\
  (forall yoffset' e1' o',
      mpl_plot_fit_results_text_box Measurement_str d yoffset' e = (Return o', e1') ->
      o' = o).
Proof.
  assert (Hshape : forall yo e' o',
             mpl_plot_fit_results_text_box Measurement_str d yo e = (Return o', e') ->
             exists npars y0 y1,
               last_item (XYDataSet.fit_npars d) = Return npars /\
               getitem (y_range (self e)) 0 = Return y0 /\
               getitem (y_range (self e)) 1 = Return y1 /\
               o' = inject_Z (Z.of_nat npars) * (45 # 1000) * (y1 - y0)).
  { intros yo e' o' H. unfold mpl_plot_fit_results_text_box in H.
    apply bind_inv in H as ([] & e2 & H2 & H).
    assert (Hy : y_range (self e2) = y_range (self e)).
    { exact (@inv_at _ (fun e0 => y_range (self e0) = y_range (self e)) _ _ _ _
               (@ensure_mpl_figure_keeps_y_range (y_range (self e))) eq_refl H2). }
    clear H2.
    apply bind_inv in H as (p & e3 & H3 & H). apply get_self_inv in H3 as [-> ->].
    cbv zeta in H. rewrite Hy in H.
    apply bind_inv in H as (y1 & e3 & H3 & H). apply lift_inv in H3 as [Hy1 ->].
    apply bind_inv in H as (y0 & e3 & H3 & H). apply lift_inv in H3 as [Hy0 ->].
    apply bind_inv in H as (x1 & e3 & H3 & H). apply lift_inv in H3 as [_ ->].
    apply bind_inv in H as (x0 & e3 & H3 & H). apply lift_inv in H3 as [_ ->].
    apply bind_inv in H as (npars & e3 & H3 & H). apply lift_inv in H3 as [Hn ->].
    apply bind_inv in H as (textfit & e3 & _ & H).
    apply bind_inv in H as ([] & e4 & _ & H).
    apply bind_inv in H as (npars' & e5 & H5 & H). apply lift_inv in H5 as [Hn' ->].
    apply ret_inv in H as [-> _].
    exists npars, y0, y1. repeat split; auto. congruence. }
  intros H. split; [exact (Hshape yoffset e1 o H)|].
  intros yoffset' e1' o' H'.
  destruct (Hshape yoffset e1 o H) as (n & y0 & y1 & Hn & H0 & H1 & ->).
  destruct (Hshape yoffset' e1' o' H') as (n' & y0' & y1' & Hn' & H0' & H1' & ->).
  congruence.
Qed.

End MplText.

Lemma mpl_fit_text_offset_ignores_the_incoming_offset_witness :
  exists o e1,
    mpl_plot_fit_results_text_box Sample.Measurement_str Sample.five_points_fitted 7
                                  Sample.fitted_plot = (Return o, e1) /\
    exists npars y0 y1,
      last_item (XYDataSet.fit_npars Sample.five_points_fitted) = Return npars /\
      getitem (y_range (self Sample.fitted_plot)) 0 = Return y0 /\
      getitem (y_range (self Sample.fitted_plot)) 1 = Return y1 /\
      o = inject_Z (Z.of_nat npars) * (45 # 1000) * (y1 - y0).
Proof.
  destruct (@run_returned _
              (mpl_plot_fit_results_text_box Sample.Measurement_str
                                             Sample.five_points_fitted 7)
              Sample.fitted_plot) as (o & e1 & H).
  - vm_compute. reflexivity.
  - exists o, e1. split; [exact H|].
    exact (proj1 (@mpl_fit_text_offset_ignores_the_incoming_offset
                    Sample.Measurement_str Sample.five_points_fitted 7 _ _ _ H)).
Defined.

Section MplOutput.

Variable Measurement_str : Measurement -> string.
Variable qpu_bk_plot_function :
  Z -> Callable -> list Q -> PyVal -> nat -> Q -> Result (Line * option Patches).

Lemma saved_app (l1 l2 : list PltCall) : saved (l1 ++ l2) = saved l1 ++ saved l2.
Proof. unfold saved. apply filter_app. Qed.

(** The leaves of the drawing code: none of them is [plt.savefig]. *)
Ltac drawing_leaf :=
  match goal with
  | |- inv _ (plt _) =>
      let e := fresh "e" in let H := fresh "H" in
      intros e H; unfold plt; cbn [snd pyplot with_pyplot];
      rewrite saved_app; cbn [saved filter]; rewrite app_nil_r; exact H
  | |- inv _ (run_callable _) =>
      let e := fresh "e" in let H := fresh "H" in
      intros e H; unfold run_callable;
      match goal with |- context [let (_, _) := ?c in _] => destruct c end; exact H
  | |- inv _ (put_minmax_n _) => now intros ? ?
  | |- inv _ (modify_self _) => now intros ? ?
  | |- inv _ (print _) => now intros ? ?
  end.

Lemma populate_mpl_figure_saves_nothing (l : list PltCall) (refresh : bool) :
  inv (fun e => saved (pyplot e) = l) (populate_mpl_figure Measurement_str refresh).
Proof.
  repeat first [progress intros | inv_step | drawing_leaf | open_mpl].
Qed.

(** The calls made so far start with [l]. *)
Lemma populate_mpl_figure_appends (l : list PltCall) (refresh : bool) :
  inv (fun e => exists rest, pyplot e = l ++ rest)
      (populate_mpl_figure Measurement_str refresh).
Proof.
  repeat first
    [ progress intros
    | inv_step
    | match goal with
      | |- inv _ (plt ?c) =>
          let e := fresh "e" in let r := fresh "r" in let H := fresh "H" in
          intros e [r H]; exists (r ++ [c]); unfold plt; cbn [snd pyplot with_pyplot];
          rewrite H; symmetry; apply app_assoc
      | |- inv _ (run_callable _) =>
          let e := fresh "e" in let H := fresh "H" in
          intros e H; unfold run_callable;
          match goal with |- context [let (_, _) := ?c in _] => destruct c end; exact H
      | |- inv _ (put_minmax_n _) => now intros ? ?
      | |- inv _ (modify_self _) => now intros ? ?
      | |- inv _ (print _) => now intros ? ?
      end
    | open_mpl ].
Qed.

(** X14: where [show] saves with the matplotlib engine.  [show] calls
    [set_mpl_output] without passing its [output] argument on, and before
    it draws.  So in a notebook no run of [show] calls [plt.savefig],
    whatever [output] is; and outside a notebook the first pyplot call of
    [show] is [plt.savefig] on [save_filename], made before the figure is
    populated. *)
Theorem show_with_matplotlib_saves_first_or_never
        (output : string) (populate_figure refresh : bool) (e : Env) :
  plot_engine e = EngineMpl ->
  let e' := snd (show Measurement_str qpu_bk_plot_function output populate_figure refresh e) in
  (in_notebook e = true -> saved (pyplot e') = saved (pyplot e)) /\
  (in_notebook e = false ->
   exists rest, pyplot e' = pyplot e ++ plt_savefig (save_filename (self e)) :: rest).
Proof.
  intros Heng e'. subst e'. unfold show. rewrite Heng. split.
  - intros Hnb.
    assert (Hout : exists e0,
               set_mpl_output "inline" e = (Return tt, e0) /\ pyplot e0 = pyplot e).
    { unfold set_mpl_output. rewrite Hnb. cbn [String.eqb Ascii.eqb Bool.eqb negb orb].
      destruct (mpl_ouput_notebook_called e); eexists; split; reflexivity. }
    destruct Hout as (e0 & H0 & Hp). rewrite (bind_Return _ H0). rewrite <- Hp.
    assert (Hinv : inv (fun e1 => saved (pyplot e1) = saved (pyplot e0))
                       (when populate_figure (populate_mpl_figure Measurement_str refresh) ;;
                        plt plt_show)).
    { apply inv_bind; [apply inv_when, populate_mpl_figure_saves_nothing|].
      intros _. intros e1 H1. unfold plt. cbn [snd pyplot with_pyplot].
      rewrite saved_app. cbn [saved filter]. rewrite app_nil_r. exact H1. }
    now apply Hinv.
  - intros Hnb.
    assert (H0 : set_mpl_output "inline" e =
                 (Return tt, with_pyplot (pyplot e ++ [plt_savefig (save_filename (self e))]) e)).
    { unfold set_mpl_output. rewrite Hnb. reflexivity. }
    rewrite (bind_Return _ H0).
    assert (Hinv : inv (fun e1 => exists rest,
                            pyplot e1 =
                              (pyplot e ++ [plt_savefig (save_filename (self e))]) ++ rest)
                       (when populate_figure (populate_mpl_figure Measurement_str refresh) ;;
                        plt plt_show)).
    { apply inv_bind; [apply inv_when, populate_mpl_figure_appends|].
      intros _. intros e1 [r H1]. exists (r ++ [plt_show]). unfold plt.
      cbn [snd pyplot with_pyplot]. rewrite H1. symmetry; apply app_assoc. }
    destruct (Hinv (with_pyplot (pyplot e ++ [plt_savefig (save_filename (self e))]) e))
      as (rest & Hrest).
    + exists []. cbn [pyplot with_pyplot]. now rewrite app_nil_r.
    + exists rest. rewrite Hrest, <- app_assoc. reflexivity.
Qed.

End MplOutput.

Lemma show_with_matplotlib_saves_first_or_never_witness :
  saved (pyplot (snd (show Sample.Measurement_str Sample.qpu_bk_plot_function "file" true true
                           (Sample.with_matplotlib true Sample.fitted_plot))))
    = saved (pyplot (Sample.with_matplotlib true Sample.fitted_plot)) /\
  exists rest,
    pyplot (snd (show Sample.Measurement_str Sample.qpu_bk_plot_function "inline" true true
                      (Sample.with_matplotlib false Sample.fitted_plot)))
      = pyplot (Sample.with_matplotlib false Sample.fitted_plot)
        ++ plt_savefig (save_filename (self (Sample.with_matplotlib false Sample.fitted_plot)))
           :: rest.
Proof.
  split.
  - apply (proj1 (show_with_matplotlib_saves_first_or_never
                    Sample.Measurement_str Sample.qpu_bk_plot_function "file" true true
                    (Sample.with_matplotlib true Sample.fitted_plot) eq_refl)).
    reflexivity.
  - apply (proj2 (show_with_matplotlib_saves_first_or_never
                    Sample.Measurement_str Sample.qpu_bk_plot_function "inline" true true
                    (Sample.with_matplotlib false Sample.fitted_plot) eq_refl)).
    reflexivity.
Defined.


(** ** The bokeh figure *)

Section BokehText.

Variable Measurement_str : Measurement -> string.
Variable qpu_bk_plot_function :
  Z -> Callable -> list Q -> PyVal -> nat -> Q -> Result (Line * option Patches).

Lemma inject_nat_succ (n : nat) :
  inject_Z (Z.of_nat (S n)) == inject_Z (Z.of_nat n) + 1.
Proof. rewrite Nat2Z.inj_succ. unfold Z.succ. now rewrite inject_Z_plus. Qed.

(** The lines after the first: each moves the offset by 18 pixels. *)
Lemma bk_text_lines_inv (d : Dataset) (start_x start_y : Q) (l : list nat) :
  forall (acc o : Q) (e e' : Env),
    (forall i, In i l -> (0 < i)%nat) ->
    for_fold l acc (fun offset i =>
      pars <- lift (last_item (XYDataSet.fit_pars d)) ;;
      par <- lift (item pars i) ;;
      name <- lift (short_name Measurement_str par) ;;
      let offset := if Nat.ltb 0 i then offset + 18 else offset in
      bkfigure_add (BkLabel start_x (start_y - offset) name) ;;
      ret offset) e = (Return o, e') ->
    o == acc + 18 * inject_Z (Z.of_nat (List.length l)).
Proof.
  induction l as [|i t IH]; intros acc o e e' Hpos H; simpl in H.
  - apply ret_inv in H as [-> _]. simpl. unfold inject_Z. ring.
  - apply bind_inv in H as (acc1 & e1 & H1 & H).
    apply bind_inv in H1 as (pars & e2 & _ & H1).
    apply bind_inv in H1 as (par & e3 & _ & H1).
    apply bind_inv in H1 as (name & e4 & _ & H1).
    cbv zeta in H1.
    apply bind_inv in H1 as ([] & e5 & _ & H1).
    apply ret_inv in H1 as [-> _].
    assert (Hi : Nat.ltb 0 i = true) by (apply Nat.ltb_lt, Hpos; now left).
    rewrite Hi in H.
    apply IH in H; [|intros j Hj; apply Hpos; now right].
    rewrite H. cbn [List.length]. rewrite inject_nat_succ. ring.
Qed.

(** X15: on the bokeh backend the offset of the fit-results text builds on
    the one passed in.  When [bk_plot_fit_results_text_box] returns, the
    value is the incoming offset plus 18 pixels for each parameter of the
    dataset's latest fit after the first. *)
Theorem bk_fit_text_offset_accumulates (d : Dataset) (yoffset : Q) (e e1 : Env) (o : Q) :
  bk_plot_fit_results_text_box Measurement_str d yoffset e = (Return o, e1) ->
  exists npars,
    last_item (XYDataSet.fit_npars d) = Return npars /\
    o == yoffset + 18 * inject_Z (Z.of_nat (npars - 1)).
Proof.
  unfold bk_plot_fit_results_text_box. intros H.
  apply bind_inv in H as ([] & e2 & _ & H).
  apply bind_inv in H as (p & e3 & H3 & H). apply get_self_inv in H3 as [-> ->].
  cbv zeta in H.
  apply bind_inv in H as (npars & e3 & H3 & H). apply lift_inv in H3 as [Hn ->].
  exists npars. split; [exact Hn|].
  destruct npars as [|n].
  - simpl in H. apply ret_inv in H as [-> _]. simpl. unfold inject_Z. ring.
  - cbn [seq for_fold] in H.
    apply bind_inv in H as (acc1 & e4 & H4 & H).
    apply bind_inv in H4 as (pars & e5 & _ & H4).
    apply bind_inv in H4 as (par & e6 & _ & H4).
    apply bind_inv in H4 as (name & e7 & _ & H4).
    cbv zeta in H4. cbn [Nat.ltb Nat.leb] in H4.
    apply bind_inv in H4 as ([] & e8 & _ & H4).
    apply ret_inv in H4 as [-> _].
    apply bk_text_lines_inv in H.
    + rewrite H, length_seq. replace (S n - 1)%nat with n by lia. reflexivity.
    + intros i Hi. apply in_seq in Hi. lia.
Qed.

Lemma pixelcount_fold_returns (ds : list Dataset) (e : Env) :
  (forall d, In d ds -> (0 < XYDataSet.nfits d)%nat ->
             exists k, last_item (XYDataSet.fit_npars d) = Return k) ->
  forall acc, exists n,
    for_fold ds acc (fun pixelcount dataset =>
      if Nat.ltb 0 (XYDataSet.nfits dataset) then
        npars <- lift (last_item (XYDataSet.fit_npars dataset)) ;;
        ret (pixelcount + npars * 25)%nat
      else ret pixelcount) e = (Return n, e).
Proof.
  induction ds as [|d t IH]; intros Hok acc; simpl.
  - now exists acc.
  - destruct (Nat.ltb 0 (XYDataSet.nfits d)) eqn:Hfit.
    + destruct (Hok d (or_introl eq_refl)) as (k & Hk); [now apply Nat.ltb_lt|].
      destruct (IH (fun d' H' => Hok d' (or_intror H')) (acc + k * 25)%nat) as (n & Hn).
      exists n. unfold bind at 1. unfold bind at 1. unfold lift at 1. rewrite Hk.
      unfold ret at 1. exact Hn.
    + destruct (IH (fun d' H' => Hok d' (or_intror H')) acc) as (n & Hn).
      exists n. unfold bind at 1. unfold ret at 1. exact Hn.
Qed.

Lemma pixelcount_of_returns (ds : list Dataset) (e : Env) :
  (forall d, In d ds -> (0 < XYDataSet.nfits d)%nat ->
             exists k, last_item (XYDataSet.fit_npars d) = Return k) ->
  exists n, pixelcount_of ds e = (Return n, e).
Proof. intros H. unfold pixelcount_of. now apply pixelcount_fold_returns. Qed.


(** X17: a [y_range] stored as a tuple cannot be shown with bokeh.
    [populate_bokeh_figure] always writes the upper bound of [y_range] (to
    make room for the fit results, and to put the recalled value back), so
    on a tuple of two numbers it raises [TypeError], with [y_range] left as
    it was. *)
Theorem populate_bokeh_figure_on_a_tuple_range_raises (e : Env) (c d : Q) :
  y_range (self e) = mkSeq TTuple [SNum c; SNum d] ->
  (show_fit_results (self e) = true -> ~ snd (dimensions (self e)) == 0) ->
  (forall ds, In ds (datasets (self e)) -> (0 < XYDataSet.nfits ds)%nat ->
              exists k, last_item (XYDataSet.fit_npars ds) = Return k) ->
  raises (populate_bokeh_figure Measurement_str qpu_bk_plot_function) e TypeError
    (fun e' => y_range (self e') = y_range (self e)).
Proof.
  intros Hy Hdim Hok.
  destruct (@pixelcount_of_returns _ e Hok) as (n & Hn).
  unfold populate_bokeh_figure.
  apply raises_later; eapply returns_eq; [reflexivity|]; cbv beta.
  rewrite Hy.
  apply raises_later; eapply returns_eq; [reflexivity|]; cbv beta.
  destruct (show_fit_results (self e)) eqn:Hshow.
  - apply raises_now. cbn [when].
    apply raises_later; eapply returns_eq; [exact Hn|]; cbv beta.
    apply raises_later; eapply returns_eq; [reflexivity|]; cbv beta.
    destruct (Qeq_bool (snd (dimensions (self e))) 0) eqn:Hz.
    + apply Qeq_bool_iff in Hz. now destruct (Hdim eq_refl).
    + eapply raises_eq.
      * unfold set_y_range_item, bind, get_self, lift. rewrite Hy. reflexivity.
      * exact Hy.
  - apply raises_later; eapply returns_eq; [reflexivity|]; cbv beta.
    apply raises_later; eapply returns_eq;
      [unfold initialize_bokeh_figure, bind, get_self, modify_self, ret; cbn [negb];
       reflexivity|]; cbv beta.
    apply raises_now.
    eapply raises_eq.
    + unfold set_y_range_item, bind, get_self, lift.
      cbn [self with_self y_range with_bkfigure]. rewrite Hy. reflexivity.
    + exact Hy.
Qed.

End BokehText.

(** X18: the notebook output of bokeh is set up once per process.  In a
    notebook, and for any [output] other than ["file"], [set_bokeh_output]
    calls [bi.output_notebook] only if no earlier call has done so, and
    records it; a second call then does nothing at all. *)
Theorem bokeh_notebook_output_is_set_up_once (output output' : string) (e : Env) :
  in_notebook e = true ->
  String.eqb output "file" = false ->
  String.eqb output' "file" = false ->
  exists e1,
    set_bokeh_output output e = (Return tt, e1) /\
    bokeh_ouput_notebook_called e1 = true /\
    bokeh_io e1 =
      bokeh_io e ++ (if bokeh_ouput_notebook_called e then [] else [bi_output_notebook]) /\
    self e1 = self e /\
    set_bokeh_output output' e1 = (Return tt, e1).
Proof.
  intros Hnb Ho Ho'. unfold set_bokeh_output. rewrite Hnb, Ho. cbn [negb orb].
  destruct (bokeh_ouput_notebook_called e) eqn:Hc; cbn [negb].
  - exists e. rewrite app_nil_r, Hnb, Ho', Hc. repeat split.
  - eexists. split; [reflexivity|].
    cbn. rewrite Hnb, Ho'. repeat split.
Qed.


Lemma bk_fit_text_offset_accumulates_witness :
  exists o e1 npars,
    bk_plot_fit_results_text_box Sample.Measurement_str Sample.five_points_fitted 10
                                 Sample.fitted_plot = (Return o, e1) /\
    last_item (XYDataSet.fit_npars Sample.five_points_fitted) = Return npars /\
    o == 10 + 18 * inject_Z (Z.of_nat (npars - 1)).
Proof.
  destruct (@run_returned _
              (bk_plot_fit_results_text_box Sample.Measurement_str
                                            Sample.five_points_fitted 10)
              Sample.fitted_plot) as (o & e1 & H).
  - vm_compute. reflexivity.
  - destruct (@bk_fit_text_offset_accumulates
                Sample.Measurement_str Sample.five_points_fitted 10 _ _ _ H)
      as (npars & Hn & Ho).
    exists o, e1, npars. split; [exact H|]. split; [exact Hn | exact Ho].
Defined.


Lemma populate_bokeh_figure_on_a_tuple_range_raises_witness :
  let e := snd (set_plot_range Sample.ARRAY PyNone (PySeq (mkSeq TTuple [SNum 0; SNum 10]))
                               Sample.fitted_plot) in
  raises (populate_bokeh_figure Sample.Measurement_str Sample.qpu_bk_plot_function) e TypeError
         (fun e' => y_range (self e') = y_range (self e)).
Proof.
  intros e.
  apply (@populate_bokeh_figure_on_a_tuple_range_raises
           Sample.Measurement_str Sample.qpu_bk_plot_function e 0 10).
  - reflexivity.
  - intros _. vm_compute. discriminate.
  - intros d [<-|[]] _. exists 2%nat. reflexivity.
Defined.

Lemma bokeh_notebook_output_is_set_up_once_witness :
  exists e1,
    set_bokeh_output "inline" Sample.fitted_plot = (Return tt, e1) /\
    bokeh_io e1 = [bi_output_notebook] /\
    set_bokeh_output "inline" e1 = (Return tt, e1).
Proof.
  destruct (bokeh_notebook_output_is_set_up_once "inline" "inline" Sample.fitted_plot
              eq_refl eq_refl eq_refl) as (e1 & H & _ & Hio & _ & H').
  exists e1. split; [exact H|]. split; [exact Hio | exact H'].
Defined.


(** ** More on the linear-fit entry points *)

Section LinearFitMore.

Variable clear_fits : Dataset -> Dataset.
Variable fit : Dataset -> string -> Result Dataset.
Variable Measurement_str : Measurement -> string.
Variable qpu_bk_plot_function :
  Z -> Callable -> list Q -> PyVal -> nat -> Q -> Result (Line * option Patches).

Lemma refit_last_linear_keeps_ranges (xr yr : Seq) :
  inv (ranges_are xr yr) (refit_last_linear clear_fits fit).
Proof. unfold refit_last_linear. keep_ranges. Qed.

Lemma extend_range_to_zero_idle (d : Dataset) (pars : list Measurement) (xr yr : Seq)
      (a : Q) :
  getitem xr 0 = Return a ->
  a <= - (1 # 2) ->
  inv (ranges_are xr yr) (extend_range_to_zero d pars).
Proof.
  intros Ha Hle e [Hx Hy]. unfold extend_range_to_zero, bind, get_self, lift.
  rewrite Hx, Ha.
  apply (proj2 (Qlt_bool_false_iff _ _)) in Hle. rewrite Hle.
  now split.
Qed.

(** X19: a plot that already starts at or left of -0.5 keeps its ranges.
    When [x_range[0]] is a number not above -0.5, neither
    [interactive_linear_fit] nor [bk_show_linear_fit] changes [x_range] or
    [y_range], whether the call returns or raises. *)
Theorem linear_fit_keeps_ranges_that_reach_zero (a : Q) (e : Env) :
  getitem (x_range (self e)) 0 = Return a ->
  a <= - (1 # 2) ->
  (forall error_range,
      ranges_are (x_range (self e)) (y_range (self e))
                 (snd (interactive_linear_fit clear_fits fit error_range e))) /\
  (forall output,
      ranges_are (x_range (self e)) (y_range (self e))
                 (snd (bk_show_linear_fit clear_fits fit Measurement_str qpu_bk_plot_function
                                          output e))).
Proof.
  intros Ha Hle. split.
  - intros error_range.
    assert (Hinv : inv (ranges_are (x_range (self e)) (y_range (self e)))
                       (interactive_linear_fit clear_fits fit error_range)).
    { unfold interactive_linear_fit.
      apply inv_bind; [apply refit_last_linear_keeps_ranges|]. intros [d color].
      apply inv_bind; [apply inv_lift|]. intros func.
      apply inv_bind; [apply inv_lift|]. intros pars.
      apply inv_bind; [now apply (@extend_range_to_zero_idle d pars _ _ a)|]. intros _.
      keep_ranges. }
    apply Hinv. now split.
  - intros output.
    assert (Hinv : inv (ranges_are (x_range (self e)) (y_range (self e)))
                       (bk_show_linear_fit clear_fits fit Measurement_str
                                           qpu_bk_plot_function output)).
    { unfold bk_show_linear_fit.
      apply inv_bind; [apply refit_last_linear_keeps_ranges|]. intros [d color].
      apply inv_bind; [apply inv_lift|]. intros func.
      apply inv_bind; [apply inv_lift|]. intros pars.
      apply inv_bind; [now apply (@extend_range_to_zero_idle d pars _ _ a)|]. intros _.
      keep_ranges. apply show_populated_keeps. }
    apply Hinv. now split.
Qed.

Lemma last_item_set_last {A : Type} (l : list A) (x v : A) :
  last_item l = Return x -> last_item (set_last l v) = Return v.
Proof.
  unfold last_item, set_last. destruct (rev l) as [|y t]; [discriminate|]. intros _.
  rewrite rev_app_distr. reflexivity.
Qed.

Lemma refit_last_linear_fails (e : Env) (d0 : Dataset) (c : string) (x : exn) :
  last_item (datasets (self e)) = Return d0 ->
  last_item (datasets_colors (self e)) = Return c ->
  fit (clear_fits d0) "linear" = Raise x ->
  raises (refit_last_linear clear_fits fit) e x
    (fun e' =>
       last_item (datasets (self e')) = Return (clear_fits d0) /\
       List.length (datasets (self e')) = List.length (datasets (self e)) /\
       ranges_are (x_range (self e)) (y_range (self e)) e').
Proof.
  intros Hd Hc Hfit. unfold refit_last_linear.
  apply raises_later; eapply returns_eq; [reflexivity|]; cbv beta.
  assert (Hw : returns (when (Nat.ltb 1 (List.length (datasets (self e))))
                          (print "Warning: only using the last added dataset, and clearing previous fits"))
                       e (fun _ e1 => self e1 = self e)).
  { destruct (Nat.ltb 1 (List.length (datasets (self e)))); (eapply returns_eq; [reflexivity|]);
      reflexivity. }
  apply raises_later. eapply returns_weaken; [|exact Hw]. clear Hw.
  intros [] e1 Hs. cbv beta. rewrite Hd, Hc.
  apply raises_later; eapply returns_eq; [reflexivity|]; cbv beta.
  apply raises_later; eapply returns_eq; [reflexivity|]; cbv beta.
  apply raises_later; eapply returns_eq; [reflexivity|]; cbv beta.
  apply raises_now. rewrite Hfit.
  eapply raises_eq; [reflexivity|].
  cbn [self with_self datasets with_datasets x_range y_range]. rewrite Hs.
  split; [now apply (@last_item_set_last _ _ d0)|]. split; [|now split].
  unfold set_last, last_item in *. destruct (rev (datasets (self e))) as [|y t] eqn:E;
    [discriminate|].
  rewrite length_app, length_rev. simpl.
  rewrite <- (length_rev (datasets (self e))), E. simpl. lia.
Qed.

(** X20: a linear fit that fails has already discarded the earlier fits.
    Both entry points call [clear_fits] on the last dataset before they
    fit it; when [fit("linear")] then raises, the exception reaches the
    caller, the last dataset of the plot is the cleared one, and the ranges
    and the number of datasets are as they were. *)
Theorem failed_linear_fit_has_cleared_the_dataset
        (e : Env) (d0 : Dataset) (c : string) (x : exn) :
  last_item (datasets (self e)) = Return d0 ->
  last_item (datasets_colors (self e)) = Return c ->
  fit (clear_fits d0) "linear" = Raise x ->
  let cleared e' :=
    last_item (datasets (self e')) = Return (clear_fits d0) /\
    List.length (datasets (self e')) = List.length (datasets (self e)) /\
    ranges_are (x_range (self e)) (y_range (self e)) e' in
  (forall error_range,
      raises (interactive_linear_fit clear_fits fit error_range) e x cleared) /\
  (forall output,
      raises (bk_show_linear_fit clear_fits fit Measurement_str qpu_bk_plot_function output)
             e x cleared).
Proof.
  intros Hd Hc Hfit cleared. split.
  - intros error_range. unfold interactive_linear_fit.
    apply raises_now. now apply (@refit_last_linear_fails e d0 c x).
  - intros output. unfold bk_show_linear_fit.
    apply raises_now. now apply (@refit_last_linear_fails e d0 c x).
Qed.





End LinearFitMore.

Lemma linear_fit_keeps_ranges_that_reach_zero_witness :
  ranges_are (x_range (self Sample.fitted_plot)) (y_range (self Sample.fitted_plot))
             (snd (interactive_linear_fit Sample.clear_fits Sample.fit 5 Sample.fitted_plot)).
Proof.
  apply (proj1 (@linear_fit_keeps_ranges_that_reach_zero
                  Sample.clear_fits Sample.fit Sample.Measurement_str
                  Sample.qpu_bk_plot_function (- (1 # 2)) Sample.fitted_plot
                  ltac:(vm_compute; reflexivity) ltac:(vm_compute; discriminate))).
Defined.

Lemma failed_linear_fit_has_cleared_the_dataset_witness :
  raises (interactive_linear_fit Sample.clear_fits Sample.fit 5)
         Sample.one_point_plot CollaboratorError
         (fun e' =>
            last_item (datasets (self e')) = Return (Sample.clear_fits Sample.one_point) /\
            List.length (datasets (self e')) = List.length (datasets (self Sample.one_point_plot)) /\
            ranges_are (x_range (self Sample.one_point_plot))
                       (y_range (self Sample.one_point_plot)) e').
Proof.
  apply (proj1 (@failed_linear_fit_has_cleared_the_dataset
                  Sample.clear_fits Sample.fit Sample.Measurement_str
                  Sample.qpu_bk_plot_function Sample.one_point_plot Sample.one_point
                  "#e41a1c" CollaboratorError
                  ltac:(reflexivity) ltac:(reflexivity) ltac:(reflexivity))).
Defined.



(** ** The residual figure and the main figure of bokeh *)

Section BokehFigures.

Variable Measurement_str : Measurement -> string.
Variable qpu_bk_plot_function :
  Z -> Callable -> list Q -> PyVal -> nat -> Q -> Result (Line * option Patches).

(** X22: drawing residuals needs both figures.  [bk_plot_dataset] with
    [residual=True] draws on [self.bkres]; without a main figure it tries
    to create the residual figure, which reads the main figure it has just
    found missing.  So the call raises [AttributeError] unless both the
    main and the residual figure exist already, and then it adds the
    dataset to the residual figure and touches nothing else. *)
Theorem bk_plot_dataset_residual_needs_both_figures
        (d : Dataset) (color : string) (show_fit_function : bool) (e : Env) :
  (has (bkfigure (self e)) && has (bkres (self e)) = false ->
   fst (bk_plot_dataset qpu_bk_plot_function d true color show_fit_function e)
     = Raise AttributeError) /\
  (forall res,
      has (bkfigure (self e)) = true ->
      bkres (self e) = Some res ->
      bk_plot_dataset qpu_bk_plot_function d true color show_fit_function e =
        (Return tt,
         with_self (with_bkres (Some (add_renderer (BkDataset d true color) res)) (self e)) e)).
Proof.
  unfold bk_plot_dataset, bkres_add, initialize_bokeh_figure, bind, get_self, when.
  cbn [negb]. split.
  - intros H. destruct (bkfigure (self e)) as [fig|] eqn:Hfig; cbn [has negb] in *.
    + unfold ret. rewrite ?Hfig. destruct (bkres (self e)); [discriminate | reflexivity].
    + rewrite ?Hfig. destruct (yres_range (self e)); reflexivity.
  - intros res Hfig Hres. destruct (bkfigure (self e)); [|discriminate].
    cbn [has negb]. unfold ret. rewrite Hres. reflexivity.
Qed.

(** X23: without the text of the fit results nothing is inflated.  When
    [show_fit_results] is off and [populate_bokeh_figure] returns, the main
    figure was created with [y_range] as the caller left it, and
    [self.y_range] is the same afterwards. *)
Theorem populate_bokeh_figure_without_fit_results_keeps_the_range
        (e e' : Env) (fig : BkObj) :
  show_fit_results (self e) = false ->
  populate_bokeh_figure Measurement_str qpu_bk_plot_function e = (Return fig, e') ->
  main_y_range (Some fig) = Some (y_range (self e)) /\
  y_range (self e') = y_range (self e).
Proof.
  intros Hshow H. unfold populate_bokeh_figure in H.
  apply bind_inv in H as (p & e0 & Hp & H). apply get_self_inv in Hp as [-> ->].
  apply bind_inv in H as (recall & e0 & Hr & H). apply lift_inv in Hr as [Hrecall ->].
  apply bind_inv in H as ([] & e1 & Hinfl & H).
  rewrite Hshow in Hinfl. apply ret_inv in Hinfl as [_ ->].
  apply bind_inv in H as (f & e2 & Hfig & H).
  apply initialize_main_figure_inv in Hfig as (Hf & Hy2 & Hb2).
  apply bind_inv in H as ([] & e4 & Hback & H).
  apply set_y_range_item_inv in Hback as [_ Hback].
  assert (Hstate : bk_state (y_range (self e)) (y_range (self e)) e4).
  { rewrite Hback. split; cbn [self with_self y_range with_y_range bkfigure].
    - rewrite Hy2.
      unfold getitem_raw in Hrecall.
      destruct (nth_error (items (y_range (self e))) 1) as [s|] eqn:E; [|discriminate].
      injection Hrecall as <-.
      rewrite (replace_nth_same _ _ E). now destruct (y_range (self e)).
    - rewrite Hb2. simpl. now rewrite Hf. }
  clear Hback Hf Hy2 Hb2 f e2.
  repeat match type of H with
         | bind ?m ?k ?x = (Return fig, e') =>
             lazymatch m with
             | get_self =>
                 lazymatch k with
                 | (fun p => bind (when (show_residuals p) (bind (attr _) _)) _) => fail
                 | _ => let Hm := fresh "Hm" in
                        apply bind_inv in H; destruct H as (? & ? & Hm & H);
                        apply get_self_inv in Hm as [-> ->]
                 end
             | _ => let Hm := fresh "Hm" in
                    let e5 := fresh "e" in
                    let Hnew := fresh "Hnew" in
                    apply bind_inv in H; destruct H as (? & e5 & Hm & H);
                    assert (Hnew : bk_state (y_range (self e)) (y_range (self e)) e5);
                    [ eapply inv_at; [| exact Hstate | exact Hm];
                      keep;
                      first [ apply initialize_residual_figure_keeps
                            | apply bk_plot_dataset_keeps
                            | apply bk_plot_fit_results_text_box_keeps
                            | apply function_xdata_keeps
                            | apply bk_plot_function_keeps
                            | apply set_legend_keeps ]
                    | clear Hm Hstate; rename Hnew into Hstate ]
             end
         end.
  destruct (populate_bokeh_figure_end Hstate H) as [Hy Hm].
  split; [exact Hm | exact Hy].
Qed.

End BokehFigures.

Lemma bk_plot_dataset_residual_needs_both_figures_witness :
  fst (bk_plot_dataset Sample.qpu_bk_plot_function Sample.five_points_fitted true "black" true
                       Sample.fitted_plot) = Raise AttributeError.
Proof.
  apply (proj1 (bk_plot_dataset_residual_needs_both_figures
                  Sample.qpu_bk_plot_function Sample.five_points_fitted "black" true
                  Sample.fitted_plot)).
  reflexivity.
Defined.


Lemma populate_bokeh_figure_without_fit_results_keeps_the_range_witness :
  exists fig e',
    populate_bokeh_figure Sample.Measurement_str Sample.qpu_bk_plot_function
                          Sample.quiet_plot = (Return fig, e') /\
    main_y_range (Some fig) = Some (y_range (self Sample.quiet_plot)) /\
    y_range (self e') = y_range (self Sample.quiet_plot).
Proof.
  destruct (@run_returned _
              (populate_bokeh_figure Sample.Measurement_str Sample.qpu_bk_plot_function)
              Sample.quiet_plot) as (fig & e' & H).
  - vm_compute. reflexivity.
  - exists fig, e'. split; [exact H|].
    apply (@populate_bokeh_figure_without_fit_results_keeps_the_range
             Sample.Measurement_str Sample.qpu_bk_plot_function Sample.quiet_plot e' fig);
      [reflexivity | exact H].
Defined.


(** ** The text of a fit parameter *)

Lemma split_on_without (c : Ascii.ascii) (s : string) :
  occurs c s = false -> split_on c s = [s].
Proof.
  induction s as [|a s IH]; simpl; intros H; [reflexivity|].
  apply orb_false_iff in H as [Ha Hs]. rewrite Ha, (IH Hs). reflexivity.
Qed.

Lemma split_on_first (c : Ascii.ascii) (a r : string) :
  occurs c a = false -> split_on c (a ++ String c r) = a :: split_on c r.
Proof.
  induction a as [|x a IH]; simpl; intros H.
  - now rewrite Ascii.eqb_refl.
  - apply orb_false_iff in H as [Hx Ha]. rewrite Hx, (IH Ha). reflexivity.
Qed.

Lemma split_on_last (c : Ascii.ascii) (b z : string) :
  occurs c z = false ->
  exists h t, split_on c (b ++ String c z) = h :: t ++ [z].
Proof.
  intros Hz. induction b as [|x b (h & t & IH)]; simpl.
  - rewrite Ascii.eqb_refl, (split_on_without _ _ Hz). now exists EmptyString, [].
  - rewrite IH. destruct (Ascii.eqb x c).
    + now exists EmptyString, (h :: t).
    + now exists (String x h), t.
Qed.

Lemma split_on_nonempty (c : Ascii.ascii) (s : string) : split_on c s <> [].
Proof.
  induction s as [|a s IH]; simpl; [discriminate|].
  destruct (Ascii.eqb a c); [discriminate|].
  destruct (split_on c s); [contradiction | discriminate].
Qed.

Section FitText.

Variable Measurement_str : Measurement -> string.

(** X24: the label of a fit parameter, in both text boxes, is the first and
    the last piece of the parameter's string cut at the underscores, joined
    by one underscore.  It is always defined.  A string with one
    underscore is shown as it is; of a string with more, only what is
    before the first and after the last underscore is kept; and a string
    without underscore is shown twice, with an underscore between the
    copies. *)
Theorem short_name_keeps_the_first_and_the_last_piece (m : Measurement) :
  (exists a z, short_name Measurement_str m = Return (a ++ "_" ++ z)%string) /\
  (forall a z,
      Measurement_str m = (a ++ "_" ++ z)%string ->
      occurs "_" a = false -> occurs "_" z = false ->
      short_name Measurement_str m = Return (Measurement_str m)) /\
  (forall a b z,
      Measurement_str m = (a ++ "_" ++ b ++ "_" ++ z)%string ->
      occurs "_" a = false -> occurs "_" z = false ->
      short_name Measurement_str m = Return (a ++ "_" ++ z)%string) /\
  (occurs "_" (Measurement_str m) = false ->
   short_name Measurement_str m =
     Return (Measurement_str m ++ "_" ++ Measurement_str m)%string).
Proof.
  unfold short_name. split; [|split; [|split]].
  - pose proof (split_on_nonempty "_" (Measurement_str m)) as Hne.
    destruct (split_on "_" (Measurement_str m)) as [|a t] eqn:E; [contradiction|].
    destruct (@last_item_nonempty _ (a :: t)) as (z & Hz); [discriminate|].
    exists a, z. unfold item. simpl nth_error. now rewrite Hz.
  - intros a z Hs Ha Hz. rewrite Hs.
    change (a ++ "_" ++ z)%string with (a ++ String "_" z)%string.
    rewrite (split_on_first _ _ _ Ha), (split_on_without _ _ Hz). reflexivity.
  - intros a b z Hs Ha Hz. rewrite Hs.
    change (a ++ "_" ++ b ++ "_" ++ z)%string with (a ++ String "_" (b ++ String "_" z))%string.
    rewrite (split_on_first _ _ _ Ha).
    destruct (split_on_last "_" b z Hz) as (h & t & ->).
    unfold item. simpl nth_error.
    replace (a :: h :: t ++ [z]) with ((a :: h :: t) ++ [z]) by reflexivity.
    now rewrite last_item_app.
  - intros Hs. rewrite (split_on_without _ _ Hs). reflexivity.
Qed.

End FitText.

Lemma short_name_keeps_the_first_and_the_last_piece_witness :
  short_name Sample.Measurement_str (mkMeasurement 1 0 (Some "a_long_name")) = Return "a_name" /\
  short_name Sample.Measurement_str (mkMeasurement 1 0 None) = Return "unnamed_unnamed".
Proof.
  split.
  - apply (proj1 (proj2 (proj2 (short_name_keeps_the_first_and_the_last_piece
                                  Sample.Measurement_str
                                  (mkMeasurement 1 0 (Some "a_long_name"))))) "a" "long" "name");
      reflexivity.
  - apply (proj2 (proj2 (proj2 (short_name_keeps_the_first_and_the_last_piece
                                  Sample.Measurement_str (mkMeasurement 1 0 None)))));
      reflexivity.
Defined.


(** ** The size of the figure and the palette *)

(** X25: [resize_plot] does not keep what it is not given.  The call sets
    both dimensions: a width or a height that is left out becomes 600 or
    400, whatever the size was; only an omitted [mpl_scaling] keeps its
    current value.  The bokeh figure created next has exactly these
    dimensions. *)
Theorem resize_plot_resets_omitted_dimensions (width height scaling : option Q) (e : Env) :
  let w := match width with Some w => w | None => 600 end in
  let h := match height with Some h => h | None => 400 end in
  exists e1 f e2,
    resize_plot width height scaling e = (Return tt, e1) /\
    dimensions (self e1) = (w, h) /\
    mpl_scaling (self e1) = match scaling with Some s => s | None => mpl_scaling (self e) end /\
    initialize_bokeh_figure false e1 = (Return f, e2) /\
    bk_width f = w /\ bk_height f = h.
Proof.
  intros w h. unfold resize_plot.
  destruct scaling as [s|]; (do 3 eexists; split; [reflexivity|]);
    (split; [reflexivity|]); (split; [reflexivity|]);
    (split; [unfold initialize_bokeh_figure, bind, get_self, modify_self, ret; cbn [negb];
             reflexivity|]);
    split; reflexivity.
Qed.

Lemma get_color_from_an_empty_palette (e : Env) :
  color_palette (self e) = [] ->
  _get_color_from_palette e = (Raise IndexError, with_self (with_color_count 1 (self e)) e).
Proof.
  intros Hp. unfold _get_color_from_palette, bind, modify_self, get_self, when, lift, item.
  cbn [fst snd self with_self color_count color_palette with_color_count].
  rewrite Hp. cbn [List.length].
  replace (Nat.ltb 0 (color_count (self e) + 1)) with true
    by (symmetry; apply Nat.ltb_lt; lia).
  cbn [fst snd self with_self color_count color_palette with_color_count].
  rewrite Hp. cbn.
  destruct e as [p n o py bk pe nb c1 c2]. cbn. destruct p. reflexivity.
Qed.

Lemma combine_unpaired {A B : Type} (l : list A) (l' : list B) (x : A) :
  List.length l' = List.length l -> combine (l ++ [x]) l' = combine l l'.
Proof.
  revert l'. induction l as [|a l IH]; intros [|b l'] H; simpl in *; try discriminate; auto.
  f_equal. apply IH. congruence.
Qed.

Section EmptyPalette.

Variable get_x_range get_y_range get_yres_range : Dataset -> Q -> Q * Q.

(** X26: an empty palette.  With no colour left to take,
    [_get_color_from_palette] raises [IndexError]; in [add_dataset] without
    a [color] this happens after the dataset has been appended (and, on a
    plot without datasets, after the plot has been initialized from it), so
    the plot is left with one dataset more than colours, and the pairs
    that the [populate_*_figure] methods draw do not include the new
    dataset. *)
Theorem add_dataset_with_an_empty_palette_raises (d : Dataset) (name : option string)
        (e : Env) :
  color_palette (self e) = [] ->
  List.length (datasets_colors (self e)) = List.length (datasets (self e)) ->
  raises (add_dataset get_x_range get_y_range get_yres_range d None name) e IndexError
    (fun e' =>
       datasets (self e') = datasets (self e) ++ [d] /\
       datasets_colors (self e') = datasets_colors (self e) /\
       combine (datasets (self e')) (datasets_colors (self e')) =
         combine (datasets (self e)) (datasets_colors (self e))).
Proof.
  intros Hp Hlen. unfold add_dataset.
  apply raises_later; eapply returns_eq; [reflexivity|]; cbv beta.
  apply raises_later; eapply returns_eq; [reflexivity|]; cbv beta.
  set (e0 := with_self (with_datasets (datasets (self e) ++ [d]) (self e)) e).
  assert (Hinit :
    returns (when (Nat.ltb (List.length (datasets (self e0))) 2)
                  (initialize_from_dataset get_x_range get_y_range get_yres_range d)) e0
      (fun _ e1 => attached_are (datasets (self e) ++ [d]) (datasets_colors (self e)) [] e1)).
  { destruct (Nat.ltb (List.length (datasets (self e0))) 2).
    - cbn [when].
      eapply returns_weaken;
        [|apply returns_conj;
          [apply (initialize_from_dataset_returns get_x_range get_y_range get_yres_range d e0)
          |apply (initialize_from_dataset_facts get_x_range get_y_range get_yres_range d e0)]].
      intros _ e1 [(_ & _ & Hs) (_ & _ & _ & Hd & Hc & _)]. cbv beta in *.
      destruct Hs as [_ _ Hpal _].
      unfold attached_are. rewrite Hd, Hc, Hpal. unfold e0. cbn. now rewrite Hp.
    - cbn [when]. eapply returns_eq; [reflexivity|].
      unfold attached_are, e0. cbn. now rewrite Hp. }
  apply raises_later. eapply returns_weaken; [|exact Hinit]. clear Hinit.
  intros [] e1 (Hd1 & Hc1 & Hp1). cbv beta.
  apply raises_now. apply raises_now.
  eapply raises_eq; [apply (get_color_from_an_empty_palette e1 Hp1)|].
  cbn [self with_self datasets datasets_colors with_color_count].
  rewrite Hd1, Hc1. split; [reflexivity|]. split; [reflexivity|].
  now apply combine_unpaired.
Qed.

End EmptyPalette.

Lemma add_dataset_with_an_empty_palette_raises_witness :
  raises (add_dataset Sample.get_x_range Sample.get_y_range Sample.get_yres_range
                      Sample.far_points None None)
         Sample.colourless IndexError
         (fun e' =>
            datasets (self e') = datasets (self Sample.colourless) ++ [Sample.far_points] /\
            datasets_colors (self e') = datasets_colors (self Sample.colourless) /\
            combine (datasets (self e')) (datasets_colors (self e')) =
              combine (datasets (self Sample.colourless))
                      (datasets_colors (self Sample.colourless))).
Proof.
  apply (add_dataset_with_an_empty_palette_raises
           Sample.get_x_range Sample.get_y_range Sample.get_yres_range
           Sample.far_points None Sample.colourless).
  - reflexivity.
  - reflexivity.
Defined.


(** ** What the matplotlib figure shows *)



























Section Curves.

Variable Measurement_str : Measurement -> string.







End Curves.


